(** * A shallow embedding of the CU Marketplace bot (src/bot.py)

    Text is modelled as Rocq [string]s whose characters are read as the
    Unicode code points U+0000 .. U+00FF (Latin-1); [str.lower] and the
    regular-expression class [\w] are written out exactly for that range.
    Database tables are lists of records, the aiogram FSM context is a
    record holding the optional state and the data dictionary, and each
    handler is a computation in a small state-and-exception monad. *)

From Stdlib Require Import String Ascii List Bool Arith Lia ZArith QArith.
From Stdlib Require Import Sorting.Sorted Sorting.Permutation.
Import ListNotations.

Open Scope nat_scope.
Open Scope bool_scope.

(* ------------------------------------------------------------------ *)
(** ** Characters and strings (Python [str] operations) *)

Module Text.

(** [c.lower()] on a Latin-1 code point: A-Z and U+00C0..U+00DE except
  U+00D7 map to the code point 32 higher; everything else is unchanged. *)
Definition py_lower_char (c : ascii) : ascii :=
let n := nat_of_ascii c in
if ((65 <=? n) && (n <=? 90)) || ((192 <=? n) && (n <=? 222) && negb (n =? 215))
then ascii_of_nat (n + 32) else c.

Fixpoint str_map (f : ascii -> ascii) (s : string) : string :=
match s with
| EmptyString => EmptyString
| String c s' => String (f c) (str_map f s')
end.

(** [s.lower()] *)
Definition py_lower (s : string) : string := str_map py_lower_char s.

(** The class [\w] of Python 3 [re] on [str] patterns, restricted to Latin-1:
  alphanumerics in the Unicode sense, plus the underscore. *)
Definition is_word_char (c : ascii) : bool :=
let n := nat_of_ascii c in
((48 <=? n) && (n <=? 57)) || ((65 <=? n) && (n <=? 90)) || (n =? 95)
|| ((97 <=? n) && (n <=? 122))
|| (n =? 170) || (n =? 178) || (n =? 179) || (n =? 181) || (n =? 185)
|| (n =? 186) || ((188 <=? n) && (n <=? 190)) || ((192 <=? n) && (n <=? 214))
|| ((216 <=? n) && (n <=? 246)) || (248 <=? n).

(** [p in s] for strings: substring test. *)
Fixpoint is_prefix (p s : string) : bool :=
match p, s with
| EmptyString, _ => true
| String a p', String b s' => Ascii.eqb a b && is_prefix p' s'
| String _ _, EmptyString => false
end.

Fixpoint py_in (p s : string) : bool :=
is_prefix p s || match s with
                 | EmptyString => false
                 | String _ s' => py_in p s'
                 end.

(** [x in xs] for a list or set of strings. *)
Definition mem (x : string) (xs : list string) : bool := existsb (String.eqb x) xs.

(** [' '.join(ws)] *)
Fixpoint join_space (ws : list string) : string :=
match ws with
| [] => EmptyString
| [w] => w
| w :: ws' => (w ++ " " ++ join_space ws')%string
end.

(** [re.findall(r'\b\w+\b', s)]: the maximal runs of word characters, left
  to right.  [cur] is the run read so far. *)
Definition flush (cur : string) : list string :=
match cur with
| EmptyString => []
| _ => [cur]
end.

Fixpoint scan_words (s cur : string) : list string :=
match s with
| EmptyString => flush cur
| String c s' =>
    if is_word_char c then scan_words s' (cur ++ String c EmptyString)%string
    else (flush cur ++ scan_words s' EmptyString)
end.

Definition findall_words (s : string) : list string := scan_words s EmptyString.

(** Every character of a string satisfies [f]. *)
Fixpoint str_forall (f : ascii -> bool) (s : string) : bool :=
match s with
| EmptyString => true
| String c s' => f c && str_forall f s'
end.

End Text.

Import Text.

(* ------------------------------------------------------------------ *)
(** ** extract_keywords and detect_intent (bot.py lines 113-148) *)

Definition stopwords : list string :=
  (["the"; "a"; "an"; "and"; "or"; "but"; "in"; "on"; "at"; "to"; "for";
   "of"; "with"; "by"; "from"; "is"; "are"; "was"; "were"; "i"; "you";
   "my"; "your"; "do"; "does"; "need"; "want"; "looking"; "find"; "get";
   "have"; "has"; "can"; "could"; "would"; "should"; "will"; "am"])%string.

(** [keywords = [w for w in words if w not in stopwords and len(w) > 2]] *)
Definition extract_keywords (text : string) : list string :=
  let words := findall_words (py_lower text) in
  filter (fun w => negb (mem w stopwords) && (2 <? String.length w)) words.

Inductive intent := Greeting | Thanks | Help | Register | Search | Unknown.

Definition greetings : list string :=
  (["hi"; "hello"; "hey"; "good morning"; "good afternoon"; "good evening";
   "sup"; "what's up"; "whatsup"])%string.
Definition thanks : list string := (["thank"; "thanks"; "appreciate"; "grateful"])%string.
Definition bot_questions : list string :=
  (["what can you do"; "how does this work"; "what is this"; "help me";
   "what do you do"])%string.
Definition register_keywords : list string :=
  (["register"; "sign up"; "create account"; "add my business";
   "list my business"; "become vendor"])%string.
Definition search_indicators : list string :=
  (["need"; "want"; "looking"; "find"; "where"; "who"; "buy"; "get"; "order";
   "search"])%string.

(** [any(p in text_lower for p in phrases)] *)
Definition any_in (phrases : list string) (t : string) : bool :=
  existsb (fun p => py_in p t) phrases.

Definition detect_intent (text : string) : intent :=
  let text_lower := py_lower text in
  if any_in greetings text_lower then Greeting
  else if any_in thanks text_lower then Thanks
  else if any_in bot_questions text_lower then Help
  else if any_in register_keywords text_lower then Register
  else if any_in search_indicators text_lower then Search
  else if 0 <? List.length (extract_keywords text) then Search
  else Unknown.

(** The rules of [detect_intent] as the spec states them: the first rule
    whose phrase list matches the lowercased message wins, then the fallback
    on a non-empty keyword list, then [Unknown]. *)
Definition intent_rules : list (intent * list string) :=
  [(Greeting, greetings); (Thanks, thanks); (Help, bot_questions);
   (Register, register_keywords); (Search, search_indicators)].

Definition classify_spec (text : string) : intent :=
  match find (fun r => any_in (snd r) (py_lower text)) intent_rules with
  | Some r => fst r
  | None => match extract_keywords text with
            | [] => Unknown
            | _ :: _ => Search
            end
  end.

(* ------------------------------------------------------------------ *)
(** ** Vendors and search_vendors (bot.py lines 150-191) *)

(** A row of the [vendors] table. *)
Record vendor := mkVendor {
  vendor_id : Z;
  telegram_id : Z;
  business_name : string;
  services : string;
  keywords : string;
  contact : string;
  bot_username : option string;
  description : string;
  price_range : string;
  total_orders : Z;
  avg_rating : Q
}.

(** The dictionary appended to [results]: the vendor's columns and [score]. *)
Record vendor_match := mkMatch { mv : vendor; score : nat }.

(** [f"{name} {services} {keywords} {desc}".lower()] *)
Definition searchable (v : vendor) : string :=
  py_lower (business_name v ++ " " ++ services v ++ " " ++ keywords v ++ " "
            ++ description v).

(** [sum(1 for keyword in query_keywords if keyword in searchable)] *)
Fixpoint count_in (ks : list string) (t : string) : nat :=
  match ks with
  | [] => 0
  | k :: ks' => (if py_in k t then 1 else 0) + count_in ks' t
  end.

Definition vendor_score (query_keywords : list string) (v : vendor) : nat :=
  let score := count_in query_keywords (searchable v) in
  if existsb (fun k => py_in k (py_lower (services v))) query_keywords
  then score + 2 else score.

(** The [for vendor in vendors] loop: vendors with a positive score, in
    scan order. *)
Fixpoint scan_vendors (query_keywords : list string) (vs : list vendor)
  : list vendor_match :=
  match vs with
  | [] => []
  | v :: vs' =>
      let sc := vendor_score query_keywords v in
      if 0 <? sc then mkMatch v sc :: scan_vendors query_keywords vs'
      else scan_vendors query_keywords vs'
  end.

(** [list.sort(key=key, reverse=True)]: CPython reverses the list, sorts it
    with a stable ascending sort and reverses the result.  The stable
    ascending sort is written as an insertion sort that puts an element
    before the first element whose key is not smaller. *)
Section PySort.
Context {A : Type} (key : A -> nat).

Fixpoint insert_asc (x : A) (l : list A) : list A :=
  match l with
  | [] => [x]
  | y :: l' => if key x <=? key y then x :: l else y :: insert_asc x l'
  end.

Fixpoint sort_asc (l : list A) : list A :=
  match l with
  | [] => []
  | x :: l' => insert_asc x (sort_asc l')
  end.

Definition py_sort_reverse (l : list A) : list A := rev (sort_asc (rev l)).
End PySort.

(** [search_vendors(query)] over the rows [vs] of the vendors table. *)
Definition search_vendors (query : string) (vs : list vendor) : list vendor_match :=
  let query_keywords := extract_keywords query in
  match query_keywords with
  | [] => []
  | _ :: _ => py_sort_reverse score (scan_vendors query_keywords vs)
  end.

(** The ranking as the spec describes it: a vendor's score is the number of
    query keywords found in the lowercased concatenated corpus, plus a flat 2
    when some query keyword is found in its services; the candidates are the
    vendors of positive score, in scan order. *)
Definition spec_score (query : string) (v : vendor) : nat :=
  let qk := extract_keywords query in
  List.length (filter (fun k => py_in k (searchable v)) qk)
  + (if existsb (fun k => py_in k (py_lower (services v))) qk then 2 else 0).

Definition spec_candidates (query : string) (vs : list vendor) : list vendor_match :=
  map (fun v => mkMatch v (spec_score query v))
      (filter (fun v => 0 <? spec_score query v) vs).

(* ------------------------------------------------------------------ *)
(** ** The database (bot.py lines 36-88) *)

(** [orders.status]: 'pending', 'completed' or 'flagged'. *)
Inductive order_status := Pending | Completed | Flagged.

(** A row of [orders] (the timestamps are not modelled). *)
Record order := mkOrder {
  order_id : Z;
  o_vendor_id : Z;
  buyer_id : Z;
  details : string;
  deadline : string;
  status : order_status
}.

(** A row of [ratings]. *)
Record rating := mkRating {
  r_order_id : Z;
  r_vendor_id : Z;
  r_buyer_id : Z;
  stars : Z;
  review_text : option string
}.

(** The three tables, the next AUTOINCREMENT keys, and whether the database
    answers at all ([db_up = false]: every [execute] raises). *)
Record database := mkDb {
  db_up : bool;
  vendors : list vendor;
  orders : list order;
  ratings : list rating;
  next_vendor_id : Z;
  next_order_id : Z
}.

(** [SELECT * FROM vendors WHERE vendor_id = ?] and friends: first row. *)
Definition find_vendor (vid : Z) (d : database) : option vendor :=
  find (fun v => Z.eqb (vendor_id v) vid) (vendors d).
Definition find_vendor_by_telegram (tid : Z) (d : database) : option vendor :=
  find (fun v => Z.eqb (telegram_id v) tid) (vendors d).
Definition find_order (oid : Z) (d : database) : option order :=
  find (fun o => Z.eqb (order_id o) oid) (orders d).

(** [INSERT INTO vendors (...)]: [telegram_id] is UNIQUE; [total_orders] and
    [avg_rating] take their defaults 0 and 0.0. *)
Definition insert_vendor (tid : Z) (name services_ keywords_ contact_ : string)
    (bot : option string) (desc price : string) (d : database)
  : option (unit * database) :=
  match find_vendor_by_telegram tid d with
  | Some _ => None
  | None =>
      let v := mkVendor (next_vendor_id d) tid name services_ keywords_ contact_
                        bot desc price 0 0 in
      Some (tt, mkDb (db_up d) (vendors d ++ [v]) (orders d) (ratings d)
                     (next_vendor_id d + 1) (next_order_id d))
  end.

(** [INSERT INTO orders (vendor_id, buyer_id, details, deadline)]; the new
    row has status 'pending'; returns [cursor.lastrowid].  SQLite does not
    enforce the foreign key unless asked to, and the code does not ask. *)
Definition insert_order (vid bid : Z) (det dl : string) (d : database)
  : option (Z * database) :=
  let oid := next_order_id d in
  Some (oid, mkDb (db_up d) (vendors d) (orders d ++ [mkOrder oid vid bid det dl Pending])
                  (ratings d) (next_vendor_id d) (oid + 1)).

(** [UPDATE orders SET status = ? WHERE order_id = ?] *)
Definition with_status (oid : Z) (st : order_status) (o : order) : order :=
  if Z.eqb (order_id o) oid
  then mkOrder (order_id o) (o_vendor_id o) (buyer_id o) (details o) (deadline o) st
  else o.

Definition set_order_status (oid : Z) (st : order_status) (d : database)
  : option (unit * database) :=
  Some (tt, mkDb (db_up d) (vendors d) (map (with_status oid st) (orders d)) (ratings d)
                 (next_vendor_id d) (next_order_id d)).

(** [INSERT INTO ratings]: [order_id] is UNIQUE and [stars] must lie in 1..5. *)
Definition insert_rating (r : rating) (d : database) : option (unit * database) :=
  if existsb (fun r' => Z.eqb (r_order_id r') (r_order_id r)) (ratings d) then None
  else if (1 <=? stars r)%Z && (stars r <=? 5)%Z then
    Some (tt, mkDb (db_up d) (vendors d) (orders d) (ratings d ++ [r])
                   (next_vendor_id d) (next_order_id d))
  else None.

(** AVG(stars) and the row count of [ratings] WHERE vendor_id = ?, with
    [avg_rating = result[0] if result[0] else 0.0].  SQLite's AVG is a
    floating-point division of the sum by the count; it is modelled as the
    exact rational quotient. *)
Definition vendor_stars (vid : Z) (rs : list rating) : list Z :=
  map stars (filter (fun r => Z.eqb (r_vendor_id r) vid) rs).

Definition sql_avg_count (vid : Z) (rs : list rating) : Q * Z :=
  let st := vendor_stars vid rs in
  let n := Z.of_nat (List.length st) in
  ((if Z.eqb n 0 then 0 else fold_right Z.add 0%Z st # Z.to_pos n)%Q, n).

(** [UPDATE vendors SET avg_rating = ?, total_orders = ? WHERE vendor_id = ?] *)
Definition set_vendor_rating (vid : Z) (avg : Q) (total : Z) (d : database)
  : option (unit * database) :=
  let upd v := if Z.eqb (vendor_id v) vid
               then mkVendor (vendor_id v) (telegram_id v) (business_name v)
                             (services v) (keywords v) (contact v) (bot_username v)
                             (description v) (price_range v) total avg
               else v in
  Some (tt, mkDb (db_up d) (map upd (vendors d)) (orders d) (ratings d)
                 (next_vendor_id d) (next_order_id d)).

(** A read that cannot violate a constraint. *)
Definition db_read {A} (f : database -> A) (d : database) : option (A * database) :=
  Some (f d, d).

(* ------------------------------------------------------------------ *)
(** ** Conversation state, outputs and the handler monad *)

(** The states of the three [StatesGroup]s (bot.py lines 91-107). *)
Inductive fsm_state :=
| RegBusinessName | RegServices | RegContact | RegBotUsername | RegDescription
| RegPriceRange
| OrdVendorId | OrdDetails | OrdDeadline
| RateOrderId | RateStars | RateReview.

(** The values stored with [state.update_data]. *)
Inductive value := VStr (s : string) | VInt (z : Z) | VNone.

(** The FSM context of one user: [state.get_state()] and [state.get_data()]. *)
Record session := mkSession { fsm : option fsm_state; data : list (string * value) }.

Definition empty_session : session := mkSession None [].

(** What the bot does towards the outside; message texts are named by a tag.
    [CalledDetectIntent] and [CalledSearch] record that [detect_intent] and
    [search_vendors] were invoked. *)
Inductive event :=
| Answer (tag : string)
| EditText (tag : string)
| Alert (tag : string)
| SendTo (chat : Z) (tag : string)
| ScheduleFollowup (oid : Z) (buyer : Z)
| CalledDetectIntent (text : string)
| CalledSearch (query : string).

(** The memory storage (one FSM context per user), the database and the
    outputs sent so far. *)
Record world := mkWorld {
  sessions : list (Z * session);
  db : database;
  out : list event
}.

(** A handler runs for the user who sent the update; [None] is a raised
    exception, after which the world keeps the effects done before it. *)
Definition M (A : Type) : Type := Z -> world -> option A * world.

Definition ret {A} (a : A) : M A := fun _ w => (Some a, w).
Definition bind {A B} (m : M A) (k : A -> M B) : M B :=
  fun u w => match m u w with
             | (Some a, w') => k a u w'
             | (None, w') => (None, w')
             end.
Definition raise {A} : M A := fun _ w => (None, w).

Notation "x <- m ;; k" := (bind m (fun x => k))
  (at level 61, m at next level, right associativity).
Notation "m ;;; k" := (bind m (fun _ => k)) (at level 61, right associativity).

(** [try: m except Exception: h] *)
Definition try_except {A} (m h : M A) : M A :=
  fun u w => match m u w with
             | (None, w') => h u w'
             | r => r
             end.

(** [try: ... finally: f] *)
Definition try_finally {A} (m : M A) (f : M unit) : M A :=
  fun u w => let (r, w') := m u w in
             let (r2, w'') := f u w' in
             match r2 with
             | None => (None, w'')
             | Some _ => (r, w'')
             end.

Definition from_user : M Z := fun u w => (Some u, w).

Definition emit (e : event) : M unit :=
  fun _ w => (Some tt, mkWorld (sessions w) (db w) (out w ++ [e])).

(** [cursor.execute(...)]: raises when the database is down or a constraint
    is violated. *)
Definition exec {A} (f : database -> option (A * database)) : M A :=
  fun _ w => if db_up (db w) then
               match f (db w) with
               | Some (a, d') => (Some a, mkWorld (sessions w) d' (out w))
               | None => (None, w)
               end
             else (None, w).

Definition lookup_session (u : Z) (ss : list (Z * session)) : session :=
  match find (fun p => Z.eqb (fst p) u) ss with
  | Some p => snd p
  | None => empty_session
  end.

Definition get_session : M session := fun u w => (Some (lookup_session u (sessions w)), w).
Definition put_session (s : session) : M unit :=
  fun u w => (Some tt, mkWorld ((u, s) :: filter (fun p => negb (Z.eqb (fst p) u)) (sessions w))
                              (db w) (out w)).

Definition get_state : M (option fsm_state) := s <- get_session ;; ret (fsm s).
Definition get_data : M (list (string * value)) := s <- get_session ;; ret (data s).
Definition set_state (st : fsm_state) : M unit :=
  s <- get_session ;; put_session (mkSession (Some st) (data s)).
(** [state.update_data(k=v)] *)
Definition update_data (k : string) (v : value) : M unit :=
  s <- get_session ;;
  put_session (mkSession (fsm s) ((k, v) :: filter (fun p => negb (String.eqb (fst p) k)) (data s))).
(** [state.clear()] *)
Definition clear_state : M unit := put_session empty_session.

(** [data[k]]: raises KeyError when absent. *)
Definition data_get (k : string) (d : list (string * value)) : M value :=
  match find (fun p => String.eqb (fst p) k) d with
  | Some p => ret (snd p)
  | None => raise
  end.
(** [data.get(k)] *)
Definition data_get_opt (k : string) (d : list (string * value)) : value :=
  match find (fun p => String.eqb (fst p) k) d with
  | Some p => snd p
  | None => VNone
  end.

(* ------------------------------------------------------------------ *)
(** ** Python string helpers used by the handlers *)

(** [c.isspace()] on Latin-1. *)
Definition is_space (c : ascii) : bool :=
  let n := nat_of_ascii c in
  ((9 <=? n) && (n <=? 13)) || ((28 <=? n) && (n <=? 32)) || (n =? 133) || (n =? 160).

Fixpoint lstrip (s : string) : string :=
  match s with
  | String c s' => if is_space c then lstrip s' else s
  | EmptyString => EmptyString
  end.

Fixpoint rstrip (s : string) : string :=
  match s with
  | EmptyString => EmptyString
  | String c s' =>
      let r := rstrip s' in
      match r with
      | EmptyString => if is_space c then EmptyString else String c EmptyString
      | _ => String c r
      end
  end.

(** [s.strip()] *)
Definition py_strip (s : string) : string := rstrip (lstrip s).

(** [s.startswith('/')] *)
Definition starts_with_slash (s : string) : bool := is_prefix "/" s.

Fixpoint str_drop (n : nat) (s : string) : string :=
  match n, s with
  | 0, _ => s
  | S n', String _ s' => str_drop n' s'
  | S _, EmptyString => EmptyString
  end.

Fixpoint remove_all_aux (fuel : nat) (pat s : string) : string :=
  match fuel with
  | 0 => s
  | S f =>
      match s with
      | EmptyString => EmptyString
      | String c s' =>
          if is_prefix pat s then remove_all_aux f pat (str_drop (String.length pat) s)
          else String c (remove_all_aux f pat s')
      end
  end.

(** [s.replace(pat, "")] for a non-empty [pat]: every occurrence, left to
    right, is removed. *)
Definition py_remove_all (pat s : string) : string :=
  remove_all_aux (String.length s) pat s.

Definition digit_val (c : ascii) : option Z :=
  let n := nat_of_ascii c in
  if (48 <=? n) && (n <=? 57) then Some (Z.of_nat (n - 48)) else None.

(** Decimal digits, single underscores allowed between digits. *)
Fixpoint parse_digits (s : string) (acc : Z) (prev_digit : bool) : option Z :=
  match s with
  | EmptyString => if prev_digit then Some acc else None
  | String c s' =>
      if Ascii.eqb c "_" then (if prev_digit then parse_digits s' acc false else None)
      else match digit_val c with
           | Some dv => parse_digits s' (10 * acc + dv)%Z true
           | None => None
           end
  end.

(** [int(s)] on a [str]; [None] is the ValueError. *)
Definition py_int (s : string) : option Z :=
  match py_strip s with
  | String "-" r => option_map Z.opp (parse_digits r 0 false)
  | String "+" r => parse_digits r 0 false
  | r => parse_digits r 0 false
  end.

(** The command part of a message for aiogram's [Command] filter:
    [text.split(maxsplit=1)[0]], then split at the first ['@'] into command
    and mention. *)
Fixpoint take_word (s : string) : string :=
  match s with
  | String c s' => if is_space c then EmptyString else String c (take_word s')
  | EmptyString => EmptyString
  end.

Fixpoint split_at_mention (s : string) : string * string :=
  match s with
  | EmptyString => (EmptyString, EmptyString)
  | String c s' =>
      if Ascii.eqb c "@" then (EmptyString, s')
      else let (a, b) := split_at_mention s' in (String c a, b)
  end.

(** [Command(name)] matches when the first word is ["/" ++ name] with an
    empty mention.  A non-empty mention is only accepted by aiogram when it
    is the bot's own username, which lies outside the model: such messages
    are treated as not matching.  Statements about what a given text does
    therefore assume that its first word does not name the command at all,
    with or without a mention (see [command_word]); statements about every
    update hold whichever handler runs. *)
Definition is_command (name t : string) : bool :=
  let (cmd, mention) := split_at_mention (take_word (lstrip t)) in
  String.eqb cmd ("/" ++ name) && String.eqb mention "".

(** The first word of a message without its [@mention]: the command name
    aiogram compares, whatever the mention. *)
Definition command_word (t : string) : string :=
  fst (split_at_mention (take_word (lstrip t))).

(** A "free-text" message: its first word does not start with ['/'], so it
    is neither a command nor caught by [~F.text.startswith('/')]. *)
Definition is_free_text (t : string) : bool :=
  negb (starts_with_slash (take_word (lstrip t))).

(* ------------------------------------------------------------------ *)
(** ** Handlers (bot.py lines 296-881) *)

Definition answer (tag : string) : M unit := emit (Answer tag).

(** [int(callback.data.replace(prefix, ""))] *)
Definition parse_callback_int (prefix d : string) : M Z :=
  match py_int (py_remove_all prefix d) with
  | Some z => ret z
  | None => raise
  end.

Definition data_get_str (k : string) (d : list (string * value)) : M string :=
  v <- data_get k d ;;
  match v with
  | VStr s => ret s
  | _ => raise
  end.

Definition data_get_int (k : string) (d : list (string * value)) : M Z :=
  v <- data_get k d ;;
  match v with
  | VInt z => ret z
  | _ => raise
  end.

Definition get_vendor_by_telegram_id (tid : Z) : M (option vendor) :=
  exec (db_read (find_vendor_by_telegram tid)).

Definition cmd_start (_ : string) : M unit := answer "welcome".

Definition cmd_register (_ : string) : M unit :=
  u <- from_user ;;
  existing <- get_vendor_by_telegram_id u ;;
  match existing with
  | Some _ => answer "already_registered"
  | None => answer "ask_business_name" ;;; set_state RegBusinessName
  end.

Definition process_business_name (t : string) : M unit :=
  update_data "business_name" (VStr t) ;;;
  answer "ask_services" ;;;
  set_state RegServices.

Definition process_services (t : string) : M unit :=
  let kw := join_space (extract_keywords t) in
  update_data "services" (VStr t) ;;;
  update_data "keywords" (VStr kw) ;;;
  answer "ask_contact" ;;;
  set_state RegContact.

Definition process_contact (t : string) : M unit :=
  update_data "contact" (VStr t) ;;;
  answer "ask_bot_username" ;;;
  set_state RegBotUsername.

Definition bot_negatives : list string :=
  ["no"; "skip"; "none"; "nope"; "na"; "n/a"; "don't have"; "dont have"]%string.

Definition process_bot_username (t : string) : M unit :=
  let tl := py_lower t in
  let bot := if mem tl bot_negatives then VNone
             else let b := py_strip t in
                  VStr (if is_prefix "@" b then b else "@" ++ b) in
  update_data "bot_username" bot ;;;
  answer (match bot with VNone => "ask_pitch_no_bot" | _ => "ask_pitch_with_bot" end) ;;;
  set_state RegDescription.

Definition process_description (t : string) : M unit :=
  update_data "description" (VStr (substring 0 200 t)) ;;;
  answer "ask_price_range" ;;;
  set_state RegPriceRange.

Definition process_price_range (t : string) : M unit :=
  d <- get_data ;;
  try_finally
    (try_except
       (u <- from_user ;;
        bn <- data_get_str "business_name" d ;;
        sv <- data_get_str "services" d ;;
        kw <- data_get_str "keywords" d ;;
        ct <- data_get_str "contact" d ;;
        let bot := match data_get_opt "bot_username" d with
                   | VStr b => Some b
                   | _ => None
                   end in
        ds <- data_get_str "description" d ;;
        exec (insert_vendor u bn sv kw ct bot ds t) ;;;
        answer "registered")
       (answer "registration_error"))
    clear_state.

(** [search_vendors(text)] with its database read. *)
Definition search_vendors_io (query : string) : M (list vendor_match) :=
  emit (CalledSearch query) ;;;
  match extract_keywords query with
  | [] => ret []
  | _ :: _ => vs <- exec (db_read vendors) ;; ret (search_vendors query vs)
  end.

Definition handle_conversation (t : string) : M unit :=
  current_state <- get_state ;;
  match current_state with
  | Some _ => ret tt
  | None =>
      emit (CalledDetectIntent t) ;;;
      match detect_intent t with
      | Greeting => answer "greeting"
      | Thanks => answer "thanks"
      | Help => answer "help"
      | Register => cmd_register t
      | Search =>
          results <- search_vendors_io t ;;
          match results with
          | [] => answer "no_results"
          | [_] => answer "vendor_info"
          | _ => answer "vendor_list"
          end
      | Unknown => answer "not_sure"
      end
  end.

Definition show_vendor_details (d : string) : M unit :=
  vid <- parse_callback_int "vendor_" d ;;
  v <- exec (db_read (find_vendor vid)) ;;
  match v with
  | Some _ => emit (EditText "vendor_details")
  | None => ret tt
  end.

Definition search_again (_ : string) : M unit := emit (EditText "search_again").

Definition redirect_to_vendor_bot (d : string) : M unit :=
  vid <- parse_callback_int "botorder_" d ;;
  v <- exec (db_read (find_vendor vid)) ;;
  match option_map bot_username v with
  | Some (Some (String _ _)) => emit (EditText "open_vendor_bot")
  | _ => emit (Alert "bot_not_available")
  end.

Definition start_order (d : string) : M unit :=
  vid <- parse_callback_int "order_" d ;;
  update_data "vendor_id" (VInt vid) ;;;
  emit (EditText "ask_order_details") ;;;
  set_state OrdDetails.

Definition process_order_details (t : string) : M unit :=
  update_data "order_details" (VStr t) ;;;
  answer "ask_deadline" ;;;
  set_state OrdDeadline.

Definition complete_order (t : string) : M unit :=
  d <- get_data ;;
  vid <- data_get_int "vendor_id" d ;;
  u <- from_user ;;
  det <- data_get_str "order_details" d ;;
  oid <- exec (insert_order vid u det t) ;;
  vend <- exec (db_read (find_vendor vid)) ;;
  match vend with
  | Some v =>
      emit (SendTo (telegram_id v) "new_order") ;;;
      answer "order_placed" ;;;
      emit (ScheduleFollowup oid u)
  | None => ret tt
  end ;;;
  clear_state.

(** The deferred task, run 24 hours later for the buyer. *)
Definition schedule_order_followup (oid : Z) : M unit :=
  buyer <- from_user ;;
  o <- exec (db_read (find_order oid)) ;;
  match o with
  | Some o' => match status o' with
               | Pending => emit (SendTo buyer "followup_check")
               | _ => ret tt
               end
  | None => ret tt
  end.

Definition order_completed (d : string) : M unit :=
  oid <- parse_callback_int "complete_" d ;;
  exec (set_order_status oid Completed) ;;;
  update_data "order_id" (VInt oid) ;;;
  emit (EditText "ask_rating") ;;;
  set_state RateStars.

Definition process_rating_stars (d : string) : M unit :=
  st <- parse_callback_int "rate_" d ;;
  update_data "stars" (VInt st) ;;;
  emit (EditText "ask_review") ;;;
  set_state RateReview.

Definition update_vendor_rating (vid : Z) : M unit :=
  ac <- exec (db_read (fun db0 => sql_avg_count vid (ratings db0))) ;;
  exec (set_vendor_rating vid (fst ac) (snd ac)).

Definition process_review (t : string) : M unit :=
  d <- get_data ;;
  oid <- data_get_int "order_id" d ;;
  st <- data_get_int "stars" d ;;
  let review := if String.eqb t "/skip" then None else Some t in
  o <- exec (db_read (find_order oid)) ;;
  vid <- match o with Some o' => ret (o_vendor_id o') | None => raise end ;;
  u <- from_user ;;
  exec (insert_rating (mkRating oid vid u st review)) ;;;
  update_vendor_rating vid ;;;
  answer "thanks_feedback" ;;;
  clear_state.

Definition order_incomplete (d : string) : M unit :=
  oid <- parse_callback_int "incomplete_" d ;;
  exec (set_order_status oid Flagged) ;;;
  emit (EditText "incomplete_noted").

Definition cmd_order_history (_ : string) : M unit :=
  u <- from_user ;;
  v <- get_vendor_by_telegram_id u ;;
  match v with
  | None => answer "not_a_vendor"
  | Some v' =>
      os <- exec (db_read (fun db0 => filter (fun o => Z.eqb (o_vendor_id o) (vendor_id v'))
                                             (orders db0))) ;;
      match os with
      | [] => answer "no_orders"
      | _ => answer "order_history"
      end
  end.

Definition cmd_my_rating (_ : string) : M unit :=
  u <- from_user ;;
  v <- get_vendor_by_telegram_id u ;;
  match v with
  | None => answer "not_a_vendor"
  | Some v' =>
      rs <- exec (db_read (fun db0 => vendor_stars (vendor_id v') (ratings db0))) ;;
      match rs with
      | [] => answer "no_ratings"
      | _ => answer "rating_summary"
      end
  end.

Definition show_contact (d : string) : M unit :=
  vid <- parse_callback_int "contact_" d ;;
  v <- exec (db_read (find_vendor vid)) ;;
  match v with
  | Some _ => emit (Alert "contact")
  | None => emit (Alert "vendor_not_found")
  end.

(* ------------------------------------------------------------------ *)
(** ** Keyboards (bot.py lines 239-271, 577-580, 686-689) *)

(** The character of a decimal digit [0 <= d <= 9]. *)
Definition digit_char (d : Z) : ascii := ascii_of_nat (48 + Z.to_nat d).

(** The decimal digits of [n >= 0]; [fuel] bounds the recursion and
    [Z.to_nat n] is enough. *)
Fixpoint str_of_nonneg (fuel : nat) (n : Z) : string :=
  match fuel with
  | 0 => String (digit_char n) EmptyString
  | S f =>
      if (n <? 10)%Z then String (digit_char n) EmptyString
      else str_of_nonneg f (n / 10) ++ String (digit_char (n mod 10)) EmptyString
  end.

(** [str(z)] for an [int], as used by the f-strings of the callback data. *)
Definition py_str_int (z : Z) : string :=
  if (z <? 0)%Z then "-" ++ str_of_nonneg (Z.to_nat (- z)) (- z)
  else str_of_nonneg (Z.to_nat z) z.

(** [s * n] for a string and [n >= 0]. *)
Fixpoint str_repeat (n : nat) (s : string) : string :=
  match n with
  | 0 => EmptyString
  | S n' => s ++ str_repeat n' s
  end.

(** [InlineKeyboardButton(text=..., callback_data=...)] or
    [InlineKeyboardButton(text=..., url=...)]; a keyboard is a list of rows. *)
Record button := mkButton { btn_text : string; btn_data : option string; btn_url : option string }.

Definition cb_button (text data : string) : button := mkButton text (Some data) None.

Definition vendor_action_keyboard (vendor_id_ : Z) (has_bot : bool) : list (list button) :=
  [ [ if has_bot
      then cb_button "🤖 Order via Their Bot" ("botorder_" ++ py_str_int vendor_id_)
      else cb_button "📦 Place Order" ("order_" ++ py_str_int vendor_id_) ];
    [ cb_button "📞 View Contact" ("contact_" ++ py_str_int vendor_id_) ];
    [ cb_button "🔍 Search Again" "search_again" ] ].

(** [for i in range(1, 6)] *)
Definition rating_keyboard : list (list button) :=
  map (fun i => [ cb_button (str_repeat (Z.to_nat i) "⭐" ++ " (" ++ py_str_int i ++ ")")
                            ("rate_" ++ py_str_int i) ])
      [1; 2; 3; 4; 5]%Z.

Section VendorList.
(** [f"{x:.1f}"] on the float read back from [avg_rating]. *)
Variable fmt_1f : Q -> string.

Definition vendor_button (v : vendor) : button :=
  let rating_display :=
    if (0 <? total_orders v)%Z
    then ("⭐ " ++ fmt_1f (avg_rating v) ++ " (" ++ py_str_int (total_orders v) ++ ")")%string
    else "New"%string in
  cb_button (business_name v ++ " - " ++ rating_display) ("vendor_" ++ py_str_int (vendor_id v)).

Definition vendor_list_keyboard (vs : list vendor) : list (list button) :=
  map (fun v => [vendor_button v]) (firstn 10 vs) ++
  [ [ cb_button "🔍 New Search" "search_again" ] ].
End VendorList.

(** [f"https://t.me/{bot_username.replace('@', '')}"] *)
Definition bot_link (bot_username_ : string) : string :=
  "https://t.me/" ++ py_remove_all "@" bot_username_.

(** The keyboard of [redirect_to_vendor_bot]. *)
Definition vendor_bot_keyboard (name bot_username_ : string) (vendor_id_ : Z) : list (list button) :=
  [ [ mkButton ("Open " ++ name ++ "'s Bot 🤖") None (Some (bot_link bot_username_)) ];
    [ cb_button "⬅️ Back" ("vendor_" ++ py_str_int vendor_id_) ] ].

(** The keyboard of the follow-up message of [schedule_order_followup]. *)
Definition followup_keyboard (order_id_ : Z) : list (list button) :=
  [ [ cb_button "✅ Yes" ("complete_" ++ py_str_int order_id_) ];
    [ cb_button "❌ No" ("incomplete_" ++ py_str_int order_id_) ] ].

(* ------------------------------------------------------------------ *)
(** ** The dispatcher

    aiogram tries the handlers of an update type in the order they were
    registered and runs the first whose filters all pass; a handler without
    a state filter runs in every state.  An exception ends the update (it is
    logged), keeping the effects done before it.  [callback.answer()] (the
    bare acknowledgement) is not modelled. *)

Scheme Equality for fsm_state.

Definition in_state (s : fsm_state) (st : option fsm_state) : bool :=
  match st with
  | Some s' => fsm_state_beq s s'
  | None => false
  end.

Definition handler_entry : Type := (option fsm_state -> string -> bool) * (string -> M unit).

(** [@dp.message(...)] in registration order. *)
Definition message_handlers : list handler_entry :=
  [ (fun _ t => is_command "start" t, cmd_start);
    (fun _ t => is_command "register" t, cmd_register);
    (fun st _ => in_state RegBusinessName st, process_business_name);
    (fun st _ => in_state RegServices st, process_services);
    (fun st _ => in_state RegContact st, process_contact);
    (fun st _ => in_state RegBotUsername st, process_bot_username);
    (fun st _ => in_state RegDescription st, process_description);
    (fun st _ => in_state RegPriceRange st, process_price_range);
    (fun _ t => negb (starts_with_slash t), handle_conversation);
    (fun st _ => in_state OrdDetails st, process_order_details);
    (fun st _ => in_state OrdDeadline st, complete_order);
    (fun st _ => in_state RateReview st, process_review);
    (fun _ t => is_command "orderhistory" t, cmd_order_history);
    (fun _ t => is_command "myrating" t, cmd_my_rating) ].

(** [@dp.callback_query(...)] in registration order. *)
Definition callback_handlers : list handler_entry :=
  [ (fun _ d => is_prefix "vendor_" d, show_vendor_details);
    (fun _ d => String.eqb d "search_again", search_again);
    (fun _ d => is_prefix "botorder_" d, redirect_to_vendor_bot);
    (fun _ d => is_prefix "order_" d, start_order);
    (fun _ d => is_prefix "complete_" d, order_completed);
    (fun st d => in_state RateStars st && is_prefix "rate_" d, process_rating_stars);
    (fun _ d => is_prefix "incomplete_" d, order_incomplete);
    (fun _ d => is_prefix "contact_" d, show_contact) ].

Definition dispatch (hs : list handler_entry) (x : string) : M unit :=
  st <- get_state ;;
  match find (fun h => fst h st x) hs with
  | Some h => snd h x
  | None => ret tt
  end.

(** What reaches the bot from one user: a text message, a button press, or
    the 24-hour follow-up task firing for that user. *)
Inductive input :=
| InMessage (t : string)
| InCallback (d : string)
| InFollowup (oid : Z).

Definition handle_input (i : input) : M unit :=
  match i with
  | InMessage t => dispatch message_handlers t
  | InCallback d => dispatch callback_handlers d
  | InFollowup oid => schedule_order_followup oid
  end.

Definition step (u : Z) (i : input) (w : world) : world := snd (handle_input i u w).

(* ================================================================== *)
(** * Sample data *)

Definition jollof_spot : vendor :=
  mkVendor 1 1001 "Jollof Spot" "jollof rice, fried rice" "jollof rice fried rice"
           "08012345678" None "Best rice in town" "500-2000" 0 0.

(** Buyer 7 placed order 1 with vendor 1; the order is in the given status. *)
Definition db_with_order (up : bool) (st : order_status) : database :=
  mkDb up [jollof_spot] [mkOrder 1 1 7 "2 plates" "tonight" st] [] 2 2.

Definition world_in (s : session) (d : database) : world := mkWorld [(7%Z, s)] d [].

(* ================================================================== *)
(** * Relations and reference definitions for the proofs *)

(** A character that [py_lower_char] leaves as it is. *)
Definition lower_fixed (c : ascii) : bool := Ascii.eqb (py_lower_char c) c.

(** A non-empty run of word characters: what [\b\w+\b] matches. *)
Definition word_token (w : string) : Prop :=
  w <> EmptyString /\ str_forall is_word_char w = true.

(** A preorder on worlds that does not look at the FSM contexts. *)
Record frame_rel := {
  fr :> world -> world -> Prop;
  fr_refl : forall w, fr w w;
  fr_trans : forall w1 w2 w3, fr w1 w2 -> fr w2 w3 -> fr w1 w3;
  fr_sessions : forall w ss, fr w (mkWorld ss (db w) (out w))
}.

(** Every order present before is still there with the same status, and the
    orders added are pending. *)
Definition keeps_orders_rel (w w' : world) : Prop :=
  exists new, orders (db w') = orders (db w) ++ new /\
              Forall (fun o => status o = Pending) new.

Definition keeps_orders : frame_rel.
Proof.
  refine {| fr := keeps_orders_rel |}.
  - intros w. exists []. split; [symmetry; apply app_nil_r | constructor].
  - intros w1 w2 w3 [n1 [H1 F1]] [n2 [H2 F2]]. exists (n1 ++ n2).
    split; [now rewrite H2, H1, app_assoc | now apply Forall_app].
  - intros w ss. exists []. split; [symmetry; apply app_nil_r | constructor].
Defined.

(** The orders table is unchanged. *)
Definition same_orders : frame_rel.
Proof.
  refine {| fr := fun w w' => orders (db w') = orders (db w) |}.
  - reflexivity.
  - intros w1 w2 w3 H1 H2. congruence.
  - reflexivity.
Defined.

(** Events other than a call of the intent classifier or the vendor matcher. *)
Definition quiet (e : event) : bool :=
  match e with
  | CalledDetectIntent _ | CalledSearch _ => false
  | _ => true
  end.

(** Only outputs other than classifier or matcher calls are added. *)
Definition no_classify : frame_rel.
Proof.
  refine {| fr := fun w w' => exists evs, out w' = out w ++ evs /\ forallb quiet evs = true |}.
  - intros w. exists []. split; [symmetry; apply app_nil_r | reflexivity].
  - intros w1 w2 w3 [e1 [H1 F1]] [e2 [H2 F2]]. exists (e1 ++ e2).
    rewrite H2, H1, app_assoc, forallb_app, F1, F2. split; reflexivity.
  - intros w ss. exists []. split; [symmetry; apply app_nil_r | reflexivity].
Defined.

(** The registration steps from the business name to the description, each
    with the step it moves to. *)
Definition reg_advances : list (fsm_state * fsm_state) :=
  [(RegBusinessName, RegServices); (RegServices, RegContact);
   (RegContact, RegBotUsername); (RegBotUsername, RegDescription);
   (RegDescription, RegPriceRange)].

(** Buyer 7 in the order flow, waiting for the deadline of order details
    "2 plates" for vendor 1. *)
Definition deadline_session : session :=
  mkSession (Some OrdDeadline) [("order_details", VStr "2 plates"); ("vendor_id", VInt 1)]%string.

(** The arithmetic mean of a list of stars, 0 for no stars. *)
Definition mean_stars (l : list Z) : Q :=
  match l with
  | [] => 0%Q
  | _ => (fold_right Qplus 0 (map inject_Z l) / inject_Z (Z.of_nat (length l)))%Q
  end.

(** A vendor row agrees with the ratings: mean and count of its stars. *)
Definition row_consistent (rs : list rating) (v : vendor) : Prop :=
  avg_rating v == mean_stars (vendor_stars (vendor_id v) rs) /\
  total_orders v = Z.of_nat (length (vendor_stars (vendor_id v) rs)).

(** Every vendor row agrees with the ratings. *)
Definition agg_consistent (d : database) : Prop :=
  Forall (row_consistent (ratings d)) (vendors d).

(** The rows of vendor [vid] agree with the ratings. *)
Definition consistent_for (vid : Z) (d : database) : Prop :=
  Forall (fun v => vendor_id v = vid -> row_consistent (ratings d) v) (vendors d).

(** The database after [update_vendor_rating vid] has run on [d1]. *)
Definition recompute_rating (vid : Z) (d1 : database) : database :=
  let ac := sql_avg_count vid (ratings d1) in
  mkDb (db_up d1)
       (map (fun v => if Z.eqb (vendor_id v) vid
                      then mkVendor (vendor_id v) (telegram_id v) (business_name v)
                                    (services v) (keywords v) (contact v) (bot_username v)
                                    (description v) (price_range v) (snd ac) (fst ac)
                      else v) (vendors d1))
       (orders d1) (ratings d1) (next_vendor_id d1) (next_order_id d1).

(** A rating of order [oid] for vendor 1 by buyer 7. *)
Definition rating_of (oid st : Z) : rating := mkRating oid 1 7 st None.

(** A property of the database that only the database writes could break,
    seen as a relation on worlds. *)
Definition db_inv_rel (P : database -> Prop) : frame_rel.
Proof.
  refine {| fr := fun w w' => P (db w) -> P (db w') |}; auto.
Defined.

(** The schema's keys: vendor ids and order ids are distinct and below the
    next AUTOINCREMENT value. *)
Definition ids_ok (d : database) : Prop :=
  NoDup (map vendor_id (vendors d)) /\
  Forall (fun v => (vendor_id v < next_vendor_id d)%Z) (vendors d) /\
  NoDup (map order_id (orders d)) /\
  Forall (fun o => (order_id o < next_order_id d)%Z) (orders d).

(** [telegram_id INTEGER UNIQUE]: one vendor row per Telegram user. *)
Definition telegram_unique (d : database) : Prop := NoDup (map telegram_id (vendors d)).

(** [order_id INTEGER UNIQUE] and [CHECK(stars >= 1 AND stars <= 5)] on ratings. *)
Definition ratings_ok (d : database) : Prop :=
  NoDup (map r_order_id (ratings d)) /\
  Forall (fun r => (1 <= stars r <= 5)%Z) (ratings d).

(** The empty tables [init_db] creates. *)
Definition init_database : database := mkDb true [] [] [] 1 1.

(** [handle_webhook] feeds the updates to the dispatcher one at a time. *)
Definition run (us : list (Z * input)) (w : world) : world :=
  fold_left (fun w ui => step (fst ui) (snd ui) w) us w.

(** The database invariants together. *)
Definition db_ok (d : database) : Prop := ids_ok d /\ telegram_unique d /\ ratings_ok d.

(** A character of [str(z)]: a decimal digit or the minus sign. *)
Definition is_num_char (c : ascii) : bool :=
  match digit_val c with Some _ => true | None => Ascii.eqb c "-" end.

(** The sessions of every user other than [u] are as they were. *)
Definition others_kept (u : Z) (w w' : world) : Prop :=
  forall u', u' <> u -> lookup_session u' (sessions w') = lookup_session u' (sessions w).

Definition keeps_others {A} (m : M A) : Prop := forall u w, others_kept u w (snd (m u w)).

(** A bot username as [process_bot_username] stores it: absent or starting
    with '@'. *)
Definition bot_ok (v : value) : Prop :=
  match v with
  | VStr b => is_prefix "@" b = true
  | _ => True
  end.

Definition vendor_bot_ok (v : vendor) : Prop :=
  match bot_username v with
  | Some b => is_prefix "@" b = true
  | None => True
  end.

(** Every vendor row and every session's collected "bot_username" hold a
    well-formed bot username. *)
Definition bots_ok (w : world) : Prop :=
  Forall vendor_bot_ok (vendors (db w)) /\
  Forall (fun p => bot_ok (data_get_opt "bot_username" (data (snd p)))) (sessions w).

Definition keeps_bots {A} (m : M A) : Prop := forall u w, bots_ok w -> bots_ok (snd (m u w)).

(** The question the bot sends when it moves a user into each step: the
    message asking for that step's input.  [OrdVendorId] and [RateOrderId]
    are declared but never entered. *)
Definition step_prompts (s : fsm_state) : list event :=
  match s with
  | RegBusinessName => [Answer "ask_business_name"]
  | RegServices => [Answer "ask_services"]
  | RegContact => [Answer "ask_contact"]
  | RegBotUsername => [Answer "ask_bot_username"]
  | RegDescription => [Answer "ask_pitch_no_bot"; Answer "ask_pitch_with_bot"]
  | RegPriceRange => [Answer "ask_price_range"]
  | OrdVendorId => []
  | OrdDetails => [EditText "ask_order_details"]
  | OrdDeadline => [Answer "ask_deadline"]
  | RateOrderId => []
  | RateStars => [EditText "ask_rating"]
  | RateReview => [EditText "ask_review"]
  end%string.

(** Only outputs outside [ps] are added. *)
Definition no_event_in (ps : list event) : frame_rel.
Proof.
  refine {| fr := fun w w' => exists evs, out w' = out w ++ evs /\
                                          Forall (fun e => ~ In e ps) evs |}.
  - intros w. exists []. split; [symmetry; apply app_nil_r | constructor].
  - intros w1 w2 w3 [e1 [H1 F1]] [e2 [H2 F2]]. exists (e1 ++ e2).
    split; [now rewrite H2, H1, app_assoc | now apply Forall_app].
  - intros w ss. exists []. split; [symmetry; apply app_nil_r | constructor].
Defined.

(* ================================================================== *)
(** * Proofs *)

Example extract_ex1 :
  (extract_keywords "Jollof rice, fried rice" = ["jollof"; "rice"; "fried"; "rice"])%string.
Proof. reflexivity. Qed.
Example intent_ex1 : (detect_intent "Hello, I need food" = Greeting)%string.
Proof. reflexivity. Qed.
Example intent_ex2 : (detect_intent "I need food" = Search)%string.
Proof. reflexivity. Qed.
Example intent_ex3 : (detect_intent "you and your ..." = Unknown)%string.
Proof. reflexivity. Qed.
Example intent_ex4 : (detect_intent "Laundry" = Search)%string.
Proof. reflexivity. Qed.

(** ** Facts about the string functions *)

Lemma str_app_assoc a b c : (a ++ b ++ c)%string = ((a ++ b) ++ c)%string.
Proof. induction a as [|x a IH]; simpl; [reflexivity | now rewrite IH]. Qed.

Lemma str_app_nil_r a : (a ++ EmptyString)%string = a.
Proof. induction a as [|x a IH]; simpl; [reflexivity | now rewrite IH]. Qed.

Lemma py_lower_char_idem c : py_lower_char (py_lower_char c) = py_lower_char c.
Proof. destruct c as [[] [] [] [] [] [] [] []]; reflexivity. Qed.

Lemma py_lower_app a b : py_lower (a ++ b) = (py_lower a ++ py_lower b)%string.
Proof.
  unfold py_lower.
  induction a as [|x a IH]; simpl; [reflexivity | now rewrite IH].
Qed.

Lemma str_forall_app f a b :
  str_forall f (a ++ b) = str_forall f a && str_forall f b.
Proof.
  induction a as [|x a IH]; simpl; [reflexivity | now rewrite IH, andb_assoc].
Qed.

Lemma py_lower_lower_fixed s : str_forall lower_fixed (py_lower s) = true.
Proof.
  unfold py_lower; induction s as [|x s IH]; simpl; [reflexivity|].
  rewrite IH, andb_true_r. unfold lower_fixed.
  rewrite py_lower_char_idem. apply Ascii.eqb_refl.
Qed.

Lemma lower_fixed_py_lower s : str_forall lower_fixed s = true -> py_lower s = s.
Proof.
  induction s as [|x s IH]; simpl; [reflexivity|].
  intros H; apply andb_prop in H as [Hx Hs].
  apply Ascii.eqb_eq in Hx. unfold py_lower in *; simpl. now rewrite Hx, IH.
Qed.

Lemma scan_words_forall f s cur :
  str_forall f cur = true -> str_forall f s = true ->
  Forall (fun w => str_forall f w = true) (scan_words s cur).
Proof.
  revert cur; induction s as [|c s IH]; intros cur Hc Hs; simpl in *.
  - destruct cur; simpl; auto.
  - apply andb_prop in Hs as [Hc' Hs].
    destruct (is_word_char c).
    + apply IH; auto. rewrite str_forall_app; simpl. now rewrite Hc, Hc'.
    + apply Forall_app; split; [destruct cur; simpl; auto | apply IH; auto].
Qed.

Lemma scan_words_tokens s cur :
  str_forall is_word_char cur = true -> Forall word_token (scan_words s cur).
Proof.
  revert cur; induction s as [|c s IH]; intros cur Hc; simpl.
  - destruct cur as [|x cur]; simpl; [auto|].
    constructor; [split; [discriminate | exact Hc] | auto].
  - destruct (is_word_char c) eqn:Ew.
    + apply IH. rewrite str_forall_app; simpl. now rewrite Hc, Ew.
    + apply Forall_app; split; [|apply IH; reflexivity].
      destruct cur as [|x cur]; simpl; [auto|].
      constructor; [split; [discriminate | exact Hc] | auto].
Qed.

Lemma scan_words_sub s cur w :
  In w (scan_words s cur) -> exists a b, (cur ++ s)%string = (a ++ w ++ b)%string.
Proof.
  revert cur; induction s as [|c s IH]; intros cur Hin; simpl in Hin.
  - destruct cur as [|x cur]; simpl in Hin; [contradiction|].
    destruct Hin as [<- | []].
    exists EmptyString, EmptyString. simpl. now rewrite !str_app_nil_r.
  - destruct (is_word_char c).
    + destruct (IH _ Hin) as (a & b & Hab).
      exists a, b. rewrite <- Hab, <- str_app_assoc. reflexivity.
    + apply in_app_or in Hin as [Hin | Hin].
      * destruct cur as [|x cur]; simpl in Hin; [contradiction|].
        destruct Hin as [<- | []].
        exists EmptyString, (String c s). reflexivity.
      * destruct (IH _ Hin) as (a & b & Hab). simpl in Hab.
        exists (cur ++ String c a)%string, b.
        rewrite Hab, <- str_app_assoc. reflexivity.
Qed.

Lemma is_prefix_iff p s : is_prefix p s = true <-> exists b, s = (p ++ b)%string.
Proof.
  revert s; induction p as [|x p IH]; intros s; simpl.
  - split; [intros _; now exists s | auto].
  - destruct s as [|y s].
    + split; [discriminate | intros [b Hb]; discriminate].
    + rewrite andb_true_iff, Ascii.eqb_eq, IH. split.
      * intros [-> [b ->]]. now exists b.
      * intros [b Hb]. injection Hb as -> ->. split; [reflexivity | now exists b].
Qed.

Lemma py_in_iff p s : py_in p s = true <-> exists a b, s = (a ++ p ++ b)%string.
Proof.
  split.
  - induction s as [|c s IH]; simpl; intros H.
    + rewrite orb_false_r in H. apply is_prefix_iff in H as [b Hb].
      now exists EmptyString, b.
    + apply orb_true_iff in H as [H | H].
      * apply is_prefix_iff in H as [b Hb]. now exists EmptyString, b.
      * destruct (IH H) as (a & b & ->). now exists (String c a), b.
  - intros (a & b & ->). induction a as [|c a IH]; simpl.
    + destruct p as [|x p]; [destruct b; reflexivity|]. simpl.
      rewrite Ascii.eqb_refl. simpl.
      assert (is_prefix p (p ++ b) = true) as ->; [|reflexivity].
      apply is_prefix_iff. now exists b.
    + now rewrite IH, orb_true_r.
Qed.

Lemma py_in_extend p s a b :
  py_in p s = true -> py_in p (a ++ s ++ b)%string = true.
Proof.
  rewrite !py_in_iff. intros (x & y & ->).
  exists (a ++ x)%string, (y ++ b)%string.
  rewrite <- !str_app_assoc. reflexivity.
Qed.

Lemma extract_keywords_in_text text k :
  In k (extract_keywords text) -> py_in k (py_lower text) = true.
Proof.
  unfold extract_keywords. intros Hk. apply filter_In in Hk as [Hk _].
  apply scan_words_sub in Hk as (a & b & Hab). simpl in Hab.
  apply py_in_iff. now exists a, b.
Qed.

Lemma scan_words_word_prefix w r cur :
  str_forall is_word_char w = true ->
  scan_words (w ++ r) cur = scan_words r (cur ++ w)%string.
Proof.
  revert cur; induction w as [|c w IH]; intros cur Hw; simpl.
  - now rewrite str_app_nil_r.
  - simpl in Hw. apply andb_prop in Hw as [Hc Hw]. rewrite Hc, IH by exact Hw.
    now rewrite <- str_app_assoc.
Qed.

Lemma findall_join_space ws :
  Forall word_token ws -> findall_words (join_space ws) = ws.
Proof.
  unfold findall_words.
  induction ws as [|w ws IH]; intros Hws; [reflexivity|].
  inversion Hws as [|? ? [Hne Hw] Hrest]; subst.
  destruct ws as [|w2 ws].
  - simpl join_space. rewrite <- (str_app_nil_r w) at 1.
    rewrite scan_words_word_prefix by exact Hw. simpl.
    destruct w; [contradiction | reflexivity].
  - change (join_space (w :: w2 :: ws))
      with (w ++ String " " (join_space (w2 :: ws)))%string.
    rewrite scan_words_word_prefix by exact Hw.
    cbn [scan_words is_word_char nat_of_ascii N_of_ascii N_of_digits].
    simpl is_word_char. cbv iota beta.
    change (String.append EmptyString w) with w.
    rewrite (IH Hrest). destruct w; [contradiction | reflexivity].
Qed.

Lemma py_lower_join_space ws :
  Forall (fun w => py_lower w = w) ws -> py_lower (join_space ws) = join_space ws.
Proof.
  induction ws as [|w ws IH]; intros H; [reflexivity|].
  inversion H as [|? ? Hw Hrest]; subst.
  destruct ws as [|w2 ws]; [exact Hw|].
  change (join_space (w :: w2 :: ws))
    with (w ++ String " " (join_space (w2 :: ws)))%string.
  rewrite py_lower_app, Hw.
  assert (py_lower (String " " (join_space (w2 :: ws)))
          = String " " (py_lower (join_space (w2 :: ws)))) as -> by reflexivity.
  now rewrite (IH Hrest).
Qed.

Lemma filter_idem {A} (f : A -> bool) l : filter f (filter f l) = filter f l.
Proof.
  induction l as [|x l IH]; simpl; [reflexivity|].
  destruct (f x) eqn:E; simpl; [rewrite E|]; now rewrite IH.
Qed.

Lemma extract_keywords_word_tokens text : Forall word_token (extract_keywords text).
Proof.
  unfold extract_keywords. apply Forall_forall. intros w Hw.
  apply filter_In in Hw as [Hw _].
  exact (proj1 (Forall_forall _ _) (scan_words_tokens (py_lower text) EmptyString eq_refl) w Hw).
Qed.

Lemma extract_keywords_lower text : Forall (fun w => py_lower w = w) (extract_keywords text).
Proof.
  unfold extract_keywords. apply Forall_forall. intros w Hw.
  apply filter_In in Hw as [Hw _]. apply lower_fixed_py_lower.
  exact (proj1 (Forall_forall _ _)
           (scan_words_forall lower_fixed _ EmptyString eq_refl (py_lower_lower_fixed text)) w Hw).
Qed.

(** ** Intent classifier and keyword extractor *)

(** C1: [detect_intent] evaluates its phrase rules in the order Greeting,
    Thanks, Help, Register, Search and returns the intent of the first rule
    whose phrase list has a member contained in the lowercased message; after
    them it returns Search when the keyword extractor yields at least one
    keyword, and Unknown otherwise.  In particular a message containing a
    greeting phrase and a search indicator is a Greeting, and Unknown is
    returned exactly when no phrase list matches and no keyword is extracted. *)
Theorem detect_intent_first_match :
  (forall t, detect_intent t = classify_spec t) /\
  (forall t, detect_intent t = Unknown <->
             (forall r, In r intent_rules -> any_in (snd r) (py_lower t) = false)
             /\ extract_keywords t = []) /\
  (forall t g s, In g greetings -> In s search_indicators ->
                 py_in g (py_lower t) = true -> py_in s (py_lower t) = true ->
                 detect_intent t = Greeting).
Proof.
  split; [|split].
  - intros t. unfold detect_intent, classify_spec, intent_rules; cbn [find snd fst].
    destruct (any_in greetings (py_lower t)); [reflexivity|].
    destruct (any_in thanks (py_lower t)); [reflexivity|].
    destruct (any_in bot_questions (py_lower t)); [reflexivity|].
    destruct (any_in register_keywords (py_lower t)); [reflexivity|].
    destruct (any_in search_indicators (py_lower t)); [reflexivity|].
    destruct (extract_keywords t); reflexivity.
  - intros t. unfold detect_intent.
    destruct (any_in greetings (py_lower t)) eqn:E1;
      [split; [discriminate | intros [H _]; pose proof (H (Greeting, greetings) ltac:(cbn [In intent_rules]; tauto)) as H'; cbn [snd] in H'; congruence]|].
    destruct (any_in thanks (py_lower t)) eqn:E2;
      [split; [discriminate | intros [H _]; pose proof (H (Thanks, thanks) ltac:(cbn [In intent_rules]; tauto)) as H'; cbn [snd] in H'; congruence]|].
    destruct (any_in bot_questions (py_lower t)) eqn:E3;
      [split; [discriminate | intros [H _]; pose proof (H (Help, bot_questions) ltac:(cbn [In intent_rules]; tauto)) as H'; cbn [snd] in H'; congruence]|].
    destruct (any_in register_keywords (py_lower t)) eqn:E4;
      [split; [discriminate | intros [H _]; pose proof (H (Register, register_keywords) ltac:(cbn [In intent_rules]; tauto)) as H'; cbn [snd] in H'; congruence]|].
    destruct (any_in search_indicators (py_lower t)) eqn:E5;
      [split; [discriminate | intros [H _]; pose proof (H (Search, search_indicators) ltac:(cbn [In intent_rules]; tauto)) as H'; cbn [snd] in H'; congruence]|].
    destruct (extract_keywords t) as [|k ks]; simpl.
    + split; [|reflexivity]. intros _. split; [|reflexivity].
      intros r Hr. simpl in Hr.
      destruct Hr as [<-|[<-|[<-|[<-|[<-|[]]]]]]; assumption.
    + split; [discriminate | intros [_ H]; discriminate].
  - intros t g s Hg _ Hin _. unfold detect_intent.
    assert (any_in greetings (py_lower t) = true) as -> by
      (apply existsb_exists; now exists g).
    reflexivity.
Qed.

(** C3 (as stated: a set, without repeated tokens), refuted: the extractor
    returns a list, and a word repeated in the input is repeated in it. *)
Lemma extract_keywords_repeats :
  extract_keywords "rice rice"%string = ["rice"; "rice"]%string /\
  ~ NoDup (extract_keywords "rice rice"%string).
Proof.
  split; [reflexivity|].
  change (extract_keywords "rice rice"%string) with ["rice"; "rice"]%string.
  intros H. inversion H as [|? ? Hnotin _]. apply Hnotin. now left.
Qed.

(** C3 (amended): [extract_keywords] returns the list of word tokens of the
    lowercased input in scan order, repeats kept; every token is lowercase,
    longer than 2 characters and not a stopword, and the empty input gives
    the empty list. *)
Theorem extract_keywords_token_props :
  (forall text,
     extract_keywords text
     = filter (fun w => negb (mem w stopwords) && (2 <? String.length w))
              (findall_words (py_lower text)) /\
     Forall (fun w => py_lower w = w /\ mem w stopwords = false /\
                      2 < String.length w) (extract_keywords text)) /\
  extract_keywords EmptyString = [].
Proof.
  split; [|reflexivity].
  intros text. split; [reflexivity|].
  pose proof (extract_keywords_lower text) as Hl.
  rewrite Forall_forall in *. intros w Hw. split; [now apply Hl|].
  unfold extract_keywords in Hw. apply filter_In in Hw as [_ Hw].
  apply andb_prop in Hw as [Hs Hlen].
  apply negb_true_iff in Hs. apply Nat.ltb_lt in Hlen. auto.
Qed.

(** C9: joining the extracted keywords with single spaces, in scan order,
    and extracting again gives back exactly the same keyword list. *)
Theorem extract_keywords_join_idempotent text :
  extract_keywords (join_space (extract_keywords text)) = extract_keywords text.
Proof.
  unfold extract_keywords at 1.
  rewrite py_lower_join_space by apply extract_keywords_lower.
  rewrite findall_join_space by apply extract_keywords_word_tokens.
  unfold extract_keywords. apply filter_idem.
Qed.

(** ** The stable reverse sort *)

Section PySortFacts.
Context {A : Type} (key : A -> nat).

Lemma insert_asc_perm x l : Permutation (insert_asc key x l) (x :: l).
Proof.
  induction l as [|y l IH]; simpl; [reflexivity|].
  destruct (key x <=? key y); [reflexivity|].
  rewrite IH. apply perm_swap.
Qed.

Lemma sort_asc_perm l : Permutation (sort_asc key l) l.
Proof.
  induction l as [|x l IH]; simpl; [reflexivity|].
  rewrite insert_asc_perm. now apply perm_skip.
Qed.

Lemma py_sort_reverse_perm l : Permutation (py_sort_reverse key l) l.
Proof.
  unfold py_sort_reverse.
  rewrite <- Permutation_rev, sort_asc_perm. symmetry. apply Permutation_rev.
Qed.

Let le_key (a b : A) : Prop := key a <= key b.

Lemma insert_asc_sorted x l :
  StronglySorted le_key l -> StronglySorted le_key (insert_asc key x l).
Proof.
  induction l as [|y l IH]; intros Hs; simpl.
  - repeat constructor.
  - inversion Hs as [|? ? Hs' Hy]; subst.
    destruct (key x <=? key y) eqn:E.
    + apply Nat.leb_le in E. constructor; [exact Hs|].
      constructor; [exact E|].
      eapply Forall_impl; [|exact Hy]. unfold le_key; intros; lia.
    + apply Nat.leb_gt in E. constructor; [now apply IH|].
      apply Forall_forall. intros z Hz.
      apply (Permutation_in _ (insert_asc_perm x l)) in Hz as [<-|Hz].
      * unfold le_key; lia.
      * exact (proj1 (Forall_forall _ _) Hy z Hz).
Qed.

Lemma sort_asc_sorted l : StronglySorted le_key (sort_asc key l).
Proof.
  induction l as [|x l IH]; simpl; [constructor|].
  now apply insert_asc_sorted.
Qed.

Lemma strongly_sorted_snoc (R : A -> A -> Prop) l x :
  StronglySorted R l -> Forall (fun y => R y x) l ->
  StronglySorted R (l ++ [x]).
Proof.
  induction l as [|y l IH]; intros Hs Hx; simpl.
  - repeat constructor.
  - inversion Hs as [|? ? Hs' Hy]; subst. inversion Hx as [|? ? Hyx Hx']; subst.
    constructor; [now apply IH|].
    apply Forall_app; split; [exact Hy | now constructor].
Qed.

Lemma strongly_sorted_rev (R : A -> A -> Prop) l :
  StronglySorted R l -> StronglySorted (fun a b => R b a) (rev l).
Proof.
  induction l as [|x l IH]; intros Hs; simpl; [constructor|].
  inversion Hs as [|? ? Hs' Hx]; subst.
  apply strongly_sorted_snoc; [now apply IH|].
  apply Forall_forall. intros y Hy. apply in_rev in Hy.
  exact (proj1 (Forall_forall _ _) Hx y Hy).
Qed.

Lemma py_sort_reverse_sorted l :
  StronglySorted (fun a b => key b <= key a) (py_sort_reverse key l).
Proof.
  unfold py_sort_reverse. apply (strongly_sorted_rev le_key), sort_asc_sorted.
Qed.

(** Stability: the elements of any one key keep their relative order. *)
Lemma insert_asc_filter_key n x l :
  filter (fun a => key a =? n) (insert_asc key x l)
  = if key x =? n then x :: filter (fun a => key a =? n) l
    else filter (fun a => key a =? n) l.
Proof.
  induction l as [|y l IH]; simpl.
  - destruct (key x =? n); reflexivity.
  - destruct (key x <=? key y) eqn:E; simpl.
    + destruct (key x =? n); reflexivity.
    + rewrite IH. apply Nat.leb_gt in E.
      destruct (key x =? n) eqn:Ex, (key y =? n) eqn:Ey; try reflexivity.
      apply Nat.eqb_eq in Ex, Ey. lia.
Qed.

Lemma sort_asc_filter_key n l :
  filter (fun a => key a =? n) (sort_asc key l) = filter (fun a => key a =? n) l.
Proof.
  induction l as [|x l IH]; simpl; [reflexivity|].
  rewrite insert_asc_filter_key, IH. reflexivity.
Qed.

Lemma filter_rev (f : A -> bool) l : filter f (rev l) = rev (filter f l).
Proof.
  induction l as [|x l IH]; simpl; [reflexivity|].
  rewrite filter_app, IH. simpl. destruct (f x); simpl; [reflexivity|].
  apply app_nil_r.
Qed.

Lemma py_sort_reverse_stable n l :
  filter (fun a => key a =? n) (py_sort_reverse key l)
  = filter (fun a => key a =? n) l.
Proof.
  unfold py_sort_reverse.
  rewrite filter_rev, sort_asc_filter_key, filter_rev. apply rev_involutive.
Qed.
End PySortFacts.

(** ** search_vendors *)

Lemma count_in_filter ks t : count_in ks t = List.length (filter (fun k => py_in k t) ks).
Proof.
  induction ks as [|k ks IH]; simpl; [reflexivity|].
  destruct (py_in k t); simpl; now rewrite IH.
Qed.

Lemma vendor_score_spec q v : vendor_score (extract_keywords q) v = spec_score q v.
Proof.
  unfold vendor_score, spec_score. rewrite count_in_filter.
  destruct (existsb _ _); lia.
Qed.

Lemma scan_vendors_spec q vs :
  scan_vendors (extract_keywords q) vs = spec_candidates q vs.
Proof.
  unfold spec_candidates.
  induction vs as [|v vs IH]; simpl; [reflexivity|].
  rewrite vendor_score_spec. destruct (0 <? spec_score q v); simpl; now rewrite IH.
Qed.

Lemma spec_score_no_keywords q v : extract_keywords q = [] -> spec_score q v = 0.
Proof. unfold spec_score. intros ->. reflexivity. Qed.

(** C2: [search_vendors] returns nothing when the query has no keyword,
    whatever the vendors; otherwise it returns exactly the vendors of positive
    score, each with the spec's score (keywords found in the corpus, plus a
    flat 2 when one is found in the services), the whole set, ordered by
    descending score, vendors of equal score in their scan order. *)
Theorem search_vendors_ranking q vs :
  (extract_keywords q = [] -> forall vs', search_vendors q vs' = []) /\
  Permutation (search_vendors q vs) (spec_candidates q vs) /\
  StronglySorted (fun a b => score b <= score a) (search_vendors q vs) /\
  (forall n, filter (fun m => score m =? n) (search_vendors q vs)
             = filter (fun m => score m =? n) (spec_candidates q vs)).
Proof.
  assert (Hsearch : search_vendors q vs
                    = py_sort_reverse score (spec_candidates q vs)).
  { unfold search_vendors. rewrite <- scan_vendors_spec.
    destruct (extract_keywords q) as [|k ks] eqn:E; [|reflexivity].
    clear E. induction vs as [|v vs IH]; [reflexivity | exact IH]. }
  split; [|split; [|split]].
  - intros E vs'. unfold search_vendors. now rewrite E.
  - rewrite Hsearch. apply py_sort_reverse_perm.
  - rewrite Hsearch. apply py_sort_reverse_sorted.
  - intros n. rewrite Hsearch. apply py_sort_reverse_stable.
Qed.

Lemma services_in_searchable k v :
  py_in k (py_lower (services v)) = true -> py_in k (searchable v) = true.
Proof.
  intros H. unfold searchable. rewrite !py_lower_app.
  rewrite str_app_assoc. now apply py_in_extend.
Qed.

(** C10: a vendor whose services text yields the keyword [k] is found by any
    query whose keywords include [k], with a score of at least 3 (the match in
    the corpus and the services bonus). *)
Theorem registered_vendor_discoverable (v : vendor) (vs : list vendor) (q k : string) :
  In v vs -> In k (extract_keywords (services v)) -> In k (extract_keywords q) ->
  exists m, In m (search_vendors q vs) /\ mv m = v /\ 3 <= score m.
Proof.
  intros Hv Hks Hkq.
  assert (Hlow : py_in k (py_lower (services v)) = true)
    by now apply extract_keywords_in_text.
  assert (Hsc : 3 <= spec_score q v).
  { unfold spec_score.
    assert (existsb (fun k0 => py_in k0 (py_lower (services v))) (extract_keywords q) = true)
      as -> by (apply existsb_exists; now exists k).
    assert (In k (filter (fun k0 => py_in k0 (searchable v)) (extract_keywords q))).
    { apply filter_In. split; [exact Hkq | now apply services_in_searchable]. }
    destruct (filter _ _) as [|x xs]; [contradiction | simpl; lia]. }
  exists (mkMatch v (spec_score q v)). split; [|split; [reflexivity | exact Hsc]].
  destruct (search_vendors_ranking q vs) as (_ & Hperm & _).
  apply (Permutation_in _ (Permutation_sym Hperm)).
  unfold spec_candidates.
  apply (in_map (fun v0 => mkMatch v0 (spec_score q v0))), filter_In.
  split; [exact Hv|].
  apply Nat.ltb_lt. lia.
Qed.

Lemma registered_vendor_discoverable_witness :
  (In jollof_spot [jollof_spot] /\
   In "rice"%string (extract_keywords (services jollof_spot)) /\
   In "rice"%string (extract_keywords "I need rice"%string)) /\
  exists m, In m (search_vendors "I need rice" [jollof_spot]) /\ mv m = jollof_spot /\ 3 <= score m.
Proof.
  assert (H1 : In jollof_spot [jollof_spot]) by (left; reflexivity).
  assert (H2 : In "rice"%string (extract_keywords (services jollof_spot)))
    by (vm_compute; auto).
  assert (H3 : In "rice"%string (extract_keywords "I need rice"%string))
    by (vm_compute; auto).
  split; [auto|].
  exact (registered_vendor_discoverable jollof_spot [jollof_spot] "I need rice" "rice" H1 H2 H3).
Defined.

Example search_ex1 :
  map score (search_vendors "I need rice" [jollof_spot]) = [3].
Proof. reflexivity. Qed.

(** ** Frame lemmas for the handler monad *)

Section Frame.
Variable R : frame_rel.
Let R_refl := fr_refl R.
Let R_trans := fr_trans R.
Let R_sessions := fr_sessions R.

Definition preserves {A} (m : M A) : Prop := forall u w, R w (snd (m u w)).

Lemma preserves_ret {A} (a : A) : preserves (ret a).
Proof. intros u w; apply R_refl. Qed.

Lemma preserves_raise {A} : preserves (@raise A).
Proof. intros u w; apply R_refl. Qed.

Lemma preserves_bind {A B} (m : M A) (k : A -> M B) :
  preserves m -> (forall a, preserves (k a)) -> preserves (bind m k).
Proof.
  intros Hm Hk u w. unfold bind. specialize (Hm u w).
  destruct (m u w) as [[a|] w']; simpl in *; [|exact Hm].
  eapply R_trans; [exact Hm | apply Hk].
Qed.

Lemma preserves_try_except {A} (m h : M A) :
  preserves m -> preserves h -> preserves (try_except m h).
Proof.
  intros Hm Hh u w. unfold try_except. specialize (Hm u w).
  destruct (m u w) as [[a|] w']; simpl in *; [exact Hm|].
  eapply R_trans; [exact Hm | apply Hh].
Qed.

Lemma preserves_try_finally {A} (m : M A) (f : M unit) :
  preserves m -> preserves f -> preserves (try_finally m f).
Proof.
  intros Hm Hf u w. unfold try_finally. specialize (Hm u w).
  destruct (m u w) as [r w']. specialize (Hf u w').
  destruct (f u w') as [r2 w'']. simpl in *.
  destruct r2; simpl; eapply R_trans; eauto.
Qed.

Lemma preserves_from_user : preserves from_user.
Proof. intros u w; apply R_refl. Qed.

Lemma preserves_get_session : preserves get_session.
Proof. intros u w; apply R_refl. Qed.

Lemma preserves_put_session s : preserves (put_session s).
Proof. intros u w; apply R_sessions. Qed.

Lemma preserves_emit e :
  (forall w, R w (mkWorld (sessions w) (db w) (out w ++ [e]))) -> preserves (emit e).
Proof. intros H u w. apply H. Qed.

Lemma preserves_exec {A} (f : database -> option (A * database)) :
  (forall w a d', db_up (db w) = true -> f (db w) = Some (a, d') ->
                  R w (mkWorld (sessions w) d' (out w))) ->
  preserves (exec f).
Proof.
  intros H u w. unfold exec.
  destruct (db_up (db w)) eqn:Eup; [|apply R_refl].
  destruct (f (db w)) as [[a d']|] eqn:Ef; [now apply (H w a d')|apply R_refl].
Qed.

Lemma preserves_clear_state : preserves clear_state.
Proof. intros u w. apply R_sessions. Qed.

Lemma preserves_exec_read {A} (f : database -> A) : preserves (exec (db_read f)).
Proof.
  intros u w. unfold exec, db_read.
  destruct (db_up (db w)); simpl; [apply R_sessions | apply R_refl].
Qed.
End Frame.

Create HintDb frame.
#[export] Hint Resolve preserves_ret preserves_raise preserves_from_user
  preserves_get_session preserves_put_session preserves_exec_read
  preserves_clear_state : frame.

(** Walk through a handler: split binds, [try], and case analyses. *)
Ltac frame_walk :=
  repeat match goal with
  | |- preserves _ (bind _ _) => apply preserves_bind; [| intros ?]
  | |- preserves _ (try_except _ _) => apply preserves_try_except
  | |- preserves _ (try_finally _ _) => apply preserves_try_finally
  | |- preserves _ (match ?x with _ => _ end) => destruct x
  | |- preserves _ (if ?x then _ else _) => destruct x
  | |- preserves _ (let _ := _ in _) => cbv zeta
  | |- preserves _ ?m =>
      let h := eval red in m in
      lazymatch h with
      | bind _ _ => change m with h
      | try_except _ _ => change m with h
      | try_finally _ _ => change m with h
      | match _ with _ => _ end => change m with h
      | if _ then _ else _ => change m with h
      | let _ := _ in _ => change m with h
      end
  end.

Lemma dispatch_preserves (R : frame_rel) hs x :
  (forall h, In h hs -> forall y, preserves R (snd h y)) -> preserves R (dispatch hs x).
Proof.
  intros H. unfold dispatch. apply preserves_bind.
  - frame_walk; eauto with frame.
  - intros st. destruct (find _ hs) as [h|] eqn:E.
    + apply find_some in E as [Hin _]. now apply H.
    + apply preserves_ret.
Qed.

(** *** Existing orders keep their status; new orders are pending *)

Lemma keeps_orders_same (w w' : world) : orders (db w') = orders (db w) -> keeps_orders w w'.
Proof. intros H. exists []. split; [now rewrite H, app_nil_r | constructor]. Qed.

Lemma keeps_orders_emit e : preserves keeps_orders (emit e).
Proof. apply preserves_emit. intros w. now apply keeps_orders_same. Qed.

Lemma keeps_orders_answer t : preserves keeps_orders (answer t).
Proof. apply keeps_orders_emit. Qed.

Lemma keeps_orders_insert_vendor tid a b c e bot f g :
  preserves keeps_orders (exec (insert_vendor tid a b c e bot f g)).
Proof.
  apply preserves_exec. intros w x d' _ H. unfold insert_vendor in H.
  destruct (find_vendor_by_telegram _ _); [discriminate|].
  injection H as _ <-. now apply keeps_orders_same.
Qed.

Lemma keeps_orders_insert_order vid bid det dl :
  preserves keeps_orders (exec (insert_order vid bid det dl)).
Proof.
  apply preserves_exec. intros w x d' _ H. unfold insert_order in H.
  injection H as _ <-. eexists. split; [reflexivity | repeat constructor].
Qed.

Lemma keeps_orders_insert_rating r : preserves keeps_orders (exec (insert_rating r)).
Proof.
  apply preserves_exec. intros w x d' _ H. unfold insert_rating in H.
  destruct (existsb _ _); [discriminate|]. destruct (_ && _); [|discriminate].
  injection H as _ <-. now apply keeps_orders_same.
Qed.

Lemma keeps_orders_set_vendor_rating vid a n :
  preserves keeps_orders (exec (set_vendor_rating vid a n)).
Proof.
  apply preserves_exec. intros w x d' _ H. injection H as _ <-.
  now apply keeps_orders_same.
Qed.

#[export] Hint Resolve keeps_orders_emit keeps_orders_answer keeps_orders_insert_vendor
  keeps_orders_insert_order keeps_orders_insert_rating
  keeps_orders_set_vendor_rating : frame.

Ltac handler_cases Hh :=
  simpl in Hh; repeat destruct Hh as [<- | Hh]; [..| contradiction].

Lemma message_handlers_keep_orders h :
  In h message_handlers -> forall x, preserves keeps_orders (snd h x).
Proof.
  intros Hh x. handler_cases Hh; cbn [snd]; frame_walk; eauto with frame.
Qed.

Lemma followup_keeps_orders oid : preserves keeps_orders (schedule_order_followup oid).
Proof. frame_walk; eauto with frame. Qed.

Lemma callback_handlers_keep_orders h :
  In h callback_handlers ->
  (forall x, preserves keeps_orders (snd h x)) \/
  (snd h = order_completed /\ forall st x, fst h st x = is_prefix "complete_" x) \/
  (snd h = order_incomplete /\ forall st x, fst h st x = is_prefix "incomplete_" x).
Proof.
  intros Hh. handler_cases Hh; cbn [fst snd];
    try (right; (left + right); split; reflexivity);
    left; intros x; frame_walk; eauto with frame.
Qed.

(** *** Writes that leave the orders table as it is *)

Lemma same_orders_emit e : preserves same_orders (emit e).
Proof. apply preserves_emit. reflexivity. Qed.

#[local] Hint Resolve same_orders_emit : frame.

Lemma status_write_orders pre st (k : Z -> M unit) d u w :
  (forall oid, preserves same_orders (k oid)) ->
  let w' := snd ((oid <- parse_callback_int pre d ;;
                  exec (set_order_status oid st) ;;; k oid) u w) in
  keeps_orders w w' \/
  exists oid, py_int (py_remove_all pre d) = Some oid /\
              orders (db w') = map (with_status oid st) (orders (db w)).
Proof.
  intros Hk w'. subst w'. unfold parse_callback_int.
  destruct (py_int _) as [oid|]; [|left; apply fr_refl].
  unfold bind, ret, exec. cbv beta iota.
  destruct (db_up (db w)); [|left; apply fr_refl].
  right. exists oid. split; [reflexivity|]. cbn [set_order_status].
  match goal with |- context [k oid u ?w1] =>
    specialize (Hk oid u w1); destruct (k oid u w1) as [r w2] end.
  cbn [snd fr same_orders] in *. exact Hk.
Qed.

Lemma order_completed_orders d u w :
  keeps_orders w (snd (order_completed d u w)) \/
  exists oid, py_int (py_remove_all "complete_" d) = Some oid /\
              orders (db (snd (order_completed d u w))) =
              map (with_status oid Completed) (orders (db w)).
Proof.
  apply (status_write_orders "complete_" Completed
           (fun oid => update_data "order_id" (VInt oid) ;;;
                       emit (EditText "ask_rating") ;;; set_state RateStars)).
  intros oid. frame_walk; eauto with frame.
Qed.

Lemma order_incomplete_orders d u w :
  keeps_orders w (snd (order_incomplete d u w)) \/
  exists oid, py_int (py_remove_all "incomplete_" d) = Some oid /\
              orders (db (snd (order_incomplete d u w))) =
              map (with_status oid Flagged) (orders (db w)).
Proof.
  apply (status_write_orders "incomplete_" Flagged
           (fun _ => emit (EditText "incomplete_noted"))).
  intros oid. eauto with frame.
Qed.

Ltac destruct_find E :=
  match goal with |- context [find ?f ?hs] => destruct (find f hs) as [h|] eqn:E end.

(** Unfolding one update into the handler the dispatcher selects. *)
Lemma step_unfold u i w :
  step u i w =
  snd (match i with
       | InMessage t =>
           match find (fun h => fst h (fsm (lookup_session u (sessions w))) t)
                      message_handlers with
           | Some h => snd h t
           | None => ret tt
           end
       | InCallback d =>
           match find (fun h => fst h (fsm (lookup_session u (sessions w))) d)
                      callback_handlers with
           | Some h => snd h d
           | None => ret tt
           end
       | InFollowup oid => schedule_order_followup oid
       end u w).
Proof. destruct i; reflexivity. Qed.

(** ** C7: order statuses *)

(** Claim C7 (counterexample): a flagged order is marked completed when the
    buyer presses the "complete" button for it. *)
Lemma flagged_order_completed :
  let w := world_in empty_session (db_with_order true Flagged) in
  map status (orders (db w)) = [Flagged] /\
  map status (orders (db (step 7 (InCallback "complete_1") w))) = [Completed].
Proof. split; vm_compute; reflexivity. Qed.

(** ** C4: precedence of an active flow, and flow entry *)

Lemma no_classify_emit e : quiet e = true -> preserves no_classify (emit e).
Proof. intros Hq. apply preserves_emit. intros w. exists [e]. cbn. now rewrite Hq. Qed.

Lemma no_classify_answer t : preserves no_classify (answer t).
Proof. now apply no_classify_emit. Qed.

Lemma no_classify_exec {A} (f : database -> option (A * database)) :
  preserves no_classify (exec f).
Proof.
  apply preserves_exec. intros w x d' _ _. exists []. cbn. split; [symmetry; apply app_nil_r | reflexivity].
Qed.

#[local] Hint Resolve no_classify_answer no_classify_exec : frame.
#[local] Hint Extern 1 (preserves no_classify (emit _)) =>
  apply no_classify_emit; reflexivity : frame.

Lemma message_handlers_no_classify h :
  In h message_handlers ->
  (forall x, preserves no_classify (snd h x)) \/ snd h = handle_conversation.
Proof.
  intros Hh. handler_cases Hh; cbn [snd]; try (right; reflexivity);
    left; intros x; frame_walk; eauto with frame.
Qed.

Lemma handle_conversation_in_flow t u w :
  fsm (lookup_session u (sessions w)) <> None -> handle_conversation t u w = (Some tt, w).
Proof.
  intros H. unfold handle_conversation, get_state, get_session, bind, ret. cbn.
  destruct (fsm _); [reflexivity | congruence].
Qed.

Lemma lookup_session_put u s ss :
  lookup_session u ((u, s) :: ss) = s.
Proof. unfold lookup_session. cbn. now rewrite Z.eqb_refl. Qed.

(** Claim C4 (counterexample): a user half way through registration who presses
    an "order" button is moved into the order flow; the registration flow is
    replaced, not kept. *)
Lemma order_button_replaces_registration :
  let w := world_in (mkSession (Some RegServices) [("business_name", VStr "Jollof Spot")]%string)
                    (db_with_order true Pending) in
  fsm (lookup_session 7 (sessions w)) = Some RegServices /\
  fsm (lookup_session 7 (sessions (step 7 (InCallback "order_1") w))) = Some OrdDetails.
Proof. split; vm_compute; reflexivity. Qed.

(** Free text in the order flow is absorbed by [handle_conversation], which is
    registered before the order handlers: the order does not advance. *)
Example order_details_free_text_absorbed :
  let w := world_in (mkSession (Some OrdDetails) [("vendor_id", VInt 1)]%string)
                    (db_with_order true Pending) in
  step 7 (InMessage "2 plates") w = w.
Proof. vm_compute. reflexivity. Qed.

(** ** C8: no step validates its input *)

Lemma free_text_no_slash t : is_free_text t = true -> starts_with_slash t = false.
Proof.
  destruct t as [|c t']; [reflexivity|]. unfold starts_with_slash.
  change (is_prefix "/" (String c t')) with (Ascii.eqb "/" c && true).
  destruct (Ascii.eqb_spec "/" c) as [<-|Hc]; [|reflexivity].
  intros H. cbn in H. discriminate H.
Qed.

Lemma free_text_not_command n t : is_free_text t = true -> is_command n t = false.
Proof.
  unfold is_free_text, is_command. generalize (take_word (lstrip t)) as s.
  intros [|c s'] H; [reflexivity|]. cbn [split_at_mention].
  destruct (Ascii.eqb c "@"); [reflexivity|].
  destruct (split_at_mention s') as [a b].
  unfold starts_with_slash in H.
  change (is_prefix "/" (String c s')) with (Ascii.eqb "/" c && true) in H.
  destruct (Ascii.eqb_spec "/" c) as [<-|Hc]; [discriminate H|].
  destruct (String.eqb_spec (String c a) ("/" ++ n)) as [E|_]; [|reflexivity].
  injection E as E _. congruence.
Qed.

(** A text whose first word, mention removed, is not ["/" ++ n] does not
    trigger [Command(n)], with or without a mention. *)
Lemma command_word_not_command n t :
  command_word t <> ("/" ++ n)%string -> is_command n t = false.
Proof.
  unfold command_word, is_command. destruct (split_at_mention _) as [c m].
  cbn [fst]. intros H.
  destruct (String.eqb_spec c ("/" ++ n)) as [E|_]; [contradiction|reflexivity].
Qed.

Ltac run_message Hft :=
  unfold message_handlers; cbn [find fst snd];
  rewrite ?(free_text_not_command _ _ Hft), ?(free_text_no_slash _ Hft); cbn.

(** Claim C8 (counterexample): free text sent while the rating flow waits for
    the stars button gets no reply; nothing is sent and the state stays. *)
Lemma free_text_at_stars_unanswered :
  let w := world_in (mkSession (Some RateStars) [("order_id", VInt 1)]%string)
                    (db_with_order true Completed) in
  let w' := step 7 (InMessage "five stars") w in
  out w' = [] /\ fsm (lookup_session 7 (sessions w')) = Some RateStars.
Proof. split; vm_compute; reflexivity. Qed.

Lemma no_event_in_emit ps e : ~ In e ps -> preserves (no_event_in ps) (emit e).
Proof.
  intros He. apply preserves_emit. intros w. exists [e].
  split; [reflexivity | now constructor].
Qed.

Lemma no_event_in_exec ps {A} (f : database -> option (A * database)) :
  preserves (no_event_in ps) (exec f).
Proof.
  apply preserves_exec. intros w x d' _ _. exists [].
  split; [symmetry; apply app_nil_r | constructor].
Qed.

(** An event that is not one of the questions of the current step. *)
Ltac not_prompt :=
  let Hi := fresh "Hi" in
  intros Hi;
  repeat match goal with s : fsm_state |- _ => destruct s end;
  cbn in Hi;
  repeat match type of Hi with context [if ?b then _ else _] => destruct b end;
  intuition discriminate.

#[local] Hint Resolve no_event_in_exec : frame.
#[local] Hint Extern 1 (preserves (no_event_in _) (emit _)) =>
  apply no_event_in_emit; not_prompt : frame.
#[local] Hint Extern 1 (preserves (no_event_in _) (answer _)) =>
  unfold answer; apply no_event_in_emit; not_prompt : frame.

Lemma in_state_some s s' : in_state s (Some s') = true -> s' = s.
Proof. destruct s, s'; cbn; congruence. Qed.

(** Whatever step a user is at, a message other than /register never makes
    the bot send that step's question again. *)
Lemma message_no_reprompt u w t s :
  fsm (lookup_session u (sessions w)) = Some s ->
  command_word t <> "/register"%string ->
  no_event_in (step_prompts s) w (step u (InMessage t) w).
Proof.
  intros Hs Hrg. apply (command_word_not_command "register") in Hrg.
  rewrite step_unfold. destruct_find E; [|apply fr_refl].
  apply find_some in E as [Hin Hf]. rewrite Hs in Hf.
  handler_cases Hin; cbn [fst snd] in Hf |- *;
    try (apply in_state_some in Hf; subst s);
    try congruence;
    try (rewrite handle_conversation_in_flow by congruence; apply fr_refl);
    match goal with |- fr ?R _ (snd (?m _ _)) =>
      enough (Hp : preserves R m) by apply Hp end;
    try unfold cmd_start; frame_walk; eauto with frame.
Qed.

(** Claim C8 (amended): no step asks again. Whatever step of the
    registration, order or rating flow a user is at, a message whose first
    word is not /register (with or without a mention) never makes the bot send
    that step's question ([step_prompts]) again. Free text (a message whose
    first word does not start with '/') sent while the rating flow waits for
    the stars button is absorbed: the world, including the state, the
    collected data and the outgoing messages, is left as it was. In the
    registration flow, the business-name, services, contact, bot-username and
    description steps accept any free text and move to the next step. *)
Theorem flow_steps_no_validation :
  (forall u w t, fsm (lookup_session u (sessions w)) = Some RateStars ->
     is_free_text t = true -> step u (InMessage t) w = w) /\
  (forall u w t s s', In (s, s') reg_advances ->
     fsm (lookup_session u (sessions w)) = Some s -> is_free_text t = true ->
     fsm (lookup_session u (sessions (step u (InMessage t) w))) = Some s') /\
  (forall u w t s, fsm (lookup_session u (sessions w)) = Some s ->
     command_word t <> "/register"%string ->
     no_event_in (step_prompts s) w (step u (InMessage t) w)).
Proof.
  split; [|split].
  - intros u w t Hs Hft. rewrite step_unfold, Hs. run_message Hft.
    rewrite Hs. reflexivity.
  - intros u w t s s' Hin Hs Hft. rewrite step_unfold, Hs.
    cbn in Hin. repeat destruct Hin as [Hin|Hin]; try contradiction;
      injection Hin as <- <-; run_message Hft;
      unfold process_business_name, process_services, process_contact,
        process_bot_username, process_description, update_data, set_state,
        answer, get_session, put_session, emit, bind, ret; cbn;
      now rewrite lookup_session_put.
  - intros u w t s Hs Hrg. exact (message_no_reprompt u w t s Hs Hrg).
Qed.

(** ** C6: a database failure while a flow completes *)

Ltac split_finds :=
  repeat (cbn; match goal with
               | |- context [match find ?f ?l with _ => _ end] =>
                   destruct (find f l) as [[? []]|]
               end).

Lemma complete_order_db_down t u w :
  db_up (db w) = false -> complete_order t u w = (None, w).
Proof.
  intros Hd. unfold complete_order, get_data, get_session, bind, ret, data_get_int,
    data_get_str, data_get, from_user, exec, raise.
  split_finds; cbn; rewrite ?Hd; reflexivity.
Qed.

Lemma process_price_range_db_down t u w :
  db_up (db w) = false ->
  let w' := snd (process_price_range t u w) in
  fsm (lookup_session u (sessions w')) = None /\
  out w' = out w ++ [Answer "registration_error"].
Proof.
  intros Hd. unfold process_price_range, try_finally, try_except, clear_state, put_session,
    get_data, get_session, bind, ret, data_get_str, data_get, from_user, exec, raise,
    answer, emit.
  split_finds; cbn; rewrite ?Hd; cbn; rewrite ?lookup_session_put; split; reflexivity.
Qed.

(** Claim C6: when the database is down, completing an order raises: the
    world is left as it was, so the user stays in the deadline step and gets
    no message; completing a registration in the same situation clears the
    state and sends the generic failure message. *)
Theorem completion_db_failure t u w :
  db_up (db w) = false ->
  complete_order t u w = (None, w) /\
  fsm (lookup_session u (sessions (snd (process_price_range t u w)))) = None /\
  out (snd (process_price_range t u w)) = out w ++ [Answer "registration_error"].
Proof.
  intros Hd. split; [now apply complete_order_db_down|].
  exact (process_price_range_db_down t u w Hd).
Qed.

Lemma completion_db_failure_witness :
  let w := world_in deadline_session (db_with_order false Pending) in
  db_up (db w) = false /\
  (complete_order "tonight" 7%Z w = (None, w) /\
   fsm (lookup_session 7%Z (sessions (snd (process_price_range "tonight" 7%Z w)))) = None /\
   out (snd (process_price_range "tonight" 7%Z w)) = out w ++ [Answer "registration_error"]) /\
  step 7 (InMessage "/tonight") w = w.
Proof.
  cbv zeta. split; [reflexivity|]. split.
  - apply completion_db_failure. reflexivity.
  - vm_compute. reflexivity.
Defined.

(** ** C5: the rating aggregate *)

Lemma inject_Z_sum l : inject_Z (fold_right Z.add 0%Z l) == fold_right Qplus 0%Q (map inject_Z l).
Proof.
  induction l as [|z l IH]; [reflexivity|]. cbn [fold_right map].
  rewrite inject_Z_plus, IH. reflexivity.
Qed.

Lemma sql_avg_count_mean vid rs :
  fst (sql_avg_count vid rs) == mean_stars (vendor_stars vid rs) /\
  snd (sql_avg_count vid rs) = Z.of_nat (length (vendor_stars vid rs)).
Proof.
  unfold sql_avg_count. cbv zeta. split; [|reflexivity]. cbn [fst].
  destruct (vendor_stars vid rs) as [|z l] eqn:E; [reflexivity|].
  assert (Hn : (0 < Z.of_nat (length (z :: l)))%Z) by (cbn [length]; lia).
  replace (Z.of_nat (length (z :: l)) =? 0)%Z with false by (symmetry; apply Z.eqb_neq; lia).
  unfold mean_stars. rewrite Qmake_Qdiv, Z2Pos.id by exact Hn.
  rewrite inject_Z_sum. reflexivity.
Qed.

Lemma Permutation_filter_rating (f : rating -> bool) rs rs' :
  Permutation rs rs' -> Permutation (filter f rs) (filter f rs').
Proof.
  induction 1 as [| x l l' _ IH | x y l | l l' l'' _ IH1 _ IH2]; cbn.
  - constructor.
  - destruct (f x); [apply perm_skip|]; exact IH.
  - destruct (f x), (f y); try constructor; apply Permutation_refl.
  - eapply Permutation_trans; eassumption.
Qed.

Lemma sum_permutation l l' :
  Permutation l l' -> fold_right Z.add 0%Z l = fold_right Z.add 0%Z l'.
Proof. induction 1; cbn; lia. Qed.

Lemma insert_rating_spec r d d' :
  insert_rating r d = Some (tt, d') ->
  db_up d' = db_up d /\ vendors d' = vendors d /\ ratings d' = ratings d ++ [r].
Proof.
  unfold insert_rating. destruct (existsb _ _); [discriminate|].
  destruct (_ && _); [|discriminate]. intros H. injection H as <-. auto.
Qed.

Lemma vendor_stars_other vid r rs :
  r_vendor_id r <> vid -> vendor_stars vid (rs ++ [r]) = vendor_stars vid rs.
Proof.
  intros Hne. unfold vendor_stars. rewrite filter_app. cbn.
  replace (r_vendor_id r =? vid)%Z with false by (symmetry; apply Z.eqb_neq; exact Hne).
  now rewrite app_nil_r.
Qed.

Lemma recompute_rating_for vid d1 : consistent_for vid (recompute_rating vid d1).
Proof.
  unfold consistent_for, recompute_rating. cbn [vendors ratings].
  apply Forall_map, Forall_forall. intros v _.
  destruct (Z.eqb_spec (vendor_id v) vid) as [E|E]; [|cbn; congruence].
  intros _. unfold row_consistent. cbn [vendor_id avg_rating total_orders]. rewrite E.
  apply sql_avg_count_mean.
Qed.

Lemma recompute_rating_consistent r d d1 :
  ratings d1 = ratings d ++ [r] -> vendors d1 = vendors d ->
  agg_consistent d -> agg_consistent (recompute_rating (r_vendor_id r) d1).
Proof.
  intros Hr Hv Hc. unfold agg_consistent, recompute_rating. cbn [vendors ratings].
  rewrite Hv. apply Forall_map. unfold agg_consistent in Hc.
  eapply Forall_impl; [|exact Hc]. intros v Hrow.
  destruct (Z.eqb_spec (vendor_id v) (r_vendor_id r)) as [E|E].
  - unfold row_consistent. cbn [vendor_id avg_rating total_orders]. rewrite E.
    apply sql_avg_count_mean.
  - destruct Hrow as [Ha Ht]. unfold row_consistent. rewrite Hr, vendor_stars_other by congruence.
    split; assumption.
Qed.

Lemma update_vendor_rating_run vid u w :
  db_up (db w) = true ->
  update_vendor_rating vid u w =
  (Some tt, mkWorld (sessions w) (recompute_rating vid (db w)) (out w)).
Proof.
  intros Hu. cbv [update_vendor_rating bind exec db_read]. rewrite Hu. simpl. rewrite Hu.
  unfold recompute_rating. now rewrite Hu.
Qed.

(** [process_review] either raises before anything is written, or inserts one
    rating and recomputes the aggregate of that rating's vendor. *)
Lemma process_review_cases t u w :
  (fst (process_review t u w) = None /\ db (snd (process_review t u w)) = db w) \/
  (exists r d1, insert_rating r (db w) = Some (tt, d1) /\
     fst (process_review t u w) = Some tt /\
     db (snd (process_review t u w)) = recompute_rating (r_vendor_id r) d1).
Proof.
  cbv [process_review get_data get_session data_get_int data_get bind ret raise exec
       db_read from_user answer emit clear_state put_session].
  repeat (cbn -[insert_rating update_vendor_rating];
    match goal with
    | |- context [match find ?f ?l with _ => _ end] => destruct (find f l) as [[? []]|]
    | |- context [if db_up ?d then _ else _] => destruct (db_up d) eqn:?
    | |- context [match find_order ?a ?d with _ => _ end] => destruct (find_order a d)
    | |- context [match insert_rating ?r ?d with _ => _ end] =>
        destruct (insert_rating r d) as [[[] ?]|] eqn:?
    end); try (left; split; reflexivity).
  match goal with H : insert_rating ?r _ = Some (tt, ?d1) |- _ =>
    destruct (insert_rating_spec _ _ _ H) as [Hu _];
    rewrite update_vendor_rating_run by (cbn; congruence);
    right; exists r, d1; split; [exact H | split; reflexivity] end.
Qed.

(** Claim C5: the review step keeps every vendor row equal to the mean and
    count of that vendor's ratings; when it completes, it has appended one
    rating and the row of that rating's vendor equals the mean and count of
    all of the vendor's ratings, whatever held before. The recomputed values
    depend only on the multiset of ratings, not on their insertion order; for
    the stars 5, 3 and 4 in any order they are 4 and 3. *)
Theorem rating_aggregate_recomputed :
  (forall t u w, agg_consistent (db w) ->
     agg_consistent (db (snd (process_review t u w)))) /\
  (forall t u w, fst (process_review t u w) = Some tt ->
     exists r, ratings (db (snd (process_review t u w))) = ratings (db w) ++ [r] /\
               consistent_for (r_vendor_id r) (db (snd (process_review t u w)))) /\
  (forall vid rs rs', Permutation rs rs' -> sql_avg_count vid rs = sql_avg_count vid rs') /\
  (forall rs, Permutation rs [rating_of 1 5; rating_of 2 3; rating_of 3 4] ->
     fst (sql_avg_count 1 rs) == 4 # 1 /\ snd (sql_avg_count 1 rs) = 3%Z).
Proof.
  assert (Hperm : forall vid rs rs', Permutation rs rs' ->
                  sql_avg_count vid rs = sql_avg_count vid rs').
  { intros vid rs rs' Hp. unfold sql_avg_count, vendor_stars.
    assert (Hs : Permutation (map stars (filter (fun r => (r_vendor_id r =? vid)%Z) rs))
                             (map stars (filter (fun r => (r_vendor_id r =? vid)%Z) rs')))
      by (apply Permutation_map, Permutation_filter_rating, Hp).
    rewrite (Permutation_length Hs), (sum_permutation _ _ Hs). reflexivity. }
  split; [|split; [|split]].
  - intros t u w Hc.
    destruct (process_review_cases t u w) as [[_ ->]|[r [d1 [Hi [_ ->]]]]]; [exact Hc|].
    destruct (insert_rating_spec _ _ _ Hi) as [_ [Hv Hr]].
    exact (recompute_rating_consistent r (db w) d1 Hr Hv Hc).
  - intros t u w Hs.
    destruct (process_review_cases t u w) as [[Hn _]|[r [d1 [Hi [_ ->]]]]];
      [congruence|].
    destruct (insert_rating_spec _ _ _ Hi) as [_ [_ Hr]].
    exists r. split; [exact Hr | apply recompute_rating_for].
  - exact Hperm.
  - intros rs Hp. rewrite (Hperm 1%Z _ _ Hp). split; reflexivity.
Qed.

(** The three reviews of orders 1, 2 and 3 with 5, 3 and 4 stars, run
    through the dispatcher in two different orders. *)
Example three_reviews_any_order :
  let d0 := mkDb true [jollof_spot]
                 [mkOrder 1 1 7 "a" "x" Completed; mkOrder 2 1 7 "b" "x" Completed;
                  mkOrder 3 1 7 "c" "x" Completed] [] 2 4 in
  let review (oid st : Z) (d : database) :=
    db (step 7 (InMessage "/skip")
             (world_in (mkSession (Some RateReview)
                                  [("order_id", VInt oid); ("stars", VInt st)]%string) d)) in
  let row d := map (fun v => (avg_rating v, total_orders v)) (vendors d) in
  (row (review 3 4 (review 2 3 (review 1 5 d0))) = [(12 # 3, 3)] /\
   row (review 2 3 (review 1 5 (review 3 4 d0))) = [(12 # 3, 3)])%Z.
Proof. split; vm_compute; reflexivity. Qed.

(** ** Database invariants kept by every update *)

Section DbInvariant.

Variable P : database -> Prop.
Hypothesis P_insert_vendor : forall tid n s k c b ds pr d d',
  insert_vendor tid n s k c b ds pr d = Some (tt, d') -> P d -> P d'.
Hypothesis P_insert_order : forall vid bid det dl d oid d',
  insert_order vid bid det dl d = Some (oid, d') -> P d -> P d'.
Hypothesis P_set_order_status : forall oid st d d',
  set_order_status oid st d = Some (tt, d') -> P d -> P d'.
Hypothesis P_insert_rating : forall r d d',
  insert_rating r d = Some (tt, d') -> P d -> P d'.
Hypothesis P_set_vendor_rating : forall vid a n d d',
  set_vendor_rating vid a n d = Some (tt, d') -> P d -> P d'.

Lemma inv_emit e : preserves (db_inv_rel P) (emit e).
Proof. apply preserves_emit. intros w H. exact H. Qed.

Lemma inv_answer t : preserves (db_inv_rel P) (answer t).
Proof. apply inv_emit. Qed.

Lemma inv_insert_vendor tid n s k c b ds pr :
  preserves (db_inv_rel P) (exec (insert_vendor tid n s k c b ds pr)).
Proof. apply preserves_exec. intros w [] d' _ E HP. exact (P_insert_vendor _ _ _ _ _ _ _ _ _ _ E HP). Qed.

Lemma inv_insert_order vid bid det dl :
  preserves (db_inv_rel P) (exec (insert_order vid bid det dl)).
Proof. apply preserves_exec. intros w oid d' _ E HP. exact (P_insert_order _ _ _ _ _ _ _ E HP). Qed.

Lemma inv_set_order_status oid st :
  preserves (db_inv_rel P) (exec (set_order_status oid st)).
Proof. apply preserves_exec. intros w [] d' _ E HP. exact (P_set_order_status _ _ _ _ E HP). Qed.

Lemma inv_insert_rating r : preserves (db_inv_rel P) (exec (insert_rating r)).
Proof. apply preserves_exec. intros w [] d' _ E HP. exact (P_insert_rating _ _ _ E HP). Qed.

Lemma inv_set_vendor_rating vid a n :
  preserves (db_inv_rel P) (exec (set_vendor_rating vid a n)).
Proof. apply preserves_exec. intros w [] d' _ E HP. exact (P_set_vendor_rating _ _ _ _ _ E HP). Qed.

#[local] Hint Resolve inv_emit inv_answer inv_insert_vendor inv_insert_order
  inv_set_order_status inv_insert_rating inv_set_vendor_rating : frame.

Lemma handlers_keep_db_inv h :
  In h (message_handlers ++ callback_handlers) -> forall x, preserves (db_inv_rel P) (snd h x).
Proof. intros Hh x. handler_cases Hh; cbn [snd]; frame_walk; eauto with frame. Qed.

Lemma followup_keeps_db_inv oid : preserves (db_inv_rel P) (schedule_order_followup oid).
Proof. frame_walk; eauto with frame. Qed.

Lemma step_keeps_db_inv u i w : P (db w) -> P (db (step u i w)).
Proof.
  rewrite step_unfold. destruct i as [t|d|oid].
  - destruct_find E; [|exact (fun H => H)]. apply find_some in E as [Hin _].
    apply handlers_keep_db_inv. apply in_or_app. now left.
  - destruct_find E; [|exact (fun H => H)]. apply find_some in E as [Hin _].
    apply handlers_keep_db_inv. apply in_or_app. now right.
  - apply followup_keeps_db_inv.
Qed.

End DbInvariant.

Lemma NoDup_snoc {A} (l : list A) x : NoDup l -> ~ In x l -> NoDup (l ++ [x]).
Proof.
  induction l as [|y l IH]; cbn; intros Hn Hx.
  - repeat constructor; auto.
  - inversion Hn as [|? ? Hy Hl]; subst. constructor.
    + rewrite in_app_iff. intros [H|[H|[]]]; [contradiction|]. subst. apply Hx; now left.
    + apply IH; auto.
Qed.

Lemma Forall_lt_not_in {A} (f : A -> Z) l n :
  Forall (fun a => (f a < n)%Z) l -> ~ In n (map f l).
Proof.
  intros H Hin. apply in_map_iff in Hin as [a [Ha Hin]].
  rewrite Forall_forall in H. specialize (H a Hin). lia.
Qed.

Lemma Forall_lt_snoc {A} (f : A -> Z) l n x :
  Forall (fun a => (f a < n)%Z) l -> f x = n ->
  Forall (fun a => (f a < n + 1)%Z) (l ++ [x]).
Proof.
  intros H Hx. apply Forall_app. split; [|constructor; [lia|constructor]].
  eapply Forall_impl; [|exact H]. cbn. intros; lia.
Qed.

Lemma map_set_vendor_rating_id vid a n vs :
  map vendor_id (map (fun v => if Z.eqb (vendor_id v) vid
     then mkVendor (vendor_id v) (telegram_id v) (business_name v) (services v)
            (keywords v) (contact v) (bot_username v) (description v) (price_range v) n a
     else v) vs) = map vendor_id vs.
Proof. induction vs as [|v vs IH]; cbn; [reflexivity|]. destruct (_ =? _)%Z; cbn; now f_equal. Qed.

Lemma map_set_vendor_rating_tid vid a n vs :
  map telegram_id (map (fun v => if Z.eqb (vendor_id v) vid
     then mkVendor (vendor_id v) (telegram_id v) (business_name v) (services v)
            (keywords v) (contact v) (bot_username v) (description v) (price_range v) n a
     else v) vs) = map telegram_id vs.
Proof. induction vs as [|v vs IH]; cbn; [reflexivity|]. destruct (_ =? _)%Z; cbn; now f_equal. Qed.

Lemma map_with_status_id oid st os : map order_id (map (with_status oid st) os) = map order_id os.
Proof. induction os as [|o os IH]; cbn; [reflexivity|]. unfold with_status. destruct (_ =? _)%Z; cbn; now f_equal. Qed.

Lemma Forall_map_with_status oid st os n :
  Forall (fun o => (order_id o < n)%Z) os ->
  Forall (fun o => (order_id o < n)%Z) (map (with_status oid st) os).
Proof.
  intros H. apply Forall_map. eapply Forall_impl; [|exact H].
  intros o. unfold with_status. destruct (_ =? _)%Z; auto.
Qed.

Lemma Forall_map_vendor_id (vid : Z) a n vs m :
  Forall (fun v => (vendor_id v < m)%Z) vs ->
  Forall (fun v => (vendor_id v < m)%Z) (map (fun v => if Z.eqb (vendor_id v) vid
     then mkVendor (vendor_id v) (telegram_id v) (business_name v) (services v)
            (keywords v) (contact v) (bot_username v) (description v) (price_range v) n a
     else v) vs).
Proof.
  intros H. apply Forall_map. eapply Forall_impl; [|exact H].
  intros v. destruct (_ =? _)%Z; auto.
Qed.

Lemma find_none_not_in_tid tid vs :
  find (fun v => Z.eqb (telegram_id v) tid) vs = None -> ~ In tid (map telegram_id vs).
Proof.
  intros H Hin. apply in_map_iff in Hin as [v [Hv Hin]].
  apply (find_none _ _ H) in Hin. rewrite Hv, Z.eqb_refl in Hin. discriminate.
Qed.

Lemma existsb_false_not_in_oid oid rs :
  existsb (fun r' => Z.eqb (r_order_id r') oid) rs = false -> ~ In oid (map r_order_id rs).
Proof.
  intros H Hin. apply in_map_iff in Hin as [r [Hr Hin]].
  assert (existsb (fun r' => Z.eqb (r_order_id r') oid) rs = true)
    by (apply existsb_exists; exists r; now rewrite Hr, Z.eqb_refl).
  congruence.
Qed.

Lemma db_ok_insert_vendor tid n s k c b ds pr d d' :
  insert_vendor tid n s k c b ds pr d = Some (tt, d') -> db_ok d -> db_ok d'.
Proof.
  unfold insert_vendor, find_vendor_by_telegram. destruct (find _ _) eqn:E; [discriminate|].
  intros [= <-] [[Hv [Hvl [Ho Hol]]] [Ht [Hr Hs]]]. cbn.
  unfold db_ok, ids_ok, telegram_unique, ratings_ok in *; cbn; repeat split; auto.
  - rewrite map_app. apply NoDup_snoc; auto. now apply Forall_lt_not_in.
  - now apply Forall_lt_snoc.
  - rewrite map_app. apply NoDup_snoc; auto.
    now apply find_none_not_in_tid.
Qed.

Lemma db_ok_insert_order vid bid det dl d oid d' :
  insert_order vid bid det dl d = Some (oid, d') -> db_ok d -> db_ok d'.
Proof.
  unfold insert_order. intros [= <- <-] [[Hv [Hvl [Ho Hol]]] [Ht [Hr Hs]]].
  unfold db_ok, ids_ok, telegram_unique, ratings_ok in *; cbn; repeat split; auto.
  - rewrite map_app. apply NoDup_snoc; auto. now apply Forall_lt_not_in.
  - now apply Forall_lt_snoc.
Qed.

Lemma db_ok_set_order_status oid st d d' :
  set_order_status oid st d = Some (tt, d') -> db_ok d -> db_ok d'.
Proof.
  unfold set_order_status. intros [= <-] [[Hv [Hvl [Ho Hol]]] [Ht [Hr Hs]]].
  unfold db_ok, ids_ok, telegram_unique, ratings_ok in *; cbn; repeat split; auto.
  - now rewrite map_with_status_id.
  - now apply Forall_map_with_status.
Qed.

Lemma db_ok_insert_rating r d d' :
  insert_rating r d = Some (tt, d') -> db_ok d -> db_ok d'.
Proof.
  unfold insert_rating. destruct (existsb _ _) eqn:E; [discriminate|].
  destruct ((1 <=? stars r)%Z && (stars r <=? 5)%Z) eqn:Es; [|discriminate].
  intros [= <-] [[Hv [Hvl [Ho Hol]]] [Ht [Hr Hs]]]. apply andb_true_iff in Es as [E1 E2].
  apply Z.leb_le in E1, E2.
  unfold db_ok, ids_ok, telegram_unique, ratings_ok in *; cbn; repeat split; auto.
  - rewrite map_app. apply NoDup_snoc; auto. now apply existsb_false_not_in_oid.
  - apply Forall_app. split; auto.
Qed.

Lemma db_ok_set_vendor_rating vid a n d d' :
  set_vendor_rating vid a n d = Some (tt, d') -> db_ok d -> db_ok d'.
Proof.
  unfold set_vendor_rating. intros [= <-] [[Hv [Hvl [Ho Hol]]] [Ht [Hr Hs]]].
  unfold db_ok, ids_ok, telegram_unique, ratings_ok in *; cbn; repeat split; auto.
  - now rewrite map_set_vendor_rating_id.
  - now apply Forall_map_vendor_id.
  - now rewrite map_set_vendor_rating_tid.
Qed.

Lemma step_keeps_db_ok u i w : db_ok (db w) -> db_ok (db (step u i w)).
Proof.
  apply step_keeps_db_inv.
  - exact db_ok_insert_vendor.
  - exact db_ok_insert_order.
  - exact db_ok_set_order_status.
  - exact db_ok_insert_rating.
  - exact db_ok_set_vendor_rating.
Qed.

Lemma run_keeps_db_ok_aux us w : db_ok (db w) -> db_ok (db (run us w)).
Proof.
  revert w. induction us as [|[u i] us IH]; cbn; intros w H; [exact H|].
  apply IH. now apply step_keeps_db_ok.
Qed.

(** Extra X1: whatever sequence of updates the bot processes from a database
    whose keys are sound, vendor ids and order ids stay distinct and below the
    next AUTOINCREMENT value, no two vendors share a Telegram id, no order has
    two ratings, and every rating has 1 to 5 stars. *)
Theorem run_keeps_db_ok us w : db_ok (db w) -> db_ok (db (run us w)).
Proof. apply run_keeps_db_ok_aux. Qed.

Lemma run_keeps_db_ok_witness :
  db_ok init_database /\
  db_ok (db (run [(7%Z, InMessage "/register"); (7%Z, InMessage "Acme")]
                 (mkWorld [] init_database []))).
Proof.
  assert (H0 : db_ok init_database) by (repeat split; cbn; repeat constructor).
  split; [exact H0|]. apply run_keeps_db_ok. exact H0.
Defined.

(** ** Callback data: [int(data.replace(prefix, ""))] reads back [str(z)] *)

Lemma digit_cases d : (0 <= d <= 9)%Z ->
  d = 0%Z \/ d = 1%Z \/ d = 2%Z \/ d = 3%Z \/ d = 4%Z \/ d = 5%Z \/ d = 6%Z \/
  d = 7%Z \/ d = 8%Z \/ d = 9%Z.
Proof. lia. Qed.

Lemma digit_char_facts d : (0 <= d <= 9)%Z ->
  digit_val (digit_char d) = Some d /\ Ascii.eqb (digit_char d) "_" = false /\
  is_space (digit_char d) = false /\ is_num_char (digit_char d) = true /\
  (forall r r', String (digit_char d) r <> String "-" r') /\
  (forall r r', String (digit_char d) r <> String "+" r').
Proof.
  intros H. apply digit_cases in H.
  repeat destruct H as [->|H]; subst; (split; [reflexivity|]);
    repeat split; try reflexivity; intros r r' E; discriminate E.
Qed.

Lemma str_of_nonneg_parse f n rest pd : (0 <= n)%Z -> (Z.to_nat n <= f)%nat ->
  parse_digits (str_of_nonneg f n ++ rest) 0 pd = parse_digits rest n true.
Proof.
  revert n rest pd. induction f as [|f IH]; intros n rest pd Hn Hf.
  - assert (n = 0%Z) as -> by lia. reflexivity.
  - cbn [str_of_nonneg]. destruct (Z.ltb_spec n 10) as [Hlt|Hge].
    + destruct (digit_char_facts n ltac:(lia)) as [Hv [Hu _]].
      cbn [append parse_digits]. rewrite Hu, Hv. reflexivity.
    + rewrite <- str_app_assoc, IH.
      * destruct (digit_char_facts (n mod 10) ltac:(pose proof (Z.mod_pos_bound n 10 ltac:(lia)); lia)) as [Hv [Hu _]].
        cbn [append parse_digits]. rewrite Hu, Hv. f_equal. pose proof (Z.div_mod n 10). lia.
      * apply Z.div_pos; lia.
      * assert (n / 10 < n)%Z by (apply Z.div_lt; lia). lia.
Qed.

Lemma str_of_nonneg_chars f n : (0 <= n)%Z -> (Z.to_nat n <= f)%nat ->
  exists d r, (0 <= d <= 9)%Z /\ str_of_nonneg f n = String (digit_char d) r /\
              str_forall is_num_char (str_of_nonneg f n) = true.
Proof.
  revert n. induction f as [|f IH]; intros n Hn Hf; cbn [str_of_nonneg].
  - assert (n = 0%Z) as -> by lia. exists 0%Z, EmptyString. now repeat split.
  - destruct (Z.ltb_spec n 10).
    + exists n, EmptyString. repeat split; try lia. cbn [str_forall].
      now rewrite (proj1 (proj2 (proj2 (proj2 (digit_char_facts n ltac:(lia)))))).
    + assert (n / 10 < n)%Z by (apply Z.div_lt; lia).
      destruct (IH (n / 10)%Z) as [d [r [Hd [E Hc]]]];
        [apply Z.div_pos; lia | lia |].
      exists d, (r ++ String (digit_char (n mod 10)) EmptyString)%string. repeat split; try lia.
      * now rewrite E.
      * rewrite str_forall_app, Hc. cbn [str_forall andb].
        now rewrite (proj1 (proj2 (proj2 (proj2 (digit_char_facts (n mod 10) ltac:(pose proof (Z.mod_pos_bound n 10 ltac:(lia)); lia)))))).
Qed.

Lemma num_char_not_space c : is_num_char c = true -> is_space c = false.
Proof. destruct c as [[] [] [] [] [] [] [] []]; vm_compute; first [reflexivity | intros H; discriminate H]. Qed.

Lemma rstrip_num s : str_forall is_num_char s = true -> rstrip s = s.
Proof.
  induction s as [|c s IH]; cbn; [reflexivity|].
  intros H. apply andb_true_iff in H as [Hc Hs]. rewrite IH by exact Hs.
  destruct s; [now rewrite num_char_not_space | reflexivity].
Qed.

Lemma py_strip_num s : str_forall is_num_char s = true -> py_strip s = s.
Proof.
  intros H. unfold py_strip. destruct s as [|c s']; [reflexivity|].
  assert (Hc : is_num_char c = true)
    by (cbn [str_forall] in H; now apply andb_true_iff in H).
  cbn [lstrip]. rewrite (num_char_not_space c Hc). now apply rstrip_num.
Qed.

Lemma str_drop_app p s : str_drop (String.length p) (p ++ s) = s.
Proof. induction p as [|c p IH]; cbn; [destruct s | ]; auto. Qed.

Lemma is_prefix_app p s : is_prefix p (p ++ s) = true.
Proof. apply is_prefix_iff. now exists s. Qed.

Lemma remove_all_no_match f c p s :
  is_num_char c = false -> str_forall is_num_char s = true ->
  remove_all_aux f (String c p) s = s.
Proof.
  revert s. induction f as [|f IH]; intros s Hc Hs; [reflexivity|].
  destruct s as [|c' s']; [reflexivity|]. cbn [str_forall] in Hs.
  apply andb_true_iff in Hs as [Hc' Hs]. cbn [remove_all_aux].
  replace (is_prefix (String c p) (String c' s')) with false.
  - now rewrite IH.
  - cbn [is_prefix]. destruct (Ascii.eqb_spec c c') as [<-|]; [congruence | reflexivity].
Qed.

Lemma py_remove_all_prefix c p s :
  is_num_char c = false -> str_forall is_num_char s = true ->
  py_remove_all (String c p) (String c p ++ s) = s.
Proof.
  intros Hc Hs. unfold py_remove_all. change (String c p ++ s)%string with (String c (p ++ s)).
  cbn [String.length remove_all_aux].
  replace (is_prefix (String c p) (String c (p ++ s))) with true
    by (symmetry; exact (is_prefix_app (String c p) s)).
  change (str_drop _ (String c (p ++ s))) with (str_drop (String.length p) (p ++ s)).
  rewrite str_drop_app. now apply remove_all_no_match.
Qed.

Lemma py_int_nosign s :
  py_strip s = s -> (forall r, s <> String "-" r) -> (forall r, s <> String "+" r) ->
  py_int s = parse_digits s 0 false.
Proof.
  intros Hs Hm Hp. unfold py_int. rewrite Hs. destruct s as [|c r]; [reflexivity|].
  destruct c as [[] [] [] [] [] [] [] []]; try reflexivity;
    [exfalso; now apply (Hp r) | exfalso; now apply (Hm r)].
Qed.

Lemma py_str_int_chars z : str_forall is_num_char (py_str_int z) = true.
Proof.
  unfold py_str_int. destruct (Z.ltb_spec z 0).
  - destruct (str_of_nonneg_chars (Z.to_nat (- z)) (- z)) as [d [r [_ [_ H']]]]; [lia | lia |].
    exact H'.
  - destruct (str_of_nonneg_chars (Z.to_nat z) z) as [d [r [_ [_ H']]]]; [lia | lia |].
    exact H'.
Qed.

Lemma py_int_py_str_int z : py_int (py_str_int z) = Some z.
Proof.
  unfold py_str_int. destruct (Z.ltb_spec z 0).
  - destruct (str_of_nonneg_chars (Z.to_nat (- z)) (- z)) as [d [r [Hd [E Hc]]]]; [lia | lia |].
    unfold py_int. rewrite py_strip_num by (cbn [append str_forall]; now rewrite Hc).
    cbn [append]. rewrite <- (str_app_nil_r (str_of_nonneg _ _)), str_of_nonneg_parse by lia.
    cbn. f_equal. lia.
  - destruct (str_of_nonneg_chars (Z.to_nat z) z) as [d [r [Hd [E Hc]]]]; [lia | lia |].
    destruct (digit_char_facts d Hd) as [_ [_ [_ [_ [Hm Hp]]]]].
    rewrite py_int_nosign.
    + rewrite <- (str_app_nil_r (str_of_nonneg _ _)), str_of_nonneg_parse by lia.
      reflexivity.
    + now apply py_strip_num.
    + rewrite E. exact (Hm r).
    + rewrite E. exact (Hp r).
Qed.

Lemma parse_callback_int_py_str_int c p z u w :
  is_num_char c = false ->
  parse_callback_int (String c p) (String c p ++ py_str_int z) u w = (Some z, w).
Proof.
  intros Hc. unfold parse_callback_int.
  rewrite py_remove_all_prefix by (exact Hc || apply py_str_int_chars).
  now rewrite py_int_py_str_int.
Qed.

(** Extra X2: the id the bot writes into a button's callback data with
    [f"{prefix}{id}"] is the id its handler reads back with
    [int(callback.data.replace(prefix, ""))], for every integer id and every
    prefix that starts with a character other than a digit or '-'; the
    parse does not touch the world. *)
Theorem parse_callback_int_round_trip c p z u w :
  is_num_char c = false ->
  parse_callback_int (String c p) (String c p ++ py_str_int z) u w = (Some z, w).
Proof. apply parse_callback_int_py_str_int. Qed.

Lemma parse_callback_int_round_trip_witness :
  is_num_char "o" = false /\
  parse_callback_int "order_" ("order_" ++ py_str_int 42) 7%Z (mkWorld [] init_database [])
    = (Some 42%Z, mkWorld [] init_database []).
Proof. split; [reflexivity | apply parse_callback_int_round_trip; reflexivity]. Defined.

(** ** Buttons route to their handlers *)

Ltac rewrite_parse c p z :=
  match goal with
  | |- context [parse_callback_int _ _ ?u ?w] =>
      let Hp := fresh "Hp" in
      pose proof (parse_callback_int_py_str_int c p z u w eq_refl) as Hp;
      cbn [append] in Hp; rewrite Hp; clear Hp
  end.

Ltac run_press c p z :=
  cbv zeta; rewrite step_unfold; cbn [callback_handlers find fst snd]; cbn;
  rewrite ?andb_false_r; cbn;
  unfold start_order, redirect_to_vendor_bot, show_contact, show_vendor_details,
    order_completed, order_incomplete, process_rating_stars, bind;
  rewrite_parse c p z;
  unfold update_data, set_state, get_session, put_session, emit, exec, db_read,
    bind, ret; cbn.

Lemma place_order_step vid u w :
  let w' := step u (InCallback ("order_" ++ py_str_int vid)) w in
  fsm (lookup_session u (sessions w')) = Some OrdDetails /\
  data_get_opt "vendor_id" (data (lookup_session u (sessions w'))) = VInt vid /\
  db w' = db w /\ out w' = out w ++ [EditText "ask_order_details"].
Proof.
  run_press "o"%char "rder_"%string vid. rewrite !lookup_session_put. now cbn.
Qed.

Lemma bot_order_step vid u w :
  db_up (db w) = true ->
  step u (InCallback ("botorder_" ++ py_str_int vid)) w =
  mkWorld (sessions w) (db w)
    (out w ++ [match option_map bot_username (find_vendor vid (db w)) with
               | Some (Some (String _ _)) => EditText "open_vendor_bot"
               | _ => Alert "bot_not_available"
               end]).
Proof.
  intros Hup. run_press "b"%char "otorder_"%string vid. rewrite Hup.
  now destruct (find_vendor vid (db w)) as [[? ? ? ? ? ? [[|]|] ? ? ? ?]|].
Qed.

Lemma contact_step vid u w :
  db_up (db w) = true ->
  step u (InCallback ("contact_" ++ py_str_int vid)) w =
  mkWorld (sessions w) (db w)
    (out w ++ [match find_vendor vid (db w) with
               | Some _ => Alert "contact"
               | None => Alert "vendor_not_found"
               end]).
Proof.
  intros Hup. run_press "c"%char "ontact_"%string vid. rewrite Hup.
  now destruct (find_vendor vid (db w)).
Qed.

Lemma vendor_details_step vid u w :
  db_up (db w) = true ->
  step u (InCallback ("vendor_" ++ py_str_int vid)) w =
  mkWorld (sessions w) (db w)
    (out w ++ match find_vendor vid (db w) with
              | Some _ => [EditText "vendor_details"]
              | None => []
              end).
Proof.
  intros Hup. run_press "v"%char "endor_"%string vid. rewrite Hup.
  destruct (find_vendor vid (db w)); cbn; [reflexivity|]. now rewrite app_nil_r.
Qed.

Lemma search_again_step u w :
  step u (InCallback "search_again") w =
  mkWorld (sessions w) (db w) (out w ++ [EditText "search_again"]).
Proof. reflexivity. Qed.

Lemma complete_button_step oid u w :
  db_up (db w) = true ->
  let w' := step u (InCallback ("complete_" ++ py_str_int oid)) w in
  set_order_status oid Completed (db w) = Some (tt, db w') /\
  fsm (lookup_session u (sessions w')) = Some RateStars /\
  data_get_opt "order_id" (data (lookup_session u (sessions w'))) = VInt oid /\
  out w' = out w ++ [EditText "ask_rating"].
Proof.
  intros Hup. run_press "c"%char "omplete_"%string oid. rewrite Hup. cbn.
  split; [unfold set_order_status; now rewrite Hup|].
  rewrite !lookup_session_put. now cbn.
Qed.

Lemma incomplete_button_step oid u w :
  db_up (db w) = true ->
  exists d', set_order_status oid Flagged (db w) = Some (tt, d') /\
  step u (InCallback ("incomplete_" ++ py_str_int oid)) w =
  mkWorld (sessions w) d' (out w ++ [EditText "incomplete_noted"]).
Proof.
  intros Hup. eexists. split; [reflexivity|].
  run_press "i"%char "ncomplete_"%string oid. now rewrite Hup.
Qed.

Lemma in_state_other s st : st <> Some s -> in_state s st = false.
Proof.
  destruct st as [s'|]; [|reflexivity]. cbn. intros H.
  destruct (fsm_state_beq s s') eqn:E; [|reflexivity].
  apply internal_fsm_state_dec_bl in E. subst. congruence.
Qed.

Lemma data_get_opt_filter k k' l : k <> k' ->
  data_get_opt k (filter (fun p => negb (String.eqb (fst p) k')) l) = data_get_opt k l.
Proof.
  intros Hk. unfold data_get_opt. induction l as [|[k1 v1] l IH]; cbn; [reflexivity|].
  destruct (String.eqb_spec k1 k') as [->|]; cbn.
  - rewrite (proj2 (String.eqb_neq k' k)) by congruence. exact IH.
  - destruct (String.eqb k1 k); [reflexivity | exact IH].
Qed.

Lemma rate_button_step i u w :
  fsm (lookup_session u (sessions w)) = Some RateStars ->
  let w' := step u (InCallback ("rate_" ++ py_str_int i)) w in
  fsm (lookup_session u (sessions w')) = Some RateReview /\
  data_get_opt "stars" (data (lookup_session u (sessions w'))) = VInt i /\
  data_get_opt "order_id" (data (lookup_session u (sessions w'))) =
    data_get_opt "order_id" (data (lookup_session u (sessions w))) /\
  db w' = db w /\ out w' = out w ++ [EditText "ask_review"].
Proof.
  intros Hs. cbv zeta. rewrite step_unfold, Hs. cbn [callback_handlers find fst snd]. cbn.
  unfold process_rating_stars, bind. rewrite_parse "r"%char "ate_"%string i.
  unfold update_data, set_state, get_session, put_session, emit, bind, ret. cbn.
  rewrite !lookup_session_put. cbn. repeat split.
  change (data_get_opt "order_id" (("stars"%string, VInt i) ::
            filter (fun p => negb (String.eqb (fst p) "stars")) (data (lookup_session u (sessions w))))
          = data_get_opt "order_id" (data (lookup_session u (sessions w)))).
  unfold data_get_opt at 1. cbn [find fst]. change (String.eqb "stars" "order_id") with false.
  fold (data_get_opt "order_id" (filter (fun p => negb (String.eqb (fst p) "stars"))
                                     (data (lookup_session u (sessions w))))).
  now apply data_get_opt_filter.
Qed.

Lemma rate_button_outside i u w :
  fsm (lookup_session u (sessions w)) <> Some RateStars ->
  step u (InCallback ("rate_" ++ py_str_int i)) w = w.
Proof.
  intros Hs. rewrite step_unfold. cbn [callback_handlers find fst snd]. cbn.
  rewrite (in_state_other _ _ Hs). reflexivity.
Qed.

Lemma remove_all_at f s : (String.length s <= f)%nat ->
  str_forall (fun c => negb (Ascii.eqb c "@")) (remove_all_aux f "@" s) = true.
Proof.
  revert s. induction f as [|f IH]; intros [|c s] Hl; cbn in Hl; try reflexivity; [lia|].
  cbn [remove_all_aux]. change (is_prefix "@" (String c s)) with (Ascii.eqb "@" c && true).
  destruct (Ascii.eqb_spec "@" c) as [<-|Hc]; cbn [andb].
  - apply IH. cbn. lia.
  - cbn [str_forall]. rewrite IH by lia.
    destruct (Ascii.eqb_spec c "@"); [congruence | reflexivity].
Qed.

Lemma find_vendor_unique v d :
  NoDup (map vendor_id (vendors d)) -> In v (vendors d) -> find_vendor (vendor_id v) d = Some v.
Proof.
  unfold find_vendor. generalize (vendors d) as vs. intros vs.
  induction vs as [|v' vs IH]; intros Hn Hin; [destruct Hin|].
  inversion Hn as [|? ? Hv' Hn']; subst. cbn.
  destruct Hin as [<-|Hin]; [now rewrite Z.eqb_refl|].
  destruct (Z.eqb_spec (vendor_id v') (vendor_id v)) as [E|_]; [|now apply IH].
  exfalso. apply Hv'. rewrite E. now apply in_map.
Qed.

Lemma search_vendors_in q vs m : In m (search_vendors q vs) -> In (mv m) vs.
Proof.
  unfold search_vendors. destruct (extract_keywords q) as [|k ks]; [intros []|].
  intros Hin. apply (Permutation_in m (py_sort_reverse_perm score (scan_vendors (k :: ks) vs))) in Hin.
  revert Hin. generalize (k :: ks) as qk. intros qk.
  induction vs as [|v vs IH]; cbn [scan_vendors In]; [tauto|].
  destruct (0 <? _); cbn [In]; [intros [<-|H]; [now left | right; auto] | intros H; right; auto].
Qed.

(** Extra X3: the buttons of a vendor card act on the vendor the card was
    built for.  The order button (vendor without a bot) stores the vendor id
    and starts the order flow from any state; the bot button edits the message
    to the vendor's bot link when the vendor has a non-empty bot username and
    otherwise alerts that no bot is available; the contact button alerts the
    contact or "vendor not found"; the last button starts a new search.  None
    of them writes to the database. *)
Theorem vendor_action_keyboard_buttons vid has_bot u w :
  db_up (db w) = true ->
  map (map btn_data) (vendor_action_keyboard vid has_bot) =
    [[Some ((if has_bot then "botorder_" else "order_") ++ py_str_int vid)%string];
     [Some ("contact_" ++ py_str_int vid)%string]; [Some "search_again"%string]] /\
  (let w' := step u (InCallback ("order_" ++ py_str_int vid)) w in
   fsm (lookup_session u (sessions w')) = Some OrdDetails /\
   data_get_opt "vendor_id" (data (lookup_session u (sessions w'))) = VInt vid /\
   db w' = db w /\ out w' = out w ++ [EditText "ask_order_details"]) /\
  step u (InCallback ("botorder_" ++ py_str_int vid)) w =
    mkWorld (sessions w) (db w)
      (out w ++ [match option_map bot_username (find_vendor vid (db w)) with
                 | Some (Some (String _ _)) => EditText "open_vendor_bot"
                 | _ => Alert "bot_not_available"
                 end]) /\
  step u (InCallback ("contact_" ++ py_str_int vid)) w =
    mkWorld (sessions w) (db w)
      (out w ++ [match find_vendor vid (db w) with
                 | Some _ => Alert "contact"
                 | None => Alert "vendor_not_found"
                 end]) /\
  step u (InCallback "search_again") w =
    mkWorld (sessions w) (db w) (out w ++ [EditText "search_again"]).
Proof.
  intros Hup. split; [now destruct has_bot|]. split; [apply place_order_step|].
  split; [now apply bot_order_step|]. split; [now apply contact_step|].
  apply search_again_step.
Qed.

Lemma vendor_action_keyboard_buttons_witness :
  let w := world_in empty_session (db_with_order true Pending) in
  db_up (db w) = true /\
  out (step 7 (InCallback ("contact_" ++ py_str_int 1)) w) = [Alert "contact"].
Proof.
  cbv zeta. split; [reflexivity|].
  destruct (vendor_action_keyboard_buttons 1 false 7
              (world_in empty_session (db_with_order true Pending)) eq_refl)
    as [_ [_ [_ [H _]]]].
  rewrite H. reflexivity.
Defined.

(** Extra X4: the two buttons of the follow-up message act on the order they
    were sent for, whatever state the user is in.  "Yes" sets that order to
    completed, records its id and asks for the stars; "No" sets it to flagged
    and leaves the user's state and data as they were. *)
Theorem followup_keyboard_buttons oid u w :
  db_up (db w) = true ->
  map (map btn_data) (followup_keyboard oid) =
    [[Some ("complete_" ++ py_str_int oid)%string]; [Some ("incomplete_" ++ py_str_int oid)%string]] /\
  (let w' := step u (InCallback ("complete_" ++ py_str_int oid)) w in
   set_order_status oid Completed (db w) = Some (tt, db w') /\
   fsm (lookup_session u (sessions w')) = Some RateStars /\
   data_get_opt "order_id" (data (lookup_session u (sessions w'))) = VInt oid /\
   out w' = out w ++ [EditText "ask_rating"]) /\
  (exists d', set_order_status oid Flagged (db w) = Some (tt, d') /\
   step u (InCallback ("incomplete_" ++ py_str_int oid)) w =
   mkWorld (sessions w) d' (out w ++ [EditText "incomplete_noted"])).
Proof.
  intros Hup. split; [reflexivity|]. split.
  - now apply complete_button_step.
  - now apply incomplete_button_step.
Qed.

Lemma followup_keyboard_buttons_witness :
  let w := world_in empty_session (db_with_order true Pending) in
  db_up (db w) = true /\
  set_order_status 1 Completed (db w) =
    Some (tt, db (step 7 (InCallback ("complete_" ++ py_str_int 1)) w)).
Proof.
  cbv zeta. split; [reflexivity|].
  destruct (followup_keyboard_buttons 1 7 (world_in empty_session (db_with_order true Pending))
              eq_refl) as [_ [[H _] _]].
  exact H.
Defined.

(** Extra X5: the rating keyboard has the buttons "rate_1" to "rate_5".  While
    the user waits for the stars, pressing "rate_i" stores i as the stars,
    keeps the order id collected before and asks for the review; in any other
    state the press changes nothing at all. *)
Theorem rating_keyboard_buttons :
  map (map btn_data) rating_keyboard =
    map (fun i => [Some ("rate_" ++ py_str_int i)%string]) [1; 2; 3; 4; 5]%Z /\
  forall i u w,
  (fsm (lookup_session u (sessions w)) = Some RateStars ->
   let w' := step u (InCallback ("rate_" ++ py_str_int i)) w in
   fsm (lookup_session u (sessions w')) = Some RateReview /\
   data_get_opt "stars" (data (lookup_session u (sessions w'))) = VInt i /\
   data_get_opt "order_id" (data (lookup_session u (sessions w'))) =
     data_get_opt "order_id" (data (lookup_session u (sessions w))) /\
   db w' = db w /\ out w' = out w ++ [EditText "ask_review"]) /\
  (fsm (lookup_session u (sessions w)) <> Some RateStars ->
   step u (InCallback ("rate_" ++ py_str_int i)) w = w).
Proof.
  split; [reflexivity|]. intros i u w. split.
  - apply rate_button_step.
  - apply rate_button_outside.
Qed.

(** Extra X6: in the list of search results, the button of each of the first
    ten matches carries that vendor's id, and when the vendor ids are distinct
    pressing it shows that very vendor: the lookup by id returns the row the
    button was made from, so the press is never silently ignored.  The list
    has at most ten vendor buttons and ends with the new-search button. *)
Theorem vendor_list_keyboard_buttons fmt_1f q u w :
  db_up (db w) = true -> NoDup (map vendor_id (vendors (db w))) ->
  let ms := map mv (search_vendors q (vendors (db w))) in
  let kb := vendor_list_keyboard fmt_1f ms in
  List.length kb = (Nat.min 10 (List.length ms) + 1)%nat /\
  last kb [] = [cb_button "🔍 New Search" "search_again"] /\
  forall v, In v (firstn 10 ms) ->
    In [vendor_button fmt_1f v] kb /\
    btn_data (vendor_button fmt_1f v) = Some ("vendor_" ++ py_str_int (vendor_id v))%string /\
    find_vendor (vendor_id v) (db w) = Some v /\
    step u (InCallback ("vendor_" ++ py_str_int (vendor_id v))) w =
      mkWorld (sessions w) (db w) (out w ++ [EditText "vendor_details"]).
Proof.
  intros Hup Hn ms kb. subst kb. unfold vendor_list_keyboard. split; [|split].
  - rewrite length_app, length_map, length_firstn. reflexivity.
  - apply last_last.
  - intros v Hv. assert (Hf : find_vendor (vendor_id v) (db w) = Some v).
    { apply find_vendor_unique; [exact Hn|].
      assert (Hv' : In v ms) by (rewrite <- (firstn_skipn 10 ms); apply in_or_app; now left).
      subst ms. apply in_map_iff in Hv' as [m [<- Hm]].
      now apply search_vendors_in in Hm. }
    split; [|split; [reflexivity|split; [exact Hf|]]].
    + apply in_or_app. left. apply in_map_iff. now exists v.
    + rewrite vendor_details_step by exact Hup. now rewrite Hf.
Qed.

Lemma vendor_list_keyboard_buttons_witness :
  let w := world_in empty_session (db_with_order true Pending) in
  db_up (db w) = true /\ NoDup (map vendor_id (vendors (db w))) /\
  List.length (vendor_list_keyboard (fun _ => "0.0"%string)
                 (map mv (search_vendors "jollof rice" (vendors (db w))))) = 2%nat.
Proof.
  cbv zeta.
  assert (Hn : NoDup (map vendor_id (vendors (db_with_order true Pending))))
    by (cbn; repeat constructor; cbn; tauto).
  split; [reflexivity | split; [exact Hn|]].
  destruct (vendor_list_keyboard_buttons (fun _ => "0.0"%string) "jollof rice" 7
              (world_in empty_session (db_with_order true Pending)) eq_refl Hn) as [H _].
  rewrite H. vm_compute. reflexivity.
Defined.

(** Extra X7: the keyboard that sends the buyer to a vendor's own bot links to
    "https://t.me/" followed by the stored username with every '@' removed, so
    the link never contains an '@'; its back button shows the same vendor's
    card again. *)
Theorem vendor_bot_keyboard_buttons name b vid u w :
  db_up (db w) = true ->
  map (map btn_url) (vendor_bot_keyboard name b vid) =
    [[Some (bot_link b)]; [None]] /\
  map (map btn_data) (vendor_bot_keyboard name b vid) =
    [[None]; [Some ("vendor_" ++ py_str_int vid)%string]] /\
  (exists rest, bot_link b = ("https://t.me/" ++ rest)%string /\
     str_forall (fun c => negb (Ascii.eqb c "@")) rest = true) /\
  step u (InCallback ("vendor_" ++ py_str_int vid)) w =
    mkWorld (sessions w) (db w)
      (out w ++ match find_vendor vid (db w) with
                | Some _ => [EditText "vendor_details"]
                | None => []
                end).
Proof.
  intros Hup. split; [reflexivity|]. split; [reflexivity|]. split.
  - exists (py_remove_all "@" b). split; [reflexivity|].
    apply remove_all_at. lia.
  - now apply vendor_details_step.
Qed.

Lemma vendor_bot_keyboard_buttons_witness :
  let w := world_in empty_session (db_with_order true Pending) in
  db_up (db w) = true /\
  bot_link "@jollof_bot" = "https://t.me/jollof_bot"%string /\
  out (step 7 (InCallback ("vendor_" ++ py_str_int 1)) w) = [EditText "vendor_details"].
Proof.
  cbv zeta. split; [reflexivity|]. split; [reflexivity|].
  destruct (vendor_bot_keyboard_buttons "Jollof Spot" "@jollof_bot" 1 7
              (world_in empty_session (db_with_order true Pending)) eq_refl)
    as [_ [_ [_ H]]].
  rewrite H. reflexivity.
Defined.

(** ** Messages inside the order and rating flows *)

(** Extra X8: outside the registration steps, a user with an active state
    (choosing a vendor, order details, deadline, order id, stars or review)
    who sends free text gets nothing: the message is taken by the general
    conversation handler, which ignores it, so the world is left exactly as
    it was.  In particular the order details, the deadline and the review can
    never be given as free text. *)
Theorem free_text_ignored_in_flows u w t st :
  fsm (lookup_session u (sessions w)) = Some st ->
  ~ In st [RegBusinessName; RegServices; RegContact; RegBotUsername; RegDescription;
           RegPriceRange] ->
  is_free_text t = true ->
  step u (InMessage t) w = w.
Proof.
  intros Hs Hr Hft. rewrite step_unfold, Hs.
  destruct st; try (exfalso; apply Hr; cbn; tauto);
    run_message Hft; rewrite Hs; reflexivity.
Qed.

Lemma free_text_ignored_in_flows_witness :
  let w := world_in (mkSession (Some OrdDeadline)
                       [("order_details", VStr "2 plates"); ("vendor_id", VInt 1)]%string)
                    (db_with_order true Pending) in
  fsm (lookup_session 7 (sessions w)) = Some OrdDeadline /\
  ~ In OrdDeadline [RegBusinessName; RegServices; RegContact; RegBotUsername; RegDescription;
                    RegPriceRange] /\
  is_free_text "tonight" = true /\
  step 7 (InMessage "tonight") w = w.
Proof.
  cbv zeta. split; [reflexivity|]. split; [cbn; intuition discriminate|].
  split; [reflexivity|].
  apply (free_text_ignored_in_flows 7 _ "tonight" OrdDeadline); [reflexivity | cbn; intuition discriminate | reflexivity].
Defined.

Ltac run_slash Hsl Hst Hrg :=
  unfold message_handlers; cbn [find fst snd]; rewrite Hst, Hrg, Hsl; cbn.

Lemma data_get_int_opt k d z u w :
  data_get_opt k d = VInt z -> data_get_int k d u w = (Some z, w).
Proof.
  unfold data_get_opt, data_get_int, data_get, bind, ret.
  destruct (find _ d) as [[k' v]|]; cbn; intros H; [subst; reflexivity | discriminate H].
Qed.

Lemma data_get_str_opt k d s u w :
  data_get_opt k d = VStr s -> data_get_str k d u w = (Some s, w).
Proof.
  unfold data_get_opt, data_get_str, data_get, bind, ret.
  destruct (find _ d) as [[k' v]|]; cbn; intros H; [subst; reflexivity | discriminate H].
Qed.

Lemma order_details_step u w t :
  fsm (lookup_session u (sessions w)) = Some OrdDetails ->
  starts_with_slash t = true -> is_command "start" t = false -> is_command "register" t = false ->
  let w' := step u (InMessage t) w in
  fsm (lookup_session u (sessions w')) = Some OrdDeadline /\
  data_get_opt "order_details" (data (lookup_session u (sessions w'))) = VStr t /\
  data_get_opt "vendor_id" (data (lookup_session u (sessions w'))) =
    data_get_opt "vendor_id" (data (lookup_session u (sessions w))) /\
  db w' = db w /\ out w' = out w ++ [Answer "ask_deadline"].
Proof.
  intros Hs Hsl Hst Hrg. cbv zeta. rewrite step_unfold, Hs. run_slash Hsl Hst Hrg.
  unfold process_order_details, update_data, set_state, answer, get_session, put_session,
    emit, bind, ret. cbn. rewrite !lookup_session_put. cbn. repeat split.
  change (data_get_opt "vendor_id" (("order_details"%string, VStr t) ::
            filter (fun p => negb (String.eqb (fst p) "order_details"))
              (data (lookup_session u (sessions w))))
          = data_get_opt "vendor_id" (data (lookup_session u (sessions w)))).
  unfold data_get_opt at 1. cbn [find fst]. change (String.eqb "order_details" "vendor_id") with false.
  fold (data_get_opt "vendor_id" (filter (fun p => negb (String.eqb (fst p) "order_details"))
                                      (data (lookup_session u (sessions w))))).
  now apply data_get_opt_filter.
Qed.

Lemma deadline_step u w t vid det v :
  fsm (lookup_session u (sessions w)) = Some OrdDeadline ->
  data_get_opt "vendor_id" (data (lookup_session u (sessions w))) = VInt vid ->
  data_get_opt "order_details" (data (lookup_session u (sessions w))) = VStr det ->
  db_up (db w) = true -> find_vendor vid (db w) = Some v ->
  starts_with_slash t = true -> is_command "start" t = false -> is_command "register" t = false ->
  let w' := step u (InMessage t) w in
  insert_order vid u det t (db w) = Some (next_order_id (db w), db w') /\
  fsm (lookup_session u (sessions w')) = None /\
  out w' = out w ++ [SendTo (telegram_id v) "new_order"; Answer "order_placed";
                     ScheduleFollowup (next_order_id (db w)) u].
Proof.
  intros Hs Hv Hd Hup Hf Hsl Hst Hrg. cbv zeta. rewrite step_unfold, Hs. run_slash Hsl Hst Hrg.
  unfold complete_order, get_data, get_session, bind, ret, from_user.
  cbn [fst snd]. rewrite (data_get_int_opt _ _ _ _ _ Hv), (data_get_str_opt _ _ _ _ _ Hd).
  unfold exec, db_read. cbn. rewrite Hup. cbn.
  unfold find_vendor in Hf. rewrite Hf.
  unfold clear_state, put_session, answer, emit, bind, ret. cbn.
  rewrite lookup_session_put. split; [unfold insert_order; now rewrite Hup|].
  split; [reflexivity|]. now rewrite <- !app_assoc.
Qed.

(** Extra X9: the order flow can be completed, but only with messages that
    start with '/' and whose first word, with or without an @mention, is not
    /start or /register.  From any state,
    pressing the order button of an existing vendor, then sending such a
    message as the details and another as the deadline, inserts exactly one
    pending order with those texts and the next order id, notifies the vendor,
    confirms to the buyer, schedules the follow-up, and clears the state. *)
Theorem order_flow_completes vid v t1 t2 u w :
  db_up (db w) = true -> find_vendor vid (db w) = Some v ->
  starts_with_slash t1 = true -> command_word t1 <> "/start"%string ->
  command_word t1 <> "/register"%string ->
  starts_with_slash t2 = true -> command_word t2 <> "/start"%string ->
  command_word t2 <> "/register"%string ->
  let w' := run [(u, InCallback ("order_" ++ py_str_int vid)); (u, InMessage t1);
                 (u, InMessage t2)] w in
  orders (db w') = orders (db w) ++ [mkOrder (next_order_id (db w)) vid u t1 t2 Pending] /\
  vendors (db w') = vendors (db w) /\ ratings (db w') = ratings (db w) /\
  fsm (lookup_session u (sessions w')) = None /\
  out w' = out w ++ [EditText "ask_order_details"; Answer "ask_deadline";
                     SendTo (telegram_id v) "new_order"; Answer "order_placed";
                     ScheduleFollowup (next_order_id (db w)) u].
Proof.
  intros Hup Hf H1 H2 H3 H4 H5 H6. cbv zeta. unfold run. cbn [fold_left fst snd].
  apply (command_word_not_command "start") in H2, H5.
  apply (command_word_not_command "register") in H3, H6.
  set (w1 := step u (InCallback ("order_" ++ py_str_int vid)) w).
  destruct (place_order_step vid u w) as [S1 [V1 [D1 O1]]]. fold w1 in S1, V1, D1, O1.
  set (w2 := step u (InMessage t1) w1).
  destruct (order_details_step u w1 t1 S1 H1 H2 H3) as [S2 [T2 [V2 [D2 O2]]]].
  fold w2 in S2, T2, V2, D2, O2. rewrite V1 in V2.
  rewrite D1 in D2.
  destruct (deadline_step u w2 t2 vid t1 v S2 V2 T2 ltac:(now rewrite D2)
              ltac:(now rewrite D2) H4 H5 H6) as [I3 [S3 O3]].
  rewrite D2 in I3. unfold insert_order in I3. injection I3 as I3.
  rewrite <- I3. cbn. rewrite D2 in O3. rewrite O3, O2, O1.
  repeat split; [exact S3|]. now rewrite <- !app_assoc.
Qed.

Lemma order_flow_completes_witness :
  let w := world_in empty_session (db_with_order true Pending) in
  db_up (db w) = true /\ find_vendor 1 (db w) = Some jollof_spot /\
  orders (db (run [(7%Z, InCallback ("order_" ++ py_str_int 1)); (7%Z, InMessage "/2 plates");
                   (7%Z, InMessage "/tonight")] w)) =
    orders (db w) ++ [mkOrder 2 1 7 "/2 plates" "/tonight" Pending].
Proof.
  cbv zeta. split; [reflexivity|]. split; [reflexivity|].
  apply (order_flow_completes 1 jollof_spot "/2 plates" "/tonight" 7
           (world_in empty_session (db_with_order true Pending)));
    first [reflexivity | intros Hc; vm_compute in Hc; discriminate Hc].
Defined.

Lemma review_step_run u w t oid k o :
  fsm (lookup_session u (sessions w)) = Some RateReview ->
  data_get_opt "order_id" (data (lookup_session u (sessions w))) = VInt oid ->
  data_get_opt "stars" (data (lookup_session u (sessions w))) = VInt k ->
  db_up (db w) = true -> find_order oid (db w) = Some o ->
  starts_with_slash t = true -> is_command "start" t = false -> is_command "register" t = false ->
  step u (InMessage t) w =
  snd ((exec (insert_rating (mkRating oid (o_vendor_id o) u k
                               (if String.eqb t "/skip" then None else Some t))) ;;;
       update_vendor_rating (o_vendor_id o) ;;;
       answer "thanks_feedback" ;;;
       clear_state) u w).
Proof.
  destruct w as [ss d os]. cbn [sessions db out].
  intros Hs Ho Hk Hup Hf Hsl Hst Hrg. rewrite step_unfold. cbn [sessions]. rewrite Hs.
  run_slash Hsl Hst Hrg.
  unfold process_review, get_data, get_session. unfold bind at 1 2. cbn [fst snd].
  unfold bind at 1. rewrite (data_get_int_opt _ _ _ _ _ Ho).
  unfold bind at 1. rewrite (data_get_int_opt _ _ _ _ _ Hk).
  unfold bind at 1. unfold exec at 1, db_read. cbn [db]. rewrite Hup, Hf. reflexivity.
Qed.

Lemma review_tail r vid u w :
  db_up (db w) = true ->
  let w' := snd ((exec (insert_rating r) ;;; update_vendor_rating vid ;;;
                  answer "thanks_feedback" ;;; clear_state) u w) in
  (insert_rating r (db w) = None -> w' = w) /\
  (forall d1, insert_rating r (db w) = Some (tt, d1) ->
     db w' = recompute_rating vid d1 /\ fsm (lookup_session u (sessions w')) = None /\
     out w' = out w ++ [Answer "thanks_feedback"]).
Proof.
  intros Hup. cbv zeta. split.
  - intros E. unfold bind, exec. now rewrite Hup, E.
  - intros d1 E. destruct (insert_rating_spec _ _ _ E) as [Hu _].
    unfold bind, exec. rewrite Hup, E.
    rewrite update_vendor_rating_run by (cbn; congruence).
    unfold answer, emit, clear_state, put_session. cbn.
    now rewrite lookup_session_put.
Qed.

(** Extra X10: the rating flow, from the stars question to a review sent as a
    message starting with '/' (such as /skip) whose first word, with or
    without an @mention, is not /start or /register, stores exactly what was
    collected: pressing "rate_k" and then sending the review inserts the
    rating (order id from the state, vendor of that order, the buyer, k stars,
    no text for /skip) and recomputes that vendor's aggregate, when the order
    has no rating yet and k is between 1 and 5.  When the order already has a
    rating, the review is refused without any reply: the database is
    unchanged and the user stays in the review step. *)
Theorem rating_flow_review u w oid k o t :
  fsm (lookup_session u (sessions w)) = Some RateStars ->
  data_get_opt "order_id" (data (lookup_session u (sessions w))) = VInt oid ->
  db_up (db w) = true -> find_order oid (db w) = Some o ->
  starts_with_slash t = true -> command_word t <> "/start"%string -> command_word t <> "/register"%string ->
  let r := mkRating oid (o_vendor_id o) u k (if String.eqb t "/skip" then None else Some t) in
  let w' := run [(u, InCallback ("rate_" ++ py_str_int k)); (u, InMessage t)] w in
  ((existsb (fun r' => Z.eqb (r_order_id r') oid) (ratings (db w)) = false -> (1 <= k <= 5)%Z ->
    exists d1, insert_rating r (db w) = Some (tt, d1) /\ ratings d1 = ratings (db w) ++ [r] /\
      db w' = recompute_rating (o_vendor_id o) d1 /\
      fsm (lookup_session u (sessions w')) = None /\
      out w' = out w ++ [EditText "ask_review"; Answer "thanks_feedback"]) /\
   (existsb (fun r' => Z.eqb (r_order_id r') oid) (ratings (db w)) = true ->
    db w' = db w /\ fsm (lookup_session u (sessions w')) = Some RateReview /\
    out w' = out w ++ [EditText "ask_review"])).
Proof.
  intros Hs Ho Hup Hf H1 H2 H3. cbv zeta. unfold run. cbn [fold_left fst snd].
  apply (command_word_not_command "start") in H2.
  apply (command_word_not_command "register") in H3.
  destruct (rate_button_step k u w Hs) as [S1 [K1 [O1 [D1 E1]]]].
  set (w1 := step u (InCallback ("rate_" ++ py_str_int k)) w) in *.
  rewrite Ho in O1.
  rewrite (review_step_run u w1 t oid k o S1 O1 K1 ltac:(now rewrite D1)
             ltac:(now rewrite D1) H1 H2 H3).
  destruct (review_tail (mkRating oid (o_vendor_id o) u k
                           (if String.eqb t "/skip" then None else Some t))
              (o_vendor_id o) u w1 ltac:(now rewrite D1)) as [Hn Hy].
  rewrite D1 in Hn, Hy. split.
  - intros Hx Hk.
    set (r := mkRating oid (o_vendor_id o) u k (if String.eqb t "/skip" then None else Some t)) in *.
    assert (Ei : insert_rating r (db w) =
                 Some (tt, mkDb (db_up (db w)) (vendors (db w)) (orders (db w))
                                (ratings (db w) ++ [r]) (next_vendor_id (db w))
                                (next_order_id (db w)))).
    { unfold insert_rating. subst r. cbn [r_order_id stars]. rewrite Hx.
      replace ((1 <=? k)%Z && (k <=? 5)%Z) with true
        by (symmetry; apply andb_true_iff; split; apply Z.leb_le; lia).
      reflexivity. }
    eexists. split; [exact Ei|]. split; [reflexivity|].
    destruct (Hy _ Ei) as [Hd [Hs' Ho']].
    split; [exact Hd|]. split; [exact Hs'|]. rewrite Ho', E1, <- app_assoc. reflexivity.
  - intros Hx.
    assert (Ei : insert_rating (mkRating oid (o_vendor_id o) u k
                   (if String.eqb t "/skip" then None else Some t)) (db w) = None)
      by (unfold insert_rating; cbn [r_order_id]; now rewrite Hx).
    rewrite (Hn Ei). split; [exact D1|]. split; [exact S1 | exact E1].
Qed.

Lemma rating_flow_review_witness :
  let w := world_in (mkSession (Some RateStars) [("order_id", VInt 1)]%string)
                    (db_with_order true Completed) in
  fsm (lookup_session 7 (sessions w)) = Some RateStars /\
  data_get_opt "order_id" (data (lookup_session 7 (sessions w))) = VInt 1 /\
  db_up (db w) = true /\ find_order 1 (db w) = Some (mkOrder 1 1 7 "2 plates" "tonight" Completed) /\
  ratings (db (run [(7%Z, InCallback ("rate_" ++ py_str_int 4)); (7%Z, InMessage "/skip")] w))
    = [mkRating 1 1 7 4 None].
Proof.
  cbv zeta. do 4 (split; [reflexivity|]).
  destruct (rating_flow_review 7 (world_in (mkSession (Some RateStars) [("order_id", VInt 1)]%string)
                                    (db_with_order true Completed))
              1 4 (mkOrder 1 1 7 "2 plates" "tonight" Completed) "/skip"
              eq_refl eq_refl eq_refl eq_refl eq_refl
              ltac:(intros Hc; vm_compute in Hc; discriminate Hc)
              ltac:(intros Hc; vm_compute in Hc; discriminate Hc)) as [H _].
  destruct (H eq_refl ltac:(lia)) as [d1 [_ [Hr [Hd _]]]].
  rewrite Hd. exact Hr.
Defined.

(** ** Registration *)

Lemma data_get_opt_update k k' v d :
  data_get_opt k ((k', v) :: filter (fun p => negb (String.eqb (fst p) k')) d) =
  if String.eqb k' k then v else data_get_opt k d.
Proof.
  unfold data_get_opt at 1. cbn [find fst snd].
  destruct (String.eqb_spec k' k) as [<-|Hk]; [reflexivity|].
  fold (data_get_opt k (filter (fun p => negb (String.eqb (fst p) k')) d)).
  apply data_get_opt_filter. congruence.
Qed.

Ltac run_reg Hs Hst Hrg :=
  rewrite step_unfold, Hs; unfold message_handlers; cbn [find fst snd];
  rewrite Hst, Hrg; cbn;
  unfold process_business_name, process_services, process_contact, process_bot_username,
    process_description, update_data, set_state, answer, get_session, put_session, emit,
    bind, ret; cbn; rewrite ?lookup_session_put; cbn.

Lemma register_step u w :
  fsm (lookup_session u (sessions w)) = None ->
  db_up (db w) = true -> find_vendor_by_telegram u (db w) = None ->
  let w' := step u (InMessage "/register") w in
  lookup_session u (sessions w') =
    mkSession (Some RegBusinessName) (data (lookup_session u (sessions w))) /\
  db w' = db w /\ out w' = out w ++ [Answer "ask_business_name"].
Proof.
  intros Hs Hup Hv. unfold step, handle_input, dispatch. cbn.
  change (is_command "start" "/register") with false.
  change (is_command "register" "/register") with true. cbn.
  unfold get_vendor_by_telegram_id, exec, bind, db_read, answer, emit, set_state,
    get_session, put_session, ret. rewrite Hup. cbn. rewrite Hv. cbn.
  rewrite lookup_session_put. auto.
Qed.

Lemma business_name_step u w t :
  fsm (lookup_session u (sessions w)) = Some RegBusinessName ->
  is_command "start" t = false -> is_command "register" t = false ->
  let w' := step u (InMessage t) w in
  let d := data (lookup_session u (sessions w)) in
  lookup_session u (sessions w') = mkSession (Some RegServices)
    (("business_name", VStr t) :: filter (fun p => negb (String.eqb (fst p) "business_name")) d)%string /\
  db w' = db w /\ out w' = out w ++ [Answer "ask_services"].
Proof.
  intros Hs Hst Hrg. run_reg Hs Hst Hrg. auto.
Qed.
Lemma services_step u w t :
  fsm (lookup_session u (sessions w)) = Some RegServices ->
  is_command "start" t = false -> is_command "register" t = false ->
  let w' := step u (InMessage t) w in
  let d := data (lookup_session u (sessions w)) in
  lookup_session u (sessions w') = mkSession (Some RegContact)
    (("keywords", VStr (join_space (extract_keywords t))) ::
     filter (fun p => negb (String.eqb (fst p) "keywords"))
       (("services", VStr t) :: filter (fun p => negb (String.eqb (fst p) "services")) d))%string /\
  db w' = db w /\ out w' = out w ++ [Answer "ask_contact"].
Proof.
  intros Hs Hst Hrg. run_reg Hs Hst Hrg. auto.
Qed.

Lemma contact_reg_step u w t :
  fsm (lookup_session u (sessions w)) = Some RegContact ->
  is_command "start" t = false -> is_command "register" t = false ->
  let w' := step u (InMessage t) w in
  let d := data (lookup_session u (sessions w)) in
  lookup_session u (sessions w') = mkSession (Some RegBotUsername)
    (("contact", VStr t) :: filter (fun p => negb (String.eqb (fst p) "contact")) d)%string /\
  db w' = db w /\ out w' = out w ++ [Answer "ask_bot_username"].
Proof.
  intros Hs Hst Hrg. run_reg Hs Hst Hrg. auto.
Qed.

Lemma bot_username_step u w t :
  fsm (lookup_session u (sessions w)) = Some RegBotUsername ->
  is_command "start" t = false -> is_command "register" t = false ->
  let w' := step u (InMessage t) w in
  let d := data (lookup_session u (sessions w)) in
  let bot := if mem (py_lower t) bot_negatives then VNone
             else let b := py_strip t in
                  VStr (if is_prefix "@" b then b else "@" ++ b) in
  lookup_session u (sessions w') = mkSession (Some RegDescription)
    (("bot_username", bot) :: filter (fun p => negb (String.eqb (fst p) "bot_username")) d)%string /\
  db w' = db w /\
  out w' = out w ++ [Answer (match bot with VNone => "ask_pitch_no_bot"
                                        | _ => "ask_pitch_with_bot" end)].
Proof.
  intros Hs Hst Hrg. run_reg Hs Hst Hrg.
  destruct (mem (py_lower t) bot_negatives); cbn; rewrite ?lookup_session_put; auto.
Qed.

Lemma description_step u w t :
  fsm (lookup_session u (sessions w)) = Some RegDescription ->
  is_command "start" t = false -> is_command "register" t = false ->
  let w' := step u (InMessage t) w in
  let d := data (lookup_session u (sessions w)) in
  lookup_session u (sessions w') = mkSession (Some RegPriceRange)
    (("description", VStr (substring 0 200 t)) ::
     filter (fun p => negb (String.eqb (fst p) "description")) d)%string /\
  db w' = db w /\ out w' = out w ++ [Answer "ask_price_range"].
Proof.
  intros Hs Hst Hrg. run_reg Hs Hst Hrg. auto.
Qed.
Lemma price_range_step u w t bn sv kw ct ds :
  fsm (lookup_session u (sessions w)) = Some RegPriceRange ->
  is_command "start" t = false -> is_command "register" t = false ->
  db_up (db w) = true -> find_vendor_by_telegram u (db w) = None ->
  let d := data (lookup_session u (sessions w)) in
  data_get_opt "business_name" d = VStr bn -> data_get_opt "services" d = VStr sv ->
  data_get_opt "keywords" d = VStr kw -> data_get_opt "contact" d = VStr ct ->
  data_get_opt "description" d = VStr ds ->
  let bot := match data_get_opt "bot_username" d with VStr b => Some b | _ => None end in
  let w' := step u (InMessage t) w in
  lookup_session u (sessions w') = empty_session /\
  db w' = mkDb true (vendors (db w) ++
                     [mkVendor (next_vendor_id (db w)) u bn sv kw ct bot ds t 0 0])
               (orders (db w)) (ratings (db w))
               (next_vendor_id (db w) + 1) (next_order_id (db w)) /\
  out w' = out w ++ [Answer "registered"].
Proof.
  intros Hs Hst Hrg Hup Hv d Hbn Hsv Hkw Hct Hds bot w'. subst w' bot d.
  rewrite step_unfold, Hs. unfold message_handlers; cbn [find fst snd].
  rewrite Hst, Hrg; cbn [negb andb orb in_state fsm_state_beq].
  unfold process_price_range, try_finally, try_except, get_data, get_session, bind, ret,
    from_user.
  cbn [fst snd].
  rewrite (data_get_str_opt _ _ _ _ _ Hbn); cbn beta iota.
  rewrite (data_get_str_opt _ _ _ _ _ Hsv); cbn beta iota.
  rewrite (data_get_str_opt _ _ _ _ _ Hkw); cbn beta iota.
  rewrite (data_get_str_opt _ _ _ _ _ Hct); cbn beta iota.
  rewrite (data_get_str_opt _ _ _ _ _ Hds); cbn beta iota.
  unfold exec, insert_vendor. rewrite Hup, Hv. cbn.
  unfold answer, emit, clear_state, put_session. cbn.
  rewrite lookup_session_put. auto.
Qed.
(** Extra X11: a complete registration. An unregistered user with no active
    flow, with the database up, who sends /register and then six messages whose
    first word, with or without an @mention, is not /start or /register, is
    registered: one vendor row is appended with
    the next vendor id, the user's Telegram id, the six answers (services with
    their extracted keywords, the bot username normalised to start with '@' or
    absent for a negative answer, the description cut to 200 characters), no
    orders and rating 0; orders and ratings are unchanged, the state is
    cleared and the bot sends the six questions and the confirmation. *)
Theorem registration_flow_registers u w t1 t2 t3 t4 t5 t6 :
  fsm (lookup_session u (sessions w)) = None ->
  db_up (db w) = true -> find_vendor_by_telegram u (db w) = None ->
  Forall (fun t => command_word t <> "/start"%string /\ command_word t <> "/register"%string)
         [t1; t2; t3; t4; t5; t6] ->
  let bot := if mem (py_lower t4) bot_negatives then None
             else let b := py_strip t4 in Some (if is_prefix "@" b then b else ("@" ++ b)%string) in
  let w' := run (map (fun t => (u, InMessage t)) ["/register"%string; t1; t2; t3; t4; t5; t6]) w in
  vendors (db w') = vendors (db w) ++
    [mkVendor (next_vendor_id (db w)) u t1 t2 (join_space (extract_keywords t2)) t3 bot
              (substring 0 200 t5) t6 0 0] /\
  orders (db w') = orders (db w) /\ ratings (db w') = ratings (db w) /\
  lookup_session u (sessions w') = empty_session /\
  out w' = out w ++ map Answer
    ["ask_business_name"; "ask_services"; "ask_contact"; "ask_bot_username";
     if mem (py_lower t4) bot_negatives then "ask_pitch_no_bot" else "ask_pitch_with_bot";
     "ask_price_range"; "registered"]%string.
Proof.
  intros Hs Hup Hv Hts bot w'. subst w'.
  apply (Forall_impl (fun t => is_command "start" t = false /\ is_command "register" t = false))
    in Hts; [|intros t [A B]; split; apply command_word_not_command; assumption].
  repeat (apply Forall_cons_iff in Hts as [[? ?] Hts]).
  unfold run. cbn [map fold_left fst snd].
  destruct (register_step u w Hs Hup Hv) as [L1 [D1 O1]].
  set (w1 := step u (InMessage "/register") w) in *.
  assert (F1 : fsm (lookup_session u (sessions w1)) = Some RegBusinessName) by now rewrite L1.
  destruct (business_name_step u w1 t1 F1 ltac:(assumption) ltac:(assumption)) as [L2 [D2 O2]].
  set (w2 := step u (InMessage t1) w1) in *.
  assert (F2 : fsm (lookup_session u (sessions w2)) = Some RegServices) by now rewrite L2.
  destruct (services_step u w2 t2 F2 ltac:(assumption) ltac:(assumption)) as [L3 [D3 O3]].
  set (w3 := step u (InMessage t2) w2) in *.
  assert (F3 : fsm (lookup_session u (sessions w3)) = Some RegContact) by now rewrite L3.
  destruct (contact_reg_step u w3 t3 F3 ltac:(assumption) ltac:(assumption)) as [L4 [D4 O4]].
  set (w4 := step u (InMessage t3) w3) in *.
  assert (F4 : fsm (lookup_session u (sessions w4)) = Some RegBotUsername) by now rewrite L4.
  destruct (bot_username_step u w4 t4 F4 ltac:(assumption) ltac:(assumption)) as [L5 [D5 O5]].
  set (w5 := step u (InMessage t4) w4) in *.
  assert (F5 : fsm (lookup_session u (sessions w5)) = Some RegDescription) by now rewrite L5.
  destruct (description_step u w5 t5 F5 ltac:(assumption) ltac:(assumption)) as [L6 [D6 O6]].
  set (w6 := step u (InMessage t5) w5) in *.
  assert (F6 : fsm (lookup_session u (sessions w6)) = Some RegPriceRange) by now rewrite L6.
  assert (Ed : db w6 = db w) by congruence.
  assert (Hlk : forall k, data_get_opt k (data (lookup_session u (sessions w6))) =
    data_get_opt k (("description", VStr (substring 0 200 t5)) ::
     filter (fun p => negb (String.eqb (fst p) "description"))
     (("bot_username", if mem (py_lower t4) bot_negatives then VNone
             else let b := py_strip t4 in VStr (if is_prefix "@" b then b else "@" ++ b)) ::
      filter (fun p => negb (String.eqb (fst p) "bot_username"))
      (("contact", VStr t3) :: filter (fun p => negb (String.eqb (fst p) "contact"))
       (("keywords", VStr (join_space (extract_keywords t2))) ::
        filter (fun p => negb (String.eqb (fst p) "keywords"))
        (("services", VStr t2) :: filter (fun p => negb (String.eqb (fst p) "services"))
         (("business_name", VStr t1) ::
          filter (fun p => negb (String.eqb (fst p) "business_name"))
          (data (lookup_session u (sessions w)))))))))%string).
  { intros k. rewrite L6. cbn [data]. do 2 f_equal.
    rewrite L5. cbn [data]. do 2 f_equal.
    rewrite L4. cbn [data]. do 2 f_equal.
    rewrite L3. cbn [data]. do 2 f_equal.
    rewrite L2. cbn [data]. do 2 f_equal.
    now rewrite L1. }
  destruct (price_range_step u w6 t6 t1 t2 (join_space (extract_keywords t2)) t3
              (substring 0 200 t5) F6 ltac:(assumption) ltac:(assumption)
              ltac:(now rewrite Ed) ltac:(now rewrite Ed))
    as [L7 [D7 O7]];
    try (rewrite Hlk, !data_get_opt_update; reflexivity).
  subst bot. destruct (mem (py_lower t4) bot_negatives) eqn:Hm;
    rewrite D7, O7, O6, O5, O4, O3, O2, O1, Hlk, !data_get_opt_update, Ed, ?Hm;
    rewrite <- ?app_assoc; cbn -[py_strip is_prefix py_lower extract_keywords join_space
                                 substring];
    repeat split; auto.
Qed.
Lemma registration_flow_registers_witness :
  let w := world_in empty_session init_database in
  fsm (lookup_session 7 (sessions w)) = None /\ db_up (db w) = true /\
  find_vendor_by_telegram 7 (db w) = None /\
  vendors (db (run (map (fun t => (7%Z, InMessage t))
                  ["/register"; "Ada Kitchen"; "catering and cakes"; "0801 555 0100";
                   "adabot"; "Home cooking"; "10-50"]%string) w)) =
    [mkVendor 1 7 "Ada Kitchen" "catering and cakes" "catering cakes" "0801 555 0100"
              (Some "@adabot") "Home cooking" "10-50" 0 0]%string.
Proof.
  cbv zeta. split; [reflexivity|]. split; [reflexivity|]. split; [reflexivity|].
  refine (proj1 (registration_flow_registers 7 (world_in empty_session init_database)
    "Ada Kitchen" "catering and cakes" "0801 555 0100" "adabot" "Home cooking" "10-50"
    eq_refl eq_refl eq_refl _)).
  repeat constructor; intros Hc; vm_compute in Hc; discriminate Hc.
Defined.
(** ** Commands *)

Lemma lookup_session_put_other u u' s ss :
  u' <> u ->
  lookup_session u' ((u, s) :: filter (fun p => negb (Z.eqb (fst p) u)) ss) =
  lookup_session u' ss.
Proof.
  intros Hu. unfold lookup_session. cbn [find fst].
  rewrite (proj2 (Z.eqb_neq u u')) by congruence.
  induction ss as [|[x sx] ss IH]; [reflexivity|]. cbn [filter find fst].
  destruct (Z.eqb_spec x u) as [->|Hx]; cbn.
  - rewrite (proj2 (Z.eqb_neq u u')) by congruence. exact IH.
  - destruct (x =? u')%Z; [reflexivity|exact IH].
Qed.

Lemma is_command_excl n1 n2 t :
  is_command n1 t = true -> n1 <> n2 -> is_command n2 t = false.
Proof.
  unfold is_command. destruct (split_at_mention _) as [c m].
  intros H Hn. apply andb_true_iff in H as [H1 _]. apply String.eqb_eq in H1. subst c.
  destruct (String.eqb_spec ("/" ++ n1) ("/" ++ n2)) as [E|_]; [|reflexivity].
  cbn in E. injection E. congruence.
Qed.

(** Extra X12: /start is answered in every state and by every user with the
    welcome message and nothing else: it neither resets nor advances an
    active flow, and the database is untouched. *)
Theorem start_command_welcome u w t :
  is_command "start" t = true ->
  step u (InMessage t) w = mkWorld (sessions w) (db w) (out w ++ [Answer "welcome"]).
Proof.
  intros H. rewrite step_unfold. unfold message_handlers. cbn [find fst snd].
  rewrite H. reflexivity.
Qed.

Lemma start_command_welcome_witness :
  let w := world_in (mkSession (Some OrdDeadline) [("vendor_id", VInt 1)]%string)
                    (db_with_order true Pending) in
  is_command "start" " /start now" = true /\
  step 7 (InMessage " /start now") w = mkWorld (sessions w) (db w) (out w ++ [Answer "welcome"]).
Proof.
  cbv zeta. split; [reflexivity|]. apply start_command_welcome. reflexivity.
Defined.

(** Extra X13: /register is handled in every state. With the database down the
    update fails and nothing changes. A user who is already a vendor only gets
    the "already registered" reply. Any other user is put at the business-name
    step, replacing an active flow; the data collected so far is kept, the other
    users' sessions and the database are untouched, and the first question is
    sent. *)
Theorem register_command_behaviour u w t :
  is_command "register" t = true ->
  let w' := step u (InMessage t) w in
  (db_up (db w) = false -> w' = w) /\
  (forall v, db_up (db w) = true -> find_vendor_by_telegram u (db w) = Some v ->
     w' = mkWorld (sessions w) (db w) (out w ++ [Answer "already_registered"])) /\
  (db_up (db w) = true -> find_vendor_by_telegram u (db w) = None ->
     lookup_session u (sessions w') =
       mkSession (Some RegBusinessName) (data (lookup_session u (sessions w))) /\
     (forall u', u' <> u -> lookup_session u' (sessions w') = lookup_session u' (sessions w)) /\
     db w' = db w /\ out w' = out w ++ [Answer "ask_business_name"]).
Proof.
  intros H w'. subst w'.
  assert (Hs : is_command "start" t = false)
    by (apply (is_command_excl "register"); [exact H | discriminate]).
  rewrite step_unfold. unfold message_handlers. cbn [find fst snd]. rewrite Hs, H.
  cbn [negb orb andb].
  unfold cmd_register, get_vendor_by_telegram_id, exec, db_read, bind, from_user, ret,
    answer, emit, set_state, get_session, put_session.
  destruct w as [ss d os]. cbn [db sessions out snd fst].
  split; [|split].
  - intros ->. reflexivity.
  - intros v -> Hv. cbn. rewrite Hv. reflexivity.
  - intros -> Hv. cbn. rewrite Hv. cbn. rewrite lookup_session_put.
    split; [reflexivity|]. split; [|auto].
    intros u' Hu. apply lookup_session_put_other. exact Hu.
Qed.

Lemma register_command_behaviour_witness :
  let w := world_in (mkSession (Some OrdDetails) [("vendor_id", VInt 1)]%string)
                    (db_with_order true Pending) in
  is_command "register" "/register" = true /\
  db_up (db w) = true /\ find_vendor_by_telegram 7 (db w) = None /\
  lookup_session 7 (sessions (step 7 (InMessage "/register") w)) =
    mkSession (Some RegBusinessName) [("vendor_id", VInt 1)]%string.
Proof.
  cbv zeta. split; [reflexivity|]. split; [reflexivity|]. split; [reflexivity|].
  exact (proj1 (proj2 (proj2 (register_command_behaviour 7
           (world_in (mkSession (Some OrdDetails) [("vendor_id", VInt 1)]%string)
                     (db_with_order true Pending)) "/register" eq_refl)) eq_refl eq_refl)).
Defined.
(** Extra X14: /orderhistory and /myrating sent outside any flow (a command
    text starts with '/', so the conversation handler lets it through) only
    read the database: the sessions and the database are unchanged and one
    reply is sent, "not a vendor" for a user without a vendor row, else "no
    orders" / "no ratings" when the vendor has none, else the history or the
    summary. With the database down nothing changes. *)
Theorem vendor_commands_read_only u w t :
  fsm (lookup_session u (sessions w)) = None -> starts_with_slash t = true ->
  let reply (tag : string) := if db_up (db w)
                   then mkWorld (sessions w) (db w) (out w ++ [Answer tag]) else w in
  (is_command "orderhistory" t = true ->
   step u (InMessage t) w =
     reply (match find_vendor_by_telegram u (db w) with
            | None => "not_a_vendor"%string
            | Some v => match filter (fun o => Z.eqb (o_vendor_id o) (vendor_id v))
                                     (orders (db w)) with
                        | [] => "no_orders"%string
                        | _ => "order_history"%string
                        end
            end)) /\
  (is_command "myrating" t = true ->
   step u (InMessage t) w =
     reply (match find_vendor_by_telegram u (db w) with
            | None => "not_a_vendor"%string
            | Some v => match vendor_stars (vendor_id v) (ratings (db w)) with
                        | [] => "no_ratings"%string
                        | _ => "rating_summary"%string
                        end
            end)).
Proof.
  intros Hs Hsl reply. subst reply.
  split; intros H;
    rewrite step_unfold, Hs; unfold message_handlers; cbn [find fst snd];
    (rewrite (is_command_excl _ "start" _ H), (is_command_excl _ "register" _ H), Hsl
      by discriminate);
    cbn [negb orb andb in_state];
    try ((rewrite (is_command_excl _ "orderhistory" _ H) by discriminate); cbn [negb orb andb]);
    rewrite H;
    unfold cmd_order_history, cmd_my_rating, get_vendor_by_telegram_id, exec, db_read,
      bind, from_user, ret, answer, emit;
    destruct w as [ss d os]; cbn [db sessions out snd fst];
    destruct (db_up d) eqn:Hup; cbn; try reflexivity;
    destruct (find_vendor_by_telegram u d); cbn; rewrite ?Hup; cbn; try reflexivity;
    match goal with |- context [match ?l with [] => _ | _ :: _ => _ end] => destruct l end;
    reflexivity.
Qed.
Lemma vendor_commands_read_only_witness :
  let w := mkWorld [] (db_with_order true Pending) [] in
  fsm (lookup_session 1001 (sessions w)) = None /\
  starts_with_slash "/orderhistory" = true /\ is_command "orderhistory" "/orderhistory" = true /\
  step 1001 (InMessage "/orderhistory") w =
    mkWorld [] (db_with_order true Pending) [Answer "order_history"].
Proof.
  cbv zeta. split; [reflexivity|]. split; [reflexivity|]. split; [reflexivity|].
  exact (proj1 (vendor_commands_read_only 1001 (mkWorld [] (db_with_order true Pending) [])
                  "/orderhistory" eq_refl eq_refl) eq_refl).
Defined.
(** ** The follow-up *)

Lemma find_order_set_status oid st d d' :
  set_order_status oid st d = Some (tt, d') ->
  db_up d' = db_up d /\ forall o, find_order oid d' = Some o -> status o = st.
Proof.
  unfold set_order_status. intros [= <-]. split; [reflexivity|].
  unfold find_order. cbn [orders]. induction (orders d) as [|o0 os IH]; [discriminate|].
  cbn [map find].
  assert (Hid : order_id (with_status oid st o0) = order_id o0)
    by (unfold with_status; now destruct (_ =? _)%Z).
  rewrite Hid. destruct (Z.eqb (order_id o0) oid) eqn:E.
  - intros o [= <-]. unfold with_status. now rewrite E.
  - exact IH.
Qed.

Lemma followup_step u oid w :
  step u (InFollowup oid) w =
  if db_up (db w) then
    match find_order oid (db w) with
    | Some o => match status o with
                | Pending => mkWorld (sessions w) (db w) (out w ++ [SendTo u "followup_check"])
                | _ => w
                end
    | None => w
    end
  else w.
Proof.
  unfold step, handle_input, schedule_order_followup, exec, db_read, from_user, bind, ret, emit.
  destruct w as [ss d os]. cbn [db sessions out].
  destruct (db_up d); [|reflexivity]. cbn.
  destruct (find_order oid d) as [o|]; [|reflexivity]. destruct (status o); reflexivity.
Qed.

(** Extra X15: the follow-up sent a day after an order only writes to the buyer
    (sessions and database untouched) and only when the order is still pending;
    once the buyer has pressed "Yes" or "No" for the order, the follow-up for
    it sends nothing and changes nothing. *)
Theorem followup_only_while_pending u b oid w :
  (let w' := step u (InFollowup oid) w in
   sessions w' = sessions w /\ db w' = db w /\
   (out w' = out w \/
    (out w' = out w ++ [SendTo u "followup_check"] /\ db_up (db w) = true /\
     exists o, find_order oid (db w) = Some o /\ status o = Pending))) /\
  (db_up (db w) = true ->
   let w1 := step b (InCallback ("complete_" ++ py_str_int oid)) w in
   step u (InFollowup oid) w1 = w1) /\
  (db_up (db w) = true ->
   let w1 := step b (InCallback ("incomplete_" ++ py_str_int oid)) w in
   step u (InFollowup oid) w1 = w1).
Proof.
  split; [|split].
  - cbv zeta. rewrite followup_step.
    destruct (db_up (db w)) eqn:Hup; [|auto].
    destruct (find_order oid (db w)) as [o|] eqn:Hf; [|auto].
    destruct (status o) eqn:Hst; cbn; auto.
    split; [reflexivity|]. split; [reflexivity|]. right. eauto.
  - intros Hup w1. destruct (complete_button_step oid b w Hup) as [Hs _].
    fold w1 in Hs. apply find_order_set_status in Hs as [Hup' Hst].
    rewrite followup_step, Hup', Hup.
    destruct (find_order oid (db w1)) as [o|]; [|reflexivity].
    now rewrite (Hst o eq_refl).
  - intros Hup w1. destruct (incomplete_button_step oid b w Hup) as [d' [Hs Hw]].
    fold w1 in Hw. apply find_order_set_status in Hs as [Hup' Hst].
    rewrite followup_step, Hw. cbn [db]. rewrite Hup', Hup.
    destruct (find_order oid d') as [o|]; [|reflexivity].
    now rewrite (Hst o eq_refl).
Qed.

Lemma followup_only_while_pending_witness :
  let w := world_in empty_session (db_with_order true Pending) in
  db_up (db w) = true /\
  out (step 7 (InFollowup 1) w) = [SendTo 7 "followup_check"] /\
  let w1 := step 7 (InCallback ("complete_" ++ py_str_int 1)) w in
  step 7 (InFollowup 1) w1 = w1.
Proof.
  cbv zeta. split; [reflexivity|]. split; [reflexivity|].
  exact (proj1 (proj2 (followup_only_while_pending 7 7 1
           (world_in empty_session (db_with_order true Pending)))) eq_refl).
Defined.
(** ** Free-text search *)

(** Extra X16: free text outside any flow that the classifier reads as a search
    only reads: sessions and database are unchanged. The classifier and the
    matcher are called, then the reply depends on the number of ranked vendors
    for the text: none, exactly one, or several. With the database down and a
    query that has keywords, the update fails after the two calls and no reply
    is sent. *)
Theorem free_text_search_reply u w t :
  fsm (lookup_session u (sessions w)) = None -> is_free_text t = true ->
  detect_intent t = Search ->
  let w' := step u (InMessage t) w in
  sessions w' = sessions w /\ db w' = db w /\
  out w' = out w ++ [CalledDetectIntent t; CalledSearch t] ++
    (if db_up (db w) || match extract_keywords t with [] => true | _ => false end
     then [Answer (match search_vendors t (vendors (db w)) with
                   | [] => "no_results"
                   | [_] => "vendor_info"
                   | _ => "vendor_list"
                   end)]
     else []).
Proof.
  intros Hs Hft Hi w'. subst w'.
  rewrite step_unfold, Hs. run_message Hft.
  unfold handle_conversation, get_state, get_session, bind, ret. cbn [fst snd].
  rewrite Hs. unfold emit at 1. cbn [fst snd]. rewrite Hi.
  unfold search_vendors_io, exec, db_read, emit, answer, bind, ret, raise.
  destruct w as [ss d os]. cbn [db sessions out fst snd].
  unfold search_vendors.
  destruct (extract_keywords t) as [|k ks]; cbn; rewrite <- ?app_assoc; cbn.
  - rewrite orb_true_r. auto.
  - rewrite orb_false_r. destruct (db_up d); cbn; rewrite <- ?app_assoc; cbn; [|auto].
    destruct (py_sort_reverse score (scan_vendors (k :: ks) (vendors d))) as [|m [|m' ms]];
      cbn; rewrite <- ?app_assoc; auto.
Qed.
Lemma free_text_search_reply_witness :
  let w := world_in empty_session (db_with_order true Pending) in
  fsm (lookup_session 7 (sessions w)) = None /\ is_free_text "I need jollof rice" = true /\
  detect_intent "I need jollof rice" = Search /\
  out (step 7 (InMessage "I need jollof rice") w) =
    [CalledDetectIntent "I need jollof rice"; CalledSearch "I need jollof rice";
     Answer "vendor_info"].
Proof.
  cbv zeta. split; [reflexivity|]. split; [vm_compute; reflexivity|].
  split; [vm_compute; reflexivity|].
  destruct (free_text_search_reply 7 (world_in empty_session (db_with_order true Pending))
              "I need jollof rice" eq_refl ltac:(vm_compute; reflexivity)
              ltac:(vm_compute; reflexivity)) as [_ [_ Ho]].
  rewrite Ho. vm_compute. reflexivity.
Defined.
(** ** Orders for a vendor that does not exist *)

Lemma deadline_step_no_vendor u w t vid det :
  fsm (lookup_session u (sessions w)) = Some OrdDeadline ->
  data_get_opt "vendor_id" (data (lookup_session u (sessions w))) = VInt vid ->
  data_get_opt "order_details" (data (lookup_session u (sessions w))) = VStr det ->
  db_up (db w) = true -> find_vendor vid (db w) = None ->
  starts_with_slash t = true -> is_command "start" t = false -> is_command "register" t = false ->
  let w' := step u (InMessage t) w in
  insert_order vid u det t (db w) = Some (next_order_id (db w), db w') /\
  fsm (lookup_session u (sessions w')) = None /\
  out w' = out w.
Proof.
  intros Hs Hv Hd Hup Hf Hsl Hst Hrg. cbv zeta. rewrite step_unfold, Hs. run_slash Hsl Hst Hrg.
  unfold complete_order, get_data, get_session, bind, ret, from_user.
  cbn [fst snd]. rewrite (data_get_int_opt _ _ _ _ _ Hv), (data_get_str_opt _ _ _ _ _ Hd).
  unfold exec, db_read. cbn. rewrite Hup. cbn.
  unfold find_vendor in Hf. rewrite Hf.
  unfold clear_state, put_session, bind, ret. cbn.
  rewrite lookup_session_put. split; [unfold insert_order; now rewrite Hup|].
  split; reflexivity.
Qed.

(** Extra X17: the order button does not check that its vendor exists. For a
    vendor id with no vendor row, pressing the order button and sending the
    details and the deadline (messages starting with '/' whose first word, with
    or without an @mention, is not /start or /register) still inserts a pending order for that id and clears the state,
    but nobody is notified, the buyer gets no confirmation and no follow-up is
    scheduled: the only messages are the two questions. *)
Theorem order_flow_unknown_vendor vid t1 t2 u w :
  db_up (db w) = true -> find_vendor vid (db w) = None ->
  starts_with_slash t1 = true -> command_word t1 <> "/start"%string ->
  command_word t1 <> "/register"%string ->
  starts_with_slash t2 = true -> command_word t2 <> "/start"%string ->
  command_word t2 <> "/register"%string ->
  let w' := run [(u, InCallback ("order_" ++ py_str_int vid)); (u, InMessage t1);
                 (u, InMessage t2)] w in
  orders (db w') = orders (db w) ++ [mkOrder (next_order_id (db w)) vid u t1 t2 Pending] /\
  vendors (db w') = vendors (db w) /\
  fsm (lookup_session u (sessions w')) = None /\
  out w' = out w ++ [EditText "ask_order_details"; Answer "ask_deadline"].
Proof.
  intros Hup Hf H1 H2 H3 H4 H5 H6. cbv zeta. unfold run. cbn [fold_left fst snd].
  apply (command_word_not_command "start") in H2, H5.
  apply (command_word_not_command "register") in H3, H6.
  set (w1 := step u (InCallback ("order_" ++ py_str_int vid)) w).
  destruct (place_order_step vid u w) as [S1 [V1 [D1 O1]]]. fold w1 in S1, V1, D1, O1.
  set (w2 := step u (InMessage t1) w1).
  destruct (order_details_step u w1 t1 S1 H1 H2 H3) as [S2 [T2 [V2 [D2 O2]]]].
  fold w2 in S2, T2, V2, D2, O2. rewrite V1 in V2.
  rewrite D1 in D2.
  destruct (deadline_step_no_vendor u w2 t2 vid t1 S2 V2 T2 ltac:(now rewrite D2)
              ltac:(now rewrite D2) H4 H5 H6) as [I3 [S3 O3]].
  rewrite D2 in I3. unfold insert_order in I3. injection I3 as I3.
  rewrite <- I3. cbn. rewrite O3, O2, O1.
  repeat split; [exact S3|]. now rewrite <- !app_assoc.
Qed.

Lemma order_flow_unknown_vendor_witness :
  let w := world_in empty_session (db_with_order true Pending) in
  db_up (db w) = true /\ find_vendor 9 (db w) = None /\
  orders (db (run [(7%Z, InCallback ("order_" ++ py_str_int 9)); (7%Z, InMessage "/2 plates");
                   (7%Z, InMessage "/tonight")] w)) =
    orders (db w) ++ [mkOrder 2 9 7 "/2 plates" "/tonight" Pending].
Proof.
  cbv zeta. split; [reflexivity|]. split; [reflexivity|].
  apply (order_flow_unknown_vendor 9 "/2 plates" "/tonight" 7
           (world_in empty_session (db_with_order true Pending)));
    first [reflexivity | intros Hc; vm_compute in Hc; discriminate Hc].
Defined.
(** ** Sessions of other users *)


Lemma others_kept_refl u w : others_kept u w w.
Proof. intros u' _. reflexivity. Qed.

Lemma others_kept_trans u w1 w2 w3 :
  others_kept u w1 w2 -> others_kept u w2 w3 -> others_kept u w1 w3.
Proof. intros H1 H2 u' Hu. rewrite H2, H1 by exact Hu. reflexivity. Qed.

Lemma keeps_others_ret {A} (a : A) : keeps_others (ret a).
Proof. intros u w. apply others_kept_refl. Qed.

Lemma keeps_others_raise {A} : keeps_others (@raise A).
Proof. intros u w. apply others_kept_refl. Qed.

Lemma keeps_others_from_user : keeps_others from_user.
Proof. intros u w. apply others_kept_refl. Qed.

Lemma keeps_others_get_session : keeps_others get_session.
Proof. intros u w. apply others_kept_refl. Qed.

Lemma keeps_others_put_session s : keeps_others (put_session s).
Proof. intros u w u' Hu. apply lookup_session_put_other. exact Hu. Qed.

Lemma keeps_others_clear_state : keeps_others clear_state.
Proof. apply keeps_others_put_session. Qed.

Lemma keeps_others_emit e : keeps_others (emit e).
Proof. intros u w u' _. reflexivity. Qed.

Lemma keeps_others_answer t : keeps_others (answer t).
Proof. apply keeps_others_emit. Qed.

Lemma keeps_others_exec {A} (f : database -> option (A * database)) : keeps_others (exec f).
Proof.
  intros u w. unfold exec.
  destruct (db_up (db w)); [destruct (f (db w)) as [[a d']|]|]; intros u' _; reflexivity.
Qed.

Lemma keeps_others_bind {A B} (m : M A) (k : A -> M B) :
  keeps_others m -> (forall a, keeps_others (k a)) -> keeps_others (bind m k).
Proof.
  intros Hm Hk u w. unfold bind. specialize (Hm u w).
  destruct (m u w) as [[a|] w']; cbn in *; [|exact Hm].
  eapply others_kept_trans; [exact Hm | apply Hk].
Qed.

Lemma keeps_others_try_except {A} (m h : M A) :
  keeps_others m -> keeps_others h -> keeps_others (try_except m h).
Proof.
  intros Hm Hh u w. unfold try_except. specialize (Hm u w).
  destruct (m u w) as [[a|] w']; cbn in *; [exact Hm|].
  eapply others_kept_trans; [exact Hm | apply Hh].
Qed.

Lemma keeps_others_try_finally {A} (m : M A) (f : M unit) :
  keeps_others m -> keeps_others f -> keeps_others (try_finally m f).
Proof.
  intros Hm Hf u w. unfold try_finally. specialize (Hm u w).
  destruct (m u w) as [r w']. specialize (Hf u w').
  destruct (f u w') as [r2 w'']. cbn in *.
  destruct r2; cbn; eapply others_kept_trans; eauto.
Qed.

Create HintDb others.
#[local] Hint Resolve keeps_others_ret keeps_others_raise keeps_others_from_user
  keeps_others_get_session keeps_others_put_session keeps_others_clear_state
  keeps_others_emit keeps_others_answer keeps_others_exec : others.

Ltac others_walk :=
  repeat match goal with
  | |- keeps_others (bind _ _) => apply keeps_others_bind; [| intros ?]
  | |- keeps_others (try_except _ _) => apply keeps_others_try_except
  | |- keeps_others (try_finally _ _) => apply keeps_others_try_finally
  | |- keeps_others (match ?x with _ => _ end) => destruct x
  | |- keeps_others (if ?x then _ else _) => destruct x
  | |- keeps_others (let _ := _ in _) => cbv zeta
  | |- keeps_others ?m =>
      let h := eval red in m in
      lazymatch h with
      | bind _ _ => change m with h
      | try_except _ _ => change m with h
      | try_finally _ _ => change m with h
      | match _ with _ => _ end => change m with h
      | if _ then _ else _ => change m with h
      | let _ := _ in _ => change m with h
      | answer _ => change m with h
      | emit _ => change m with h
      end
  end.

Lemma handlers_keep_others h :
  In h (message_handlers ++ callback_handlers) -> forall x, keeps_others (snd h x).
Proof. intros Hh x. handler_cases Hh; cbn [snd]; others_walk; eauto with others. Qed.

Lemma keeps_others_dispatch hs x :
  (forall h, In h hs -> forall y, keeps_others (snd h y)) -> keeps_others (dispatch hs x).
Proof.
  intros H. unfold dispatch. apply keeps_others_bind.
  - others_walk; eauto with others.
  - intros st. destruct (find _ hs) as [h|] eqn:E.
    + apply find_some in E as [Hin _]. now apply H.
    + apply keeps_others_ret.
Qed.

(** Extra X18: users do not interfere: whatever one user sends or presses,
    and the follow-up of one user's order, leave the conversation state and
    the collected data of every other user as they were. *)
Theorem step_keeps_other_sessions u u' i w :
  u' <> u -> lookup_session u' (sessions (step u i w)) = lookup_session u' (sessions w).
Proof.
  revert u'. change (others_kept u w (snd (handle_input i u w))).
  revert u w. change (keeps_others (handle_input i)).
  unfold handle_input. destruct i as [t|d|oid].
  - apply keeps_others_dispatch. intros h Hin.
    apply handlers_keep_others. apply in_or_app. now left.
  - apply keeps_others_dispatch. intros h Hin.
    apply handlers_keep_others. apply in_or_app. now right.
  - unfold schedule_order_followup. others_walk; eauto with others.
Qed.

Lemma step_keeps_other_sessions_witness :
  let w := mkWorld [(7%Z, mkSession (Some OrdDetails) [("vendor_id", VInt 1)]%string)]
                   (db_with_order true Pending) [] in
  (8 <> 7)%Z /\
  lookup_session 7 (sessions (step 8 (InMessage "/register") w)) =
    mkSession (Some OrdDetails) [("vendor_id", VInt 1)]%string.
Proof.
  cbv zeta. split; [lia|].
  exact (step_keeps_other_sessions 8 7 (InMessage "/register")
           (mkWorld [(7%Z, mkSession (Some OrdDetails) [("vendor_id", VInt 1)]%string)]
                    (db_with_order true Pending) []) ltac:(lia)).
Defined.
(** ** Rating an order that does not exist *)

Lemma set_order_status_absent oid st d :
  find_order oid d = None -> set_order_status oid st d = Some (tt, d).
Proof.
  unfold find_order, set_order_status. intros Hf. do 2 f_equal.
  assert (E : map (with_status oid st) (orders d) = orders d).
  { induction (orders d) as [|o os IH]; [reflexivity|].
    cbn in Hf |- *. destruct (order_id o =? oid)%Z eqn:Eo; [discriminate|].
    unfold with_status at 1. rewrite Eo. f_equal. exact (IH Hf). }
  rewrite E. destruct d; reflexivity.
Qed.

Lemma review_step_no_order u w t oid k :
  fsm (lookup_session u (sessions w)) = Some RateReview ->
  data_get_opt "order_id" (data (lookup_session u (sessions w))) = VInt oid ->
  data_get_opt "stars" (data (lookup_session u (sessions w))) = VInt k ->
  db_up (db w) = true -> find_order oid (db w) = None ->
  starts_with_slash t = true -> is_command "start" t = false -> is_command "register" t = false ->
  step u (InMessage t) w = w.
Proof.
  destruct w as [ss d os]. cbn [sessions db out].
  intros Hs Ho Hk Hup Hf Hsl Hst Hrg. rewrite step_unfold. cbn [sessions]. rewrite Hs.
  run_slash Hsl Hst Hrg.
  unfold process_review, get_data, get_session. unfold bind at 1 2. cbn [fst snd].
  unfold bind at 1. rewrite (data_get_int_opt _ _ _ _ _ Ho).
  unfold bind at 1. rewrite (data_get_int_opt _ _ _ _ _ Hk).
  unfold bind at 1. unfold exec at 1, db_read. cbn [db]. rewrite Hup, Hf. reflexivity.
Qed.

(** Extra X19: the "Yes" button of the follow-up does not check that its order
    exists. For an order id with no order row (database up), pressing "Yes",
    then a stars button, then sending a review (a message starting with '/'
    whose first word, with or without an @mention, is not /start or
    /register) leaves the database as it was and the user stuck
    in the review step: the review is dropped without a reply, and only the
    two questions were sent. *)
Theorem rating_unknown_order_stuck oid k t u w :
  db_up (db w) = true -> find_order oid (db w) = None ->
  starts_with_slash t = true -> command_word t <> "/start"%string -> command_word t <> "/register"%string ->
  let w' := run [(u, InCallback ("complete_" ++ py_str_int oid));
                 (u, InCallback ("rate_" ++ py_str_int k)); (u, InMessage t)] w in
  db w' = db w /\ fsm (lookup_session u (sessions w')) = Some RateReview /\
  out w' = out w ++ [EditText "ask_rating"; EditText "ask_review"].
Proof.
  intros Hup Hf Hsl Hst Hrg. cbv zeta. unfold run. cbn [fold_left fst snd].
  apply (command_word_not_command "start") in Hst.
  apply (command_word_not_command "register") in Hrg.
  destruct (complete_button_step oid u w Hup) as [D1 [S1 [O1 E1]]].
  set (w1 := step u (InCallback ("complete_" ++ py_str_int oid)) w) in *.
  rewrite set_order_status_absent in D1 by exact Hf. injection D1 as D1.
  destruct (rate_button_step k u w1 S1) as [S2 [K2 [O2 [D2 E2]]]].
  set (w2 := step u (InCallback ("rate_" ++ py_str_int k)) w1) in *.
  rewrite O1 in O2.
  rewrite (review_step_no_order u w2 t oid k S2 O2 K2 ltac:(congruence) ltac:(congruence)
             Hsl Hst Hrg).
  split; [congruence|]. split; [exact S2|]. rewrite E2, E1. now rewrite <- app_assoc.
Qed.

Lemma rating_unknown_order_stuck_witness :
  let w := world_in empty_session (db_with_order true Pending) in
  db_up (db w) = true /\ find_order 5 (db w) = None /\
  fsm (lookup_session 7 (sessions (run [(7%Z, InCallback ("complete_" ++ py_str_int 5));
                                        (7%Z, InCallback ("rate_" ++ py_str_int 4));
                                        (7%Z, InMessage "/great")] w))) = Some RateReview.
Proof.
  cbv zeta. split; [reflexivity|]. split; [reflexivity|].
  exact (proj1 (proj2 (rating_unknown_order_stuck 5 4 "/great" 7
           (world_in empty_session (db_with_order true Pending))
           eq_refl eq_refl eq_refl
           ltac:(intros Hc; vm_compute in Hc; discriminate Hc)
           ltac:(intros Hc; vm_compute in Hc; discriminate Hc)))).
Defined.
(** ** Stored bot usernames *)

Lemma bots_ok_lookup u w :
  bots_ok w -> bot_ok (data_get_opt "bot_username" (data (lookup_session u (sessions w)))).
Proof.
  intros [_ Hs]. unfold lookup_session.
  destruct (find _ (sessions w)) as [p|] eqn:E; [|exact I].
  apply find_some in E as [Hin _]. exact (proj1 (Forall_forall _ _) Hs p Hin).
Qed.

Lemma bots_ok_put u s w :
  bots_ok w -> bot_ok (data_get_opt "bot_username" (data s)) ->
  bots_ok (mkWorld ((u, s) :: filter (fun p => negb (Z.eqb (fst p) u)) (sessions w))
                   (db w) (out w)).
Proof.
  intros [Hv Hs] Hb. split; [exact Hv|]. cbn. constructor; [exact Hb|].
  apply Forall_forall. intros p Hp. apply filter_In in Hp as [Hp _].
  exact (proj1 (Forall_forall _ _) Hs p Hp).
Qed.

Lemma keeps_bots_ret {A} (a : A) : keeps_bots (ret a).
Proof. intros u w H. exact H. Qed.

Lemma keeps_bots_raise {A} : keeps_bots (@raise A).
Proof. intros u w H. exact H. Qed.

Lemma keeps_bots_from_user : keeps_bots from_user.
Proof. intros u w H. exact H. Qed.

Lemma keeps_bots_get_session : keeps_bots get_session.
Proof. intros u w H. exact H. Qed.

Lemma keeps_bots_emit e : keeps_bots (emit e).
Proof. intros u w H. exact H. Qed.

Lemma keeps_bots_answer t : keeps_bots (answer t).
Proof. apply keeps_bots_emit. Qed.

Lemma keeps_bots_clear_state : keeps_bots clear_state.
Proof. intros u w H. apply bots_ok_put; [exact H | exact I]. Qed.

Lemma keeps_bots_set_state st : keeps_bots (set_state st).
Proof.
  intros u w H. unfold set_state, bind, get_session. cbn.
  apply bots_ok_put; [exact H|]. cbn. now apply bots_ok_lookup.
Qed.

Lemma keeps_bots_update_data k v :
  String.eqb "bot_username" k = false \/ bot_ok v -> keeps_bots (update_data k v).
Proof.
  intros Hk u w H. unfold update_data, bind, get_session. cbn.
  apply bots_ok_put; [exact H|]. cbn [data]. rewrite data_get_opt_update.
  destruct (String.eqb k "bot_username") eqn:E.
  - apply String.eqb_eq in E. subst k. destruct Hk as [Hk|Hk]; [discriminate Hk | exact Hk].
  - now apply bots_ok_lookup.
Qed.

Lemma keeps_bots_exec {A} (f : database -> option (A * database)) :
  (forall d a d', f d = Some (a, d') ->
     Forall vendor_bot_ok (vendors d) -> Forall vendor_bot_ok (vendors d')) ->
  keeps_bots (exec f).
Proof.
  intros Hf u w [Hv Hs]. unfold exec.
  destruct (db_up (db w)); [|split; assumption].
  destruct (f (db w)) as [[a d']|] eqn:E; [|split; assumption].
  split; [exact (Hf _ _ _ E Hv) | exact Hs].
Qed.

Lemma keeps_bots_exec_read {A} (f : database -> A) : keeps_bots (exec (db_read f)).
Proof. apply keeps_bots_exec. intros d a d' [= _ <-]. auto. Qed.

Lemma keeps_bots_insert_order vid bid det dl :
  keeps_bots (exec (insert_order vid bid det dl)).
Proof. apply keeps_bots_exec. intros d a d' [= _ <-]. auto. Qed.

Lemma keeps_bots_set_order_status oid st : keeps_bots (exec (set_order_status oid st)).
Proof. apply keeps_bots_exec. intros d a d' [= _ <-]. auto. Qed.

Lemma keeps_bots_insert_rating r : keeps_bots (exec (insert_rating r)).
Proof.
  apply keeps_bots_exec. intros d a d' E. unfold insert_rating in E.
  destruct (existsb _ _); [discriminate|]. destruct (_ && _); [|discriminate].
  now injection E as _ <-.
Qed.

Lemma keeps_bots_set_vendor_rating vid avg total :
  keeps_bots (exec (set_vendor_rating vid avg total)).
Proof.
  apply keeps_bots_exec. intros d a d' [= _ <-] Hv. cbn.
  apply Forall_map. eapply Forall_impl; [|exact Hv].
  intros v. unfold vendor_bot_ok. now destruct (vendor_id v =? vid)%Z.
Qed.

Lemma keeps_bots_insert_vendor tid n sv kw ct bv ds pr :
  bot_ok bv ->
  keeps_bots (exec (insert_vendor tid n sv kw ct
                      (match bv with VStr b => Some b | _ => None end) ds pr)).
Proof.
  intros Hb. apply keeps_bots_exec. intros d a d' E Hv. unfold insert_vendor in E.
  destruct (find_vendor_by_telegram _ _); [discriminate|]. injection E as _ <-. cbn.
  apply Forall_app. split; [exact Hv|]. constructor; [|constructor].
  unfold vendor_bot_ok. cbn. destruct bv; cbn; exact Hb || exact I.
Qed.

Lemma keeps_bots_bind {A B} (m : M A) (k : A -> M B) :
  keeps_bots m -> (forall a, keeps_bots (k a)) -> keeps_bots (bind m k).
Proof.
  intros Hm Hk u w H. unfold bind. specialize (Hm u w H).
  destruct (m u w) as [[a|] w']; cbn in *; [apply Hk|]; exact Hm.
Qed.

Lemma keeps_bots_get_data_bind {B} (k : list (string * value) -> M B) :
  (forall d, bot_ok (data_get_opt "bot_username" d) -> keeps_bots (k d)) ->
  keeps_bots (bind get_data k).
Proof.
  intros Hk u w H. unfold bind, get_data, get_session, ret. cbn.
  apply Hk; [now apply bots_ok_lookup | exact H].
Qed.

Lemma keeps_bots_try_except {A} (m h : M A) :
  keeps_bots m -> keeps_bots h -> keeps_bots (try_except m h).
Proof.
  intros Hm Hh u w H. unfold try_except. specialize (Hm u w H).
  destruct (m u w) as [[a|] w']; cbn in *; [exact Hm | apply Hh, Hm].
Qed.

Lemma keeps_bots_try_finally {A} (m : M A) (f : M unit) :
  keeps_bots m -> keeps_bots f -> keeps_bots (try_finally m f).
Proof.
  intros Hm Hf u w H. unfold try_finally. specialize (Hm u w H).
  destruct (m u w) as [r w']. specialize (Hf u w' Hm).
  destruct (f u w') as [r2 w'']. cbn in *. destruct r2; exact Hf.
Qed.

Lemma bot_ok_normalised t :
  bot_ok (if mem (py_lower t) bot_negatives then VNone
          else let b := py_strip t in VStr (if is_prefix "@" b then b else "@" ++ b)).
Proof.
  destruct (mem (py_lower t) bot_negatives); [exact I|]. cbn zeta.
  unfold bot_ok. destruct (is_prefix "@" (py_strip t)) eqn:E; [exact E | reflexivity].
Qed.

Create HintDb bots.
#[local] Hint Resolve keeps_bots_ret keeps_bots_raise keeps_bots_from_user
  keeps_bots_get_session keeps_bots_emit keeps_bots_answer keeps_bots_clear_state
  keeps_bots_set_state keeps_bots_exec_read keeps_bots_insert_order
  keeps_bots_set_order_status keeps_bots_insert_rating keeps_bots_set_vendor_rating
  keeps_bots_insert_vendor bot_ok_normalised : bots.

Ltac bots_walk :=
  repeat match goal with
  | |- keeps_bots (set_state _) => apply keeps_bots_set_state
  | |- keeps_bots (clear_state) => apply keeps_bots_clear_state
  | |- keeps_bots (update_data _ _) =>
      apply keeps_bots_update_data; first [left; reflexivity | right]
  | |- keeps_bots (bind get_data _) => apply keeps_bots_get_data_bind; intros ? ?
  | |- keeps_bots (bind _ _) => apply keeps_bots_bind; [| intros ?]
  | |- keeps_bots (try_except _ _) => apply keeps_bots_try_except
  | |- keeps_bots (try_finally _ _) => apply keeps_bots_try_finally
  | |- keeps_bots (match ?x with _ => _ end) => destruct x
  | |- keeps_bots (if ?x then _ else _) => destruct x
  | |- keeps_bots (let _ := _ in _) => cbv zeta
  | |- keeps_bots ?m =>
      let h := eval red in m in
      lazymatch h with
      | bind _ _ => change m with h
      | try_except _ _ => change m with h
      | try_finally _ _ => change m with h
      | match _ with _ => _ end => change m with h
      | if _ then _ else _ => change m with h
      | let _ := _ in _ => change m with h
      | answer _ => change m with h
      | emit _ => change m with h
      | set_state _ => change m with h
      | update_data _ _ => change m with h
      end
  end.

Lemma handlers_keep_bots h :
  In h (message_handlers ++ callback_handlers) -> forall x, keeps_bots (snd h x).
Proof. intros Hh x. handler_cases Hh; cbn [snd]; bots_walk; eauto with bots. Qed.
Lemma keeps_bots_dispatch hs x :
  (forall h, In h hs -> forall y, keeps_bots (snd h y)) -> keeps_bots (dispatch hs x).
Proof.
  intros H. unfold dispatch. apply keeps_bots_bind.
  - bots_walk; eauto with bots.
  - intros st. destruct (find _ hs) as [h|] eqn:E.
    + apply find_some in E as [Hin _]. now apply H.
    + apply keeps_bots_ret.
Qed.

Lemma step_keeps_bots u i w : bots_ok w -> bots_ok (step u i w).
Proof.
  revert u w. change (keeps_bots (handle_input i)).
  unfold handle_input. destruct i as [t|d|oid].
  - apply keeps_bots_dispatch. intros h Hin.
    apply handlers_keep_bots. apply in_or_app. now left.
  - apply keeps_bots_dispatch. intros h Hin.
    apply handlers_keep_bots. apply in_or_app. now right.
  - unfold schedule_order_followup. bots_walk; eauto with bots.
Qed.

(** Extra X20: stored bot usernames are well formed. If every vendor row and
    every session's collected bot username is absent or starts with '@' (as in
    a fresh database with no sessions), this stays true after any sequence of
    messages, button presses and follow-ups: the registration flow stores the
    username with an '@' added when missing, and nothing else writes it. *)
Theorem run_keeps_bots_ok us w : bots_ok w -> bots_ok (run us w).
Proof.
  unfold run. revert w. induction us as [|[u i] us IH]; intros w H; [exact H|].
  cbn [fold_left fst snd]. apply IH. now apply step_keeps_bots.
Qed.

Lemma run_keeps_bots_ok_witness :
  let w := mkWorld [] init_database [] in
  bots_ok w /\
  Forall vendor_bot_ok
    (vendors (db (run (map (fun t => (7%Z, InMessage t))
                        ["/register"; "Ada Kitchen"; "catering and cakes"; "0801 555 0100";
                         "adabot"; "Home cooking"; "10-50"]%string) w))).
Proof.
  cbv zeta. assert (H : bots_ok (mkWorld [] init_database [])) by (split; constructor).
  split; [exact H|].
  exact (proj1 (run_keeps_bots_ok _ _ H)).
Defined.

(** ** C4 and C7: flow entry and the follow-up buttons *)

(** Claim C4 (amended): while a user has an active flow, no message of theirs
    reaches the intent classifier or the vendor matcher (no such call is
    recorded, whatever the text). The entry points of the flows do not look at
    the current state: the order button of any vendor id (the callback data
    "order_" followed by the id) always puts the user into the order flow,
    and, when the database can be read, /register puts an unregistered user
    into the registration flow; either replaces whatever flow was active, as
    a user holds one state at a time. *)
Theorem flow_precedence_and_entry :
  (forall u w t, fsm (lookup_session u (sessions w)) <> None ->
     no_classify w (step u (InMessage t) w)) /\
  (forall u w vid,
     fsm (lookup_session u (sessions (step u (InCallback ("order_" ++ py_str_int vid)) w)))
       = Some OrdDetails) /\
  (forall u w t, is_command "register" t = true ->
     db_up (db w) = true -> find_vendor_by_telegram u (db w) = None ->
     fsm (lookup_session u (sessions (step u (InMessage t) w))) = Some RegBusinessName).
Proof.
  split; [|split].
  - intros u w t Hf. rewrite step_unfold. destruct_find E; [|apply fr_refl].
    apply find_some in E as [Hin _].
    destruct (message_handlers_no_classify h Hin) as [Hp|Hs]; [apply Hp|].
    rewrite Hs, handle_conversation_in_flow by exact Hf. apply fr_refl.
  - intros u w vid. exact (proj1 (place_order_step vid u w)).
  - intros u w t H Hup Hv.
    assert (Hs : is_command "start" t = false)
      by (apply (is_command_excl "register"); [exact H | discriminate]).
    rewrite step_unfold. unfold message_handlers. cbn [find fst snd]. rewrite Hs, H.
    cbn [negb orb andb].
    unfold cmd_register, get_vendor_by_telegram_id, exec, db_read, bind, from_user, ret,
      answer, emit, set_state, get_session, put_session.
    destruct w as [ss d os]. cbn [db sessions out snd fst] in *.
    rewrite Hup. cbn. rewrite Hv. cbn. now rewrite lookup_session_put.
Qed.

(** Claim C7 (amended): with the database up, pressing "complete_" followed by
    an order id sets the order with that id to completed, and "incomplete_"
    followed by an order id sets it to flagged, whatever its current status.
    Every update either keeps the status of every existing order and only
    appends pending orders, or is a press of one of these two buttons, whose
    data with the prefix removed reads as an order id, and sets the order with
    that id to completed or to flagged. *)
Theorem order_status_transitions :
  (forall u oid w, db_up (db w) = true ->
     orders (db (step u (InCallback ("complete_" ++ py_str_int oid)) w)) =
     map (with_status oid Completed) (orders (db w))) /\
  (forall u oid w, db_up (db w) = true ->
     orders (db (step u (InCallback ("incomplete_" ++ py_str_int oid)) w)) =
     map (with_status oid Flagged) (orders (db w))) /\
  (forall u i w,
     let w' := step u i w in
     keeps_orders w w' \/
     (exists d oid, i = InCallback d /\ is_prefix "complete_" d = true /\
        py_int (py_remove_all "complete_" d) = Some oid /\
        orders (db w') = map (with_status oid Completed) (orders (db w))) \/
     (exists d oid, i = InCallback d /\ is_prefix "incomplete_" d = true /\
        py_int (py_remove_all "incomplete_" d) = Some oid /\
        orders (db w') = map (with_status oid Flagged) (orders (db w)))).
Proof.
  split; [|split].
  - intros u oid w Hup. destruct (complete_button_step oid u w Hup) as [D _].
    set (w' := step u (InCallback ("complete_" ++ py_str_int oid)) w) in *.
    unfold set_order_status in D. rewrite Hup in D. injection D as D.
    rewrite <- D. reflexivity.
  - intros u oid w Hup. destruct (incomplete_button_step oid u w Hup) as [d' [D ->]].
    unfold set_order_status in D. rewrite Hup in D. injection D as <-. reflexivity.
  - intros u i w. cbv zeta. rewrite step_unfold. destruct i as [t|d|oid].
    + left. destruct_find E.
      * apply find_some in E as [Hin _]. now apply message_handlers_keep_orders.
      * apply fr_refl.
    + destruct_find E; [|left; apply fr_refl].
      apply find_some in E as [Hin Hf].
      destruct (callback_handlers_keep_orders h Hin) as [Hk|[[Hs Hp]|[Hs Hp]]];
        [left; apply Hk| |]; rewrite Hs, Hp in *.
      * destruct (order_completed_orders d u w) as [H|[oid [Ho H]]]; [left; exact H|].
        right; left. now exists d, oid.
      * destruct (order_incomplete_orders d u w) as [H|[oid [Ho H]]]; [left; exact H|].
        right; right. now exists d, oid.
    + left. apply followup_keeps_orders.
Qed.
